(** * The generator of dev-gpt: content extraction and the
      generate / build / debug control loop

    This development embeds [src/options/generate/generator.py] (the class
    [Generator]) and states the properties of its specification.

    Conventions of the embedding.
    - Python text ([str]) is a list of 8-bit characters, read as the code
      points U+0000 to U+00FF.  The character classes used by the program
      ([\w] of the regular expressions, the whitespace of [str.strip], the
      case folding of [str.lower]) follow Python's tables on that range.
    - The two regular expressions of [extract_content_from_result] are
      written out as backtracking matchers, one definition per piece of
      the pattern, tried in the order of Python's [re] engine.
    - Everything the generator does to the outside (the reasoning backend,
      the remote builder, the registry, the file system, the terminal) goes
      through one [World]; the answers of the outside, and the failures
      of the backend, are read from streams indexed by the number of the
      request, so that a theorem stated for every [World] covers every
      possible run.
    - An exception is a value of [exn]; a method is a function
      [World -> Outcome A * World].  Messages written with [print] and
      [print_colored] have no reader in the program and are left out. *)

From Stdlib Require Import ZArith NArith List Ascii String Bool Lia.
From stdpp Require Import base option list gmap strings pretty.
Import ListNotations.
Open Scope list_scope.

(* ================================================================== *)
(** * Text *)
(* ================================================================== *)

Abbreviation text := (list ascii).

(** A literal of the source. *)
Definition txt (s : string) : text := list_ascii_of_string s.

Definition code (c : ascii) : N := N_of_ascii c.

Definition NL : ascii := "010"%char.

Definition between (lo hi : N) (c : ascii) : bool :=
  ((lo <=? code c) && (code c <=? hi))%N.

(** [str.isspace] on one character: TAB to CR, FS to US, space, NEL and
    the no-break space. *)
Definition is_space (c : ascii) : bool :=
  between 9 13 c || between 28 32 c || (code c =? 133)%N || (code c =? 160)%N.

(** [\w] of a [str] pattern: alphanumeric in the sense of [str.isalnum],
    or the underscore. *)
Definition is_word (c : ascii) : bool :=
  between 48 57 c || between 65 90 c || between 97 122 c || (code c =? 95)%N
  || (code c =? 170)%N || between 178 179 c || (code c =? 181)%N
  || between 185 186 c || between 188 190 c
  || between 192 214 c || between 216 246 c || between 248 255 c.

(** [str.lower] on one character. *)
Definition lower_char (c : ascii) : ascii :=
  if between 65 90 c || (between 192 222 c && negb (code c =? 215)%N)
  then ascii_of_N (code c + 32)
  else c.

Definition lower (s : text) : text := map lower_char s.

Fixpoint lstrip (s : text) : text :=
  match s with
  | c :: s' => if is_space c then lstrip s' else s
  | [] => []
  end.

Definition rstrip (s : text) : text := rev (lstrip (rev s)).

(** [s.strip()] *)
Definition strip (s : text) : text := rstrip (lstrip s).

(** [s.startswith(p)], returning what follows the prefix. *)
Fixpoint strip_prefix (p s : text) : option text :=
  match p with
  | [] => Some s
  | a :: p' =>
      match s with
      | c :: s' => if Ascii.eqb a c then strip_prefix p' s' else None
      | [] => None
      end
  end.

Definition startswith (s p : text) : bool :=
  match strip_prefix p s with Some _ => true | None => false end.

(** [needle in s] *)
Fixpoint contains (needle s : text) : bool :=
  startswith s needle ||
  match s with
  | _ :: s' => contains needle s'
  | [] => false
  end.

(** Truth value of a string: the empty string is false. *)
Definition truthy (s : text) : bool :=
  match s with [] => false | _ :: _ => true end.

(* ================================================================== *)
(** * The two patterns of [extract_content_from_result] *)
(* ================================================================== *)

Module Re.

(** The file name is put into the pattern as it is.  For the names the
    program uses (letters, digits, [_], [-] and [.]) every character
    stands for itself, except the dot, which matches any character but
    the newline. *)
Definition plain_name_char (c : ascii) : bool :=
  between 48 57 c || between 65 90 c || between 97 122 c
  || (code c =? 95)%N || (code c =? 45)%N || (code c =? 46)%N.

Definition plain_name (name : text) : bool := forallb plain_name_char name.

Definition atom (p c : ascii) : bool :=
  if Ascii.eqb p "." then negb (Ascii.eqb c NL) else Ascii.eqb p c.

Fixpoint file_name (name s : text) : option text :=
  match name with
  | [] => Some s
  | p :: name' =>
      match s with
      | c :: s' => if atom p c then file_name name' s' else None
      | [] => None
      end
  end.

(** [\w*], as long as it can be. *)
Fixpoint word_run (s : text) : text :=
  match s with
  | c :: s' => if is_word c then word_run s' else s
  | [] => []
  end.

(** [\w+\n].  The run of word characters is greedy; giving characters back
    cannot help, since the character after a shorter run is a word
    character and not the newline. *)
Definition tag_line (s : text) : option text :=
  match s with
  | c :: s' =>
      if is_word c then
        match word_run s' with
        | n :: r => if Ascii.eqb n NL then Some r else None
        | [] => None
        end
      else None
  | [] => None
  end.

(** [([\s\S]*?)close]: the shortest capture after which [close] follows.
    Gives the capture and the input left after [close]. *)
Fixpoint lazy_until (close s : text) : option (text * text) :=
  match strip_prefix close s with
  | Some r => Some ([], r)
  | None =>
      match s with
      | c :: s' =>
          match lazy_until close s' with
          | Some (cap, r) => Some (c :: cap, r)
          | None => None
          end
      | [] => None
      end
  end.

(** [(?:\w+\n)?([\s\S]*?)close]: the optional group is tried first; when
    no capture works with it, the match is tried again without it. *)
Definition fence_body (close s : text) : option (text * text) :=
  match tag_line s with
  | Some s1 =>
      match lazy_until close s1 with
      | Some r => Some r
      | None => lazy_until close s
      end
  | None => lazy_until close s
  end.

(** [\*\*{file_name}\*\*\n```] at the start of [s]: the label line and
    the opening fence. *)
Definition header (name s : text) : option text :=
  match strip_prefix (txt "**") s with
  | Some s1 =>
      match file_name name s1 with
      | Some s2 => strip_prefix ("*" :: "*" :: NL :: txt "```")%char s2
      | None => None
      end
  | None => None
  end.

(** [\*\*{file_name}\*\*\n```(?:\w+\n)?([\s\S]*?)\n```] at the start of [s]. *)
Definition labeled_here (name s : text) : option (text * text) :=
  match header name s with
  | Some s3 => fence_body (NL :: txt "```") s3
  | None => None
  end.

(** [```(?:\w+\n)?([\s\S]*?)```] at the start of [s]. *)
Definition single_here (s : text) : option (text * text) :=
  match strip_prefix (txt "```") s with
  | Some s1 => fence_body (txt "```") s1
  | None => None
  end.

(** [re.search] of a pattern that starts with [^] under [re.MULTILINE]:
    the positions are tried from left to right, and only the start of the
    text and the positions after a newline qualify.  [bol] tells whether
    the current position is one of them. *)
Fixpoint search (here : text -> option (text * text)) (bol : bool) (s : text)
  : option text :=
  match (if bol then here s else None) with
  | Some (cap, _) => Some cap
  | None =>
      match s with
      | c :: s' => search here (Ascii.eqb c NL) s'
      | [] => None
      end
  end.

(** [re.findall] of such a pattern with one group: the captures of the
    successive matches, each search resuming where the previous match
    ended.  [skip] counts the characters of the current match that are
    still to be passed over. *)
Fixpoint findall (here : text -> option (text * text)) (skip : nat) (bol : bool)
  (s : text) : list text :=
  match skip with
  | S k =>
      match s with
      | c :: s' => findall here k (Ascii.eqb c NL) s'
      | [] => []
      end
  | O =>
      match (if bol then here s else None) with
      | Some (cap, r) =>
          cap :: match s with
                 | c :: s' =>
                     findall here (length s - length r - 1) (Ascii.eqb c NL) s'
                 | [] => []
                 end
      | None =>
          match s with
          | c :: s' => findall here 0 (Ascii.eqb c NL) s'
          | [] => []
          end
      end
  end.

End Re.

(** [Generator.extract_content_from_result] *)
Definition extract_content_from_result
  (plain_text file_name : text) (match_single_block : bool) : text :=
  match Re.search (Re.labeled_here file_name) true plain_text with
  | Some group1 => strip group1
  | None =>
      if match_single_block then
        match Re.findall Re.single_here 0 true plain_text with
        | [block] => strip block
        | _ => []
        end
      else []
  end.

(* ================================================================== *)
(** * What the generator is given from outside *)
(* ================================================================== *)

(** A value passed to a template by keyword. *)
Inductive pyval :=
| PyNone
| PyStr (s : text)
| PyList (l : list text).

(** A [PromptTemplate]: the names it takes and its rendering.  The wording
    of the templates is not part of the program. *)
Record PromptTemplate := {
  input_variables : list text;
  format : list (text * pyval) -> text
}.

Record Employee := { emoji : text; name : text }.

(** [src/constants.py] *)
Class Constants := {
  FILE_AND_TAG_PAIRS : list (text * text);
  NUM_IMPLEMENTATION_STRATEGIES : Z;
  MAX_DEBUGGING_ITERATIONS : Z;
  PROBLEMATIC_PACKAGES : list text;
  UNNECESSARY_PACKAGES : list text;
  EXECUTOR_FILE_NAME : text;
  EXECUTOR_FILE_TAG : text;
  TEST_EXECUTOR_FILE_NAME : text;
  TEST_EXECUTOR_FILE_TAG : text;
  REQUIREMENTS_FILE_NAME : text;
  REQUIREMENTS_FILE_TAG : text;
  DOCKER_FILE_NAME : text;
  DOCKER_FILE_TAG : text
}.

(** [src/options/generate/templates_system.py] and [templates_user.py] *)
Class Templates := {
  template_system_message_base : PromptTemplate;
  gpt_example : text;
  executor_example : text;
  docarray_example : text;
  client_example : text;
  system_task_iteration : text;
  system_task_introduction : text;
  system_test_iteration : text;
  template_generate_microservice_name : PromptTemplate;
  template_generate_possible_packages : PromptTemplate;
  template_solve_code_issue : PromptTemplate;
  template_solve_dependency_issue : PromptTemplate;
  template_is_dependency_issue : PromptTemplate;
  template_generate_playground : PromptTemplate;
  template_generate_executor : PromptTemplate;
  template_generate_test : PromptTemplate;
  template_generate_requirements : PromptTemplate;
  template_generate_dockerfile : PromptTemplate;
  template_chain_of_thought : PromptTemplate;
  template_summarize_error : PromptTemplate
}.

(** The pure helpers of [src/utils/io.py], [src/apis/jina_cloud.py] and
    [src/options/generate/ui.py], the files shipped under
    [static_files/gateway], and the number drawn by [random.randint]. *)
Class Collaborators := {
  get_microservice_path : text -> text -> list text -> Z -> Z -> text;
  process_error_message : text -> text;
  get_random_employee : text -> Employee;
  static_gateway_files : gmap text text;
  randint : Z -> Z -> Z
}.

(* ================================================================== *)
(** * The world and the methods' monad *)
(* ================================================================== *)

Record TaskSpecification := {
  task : option text;
  test : option text
}.

Inductive role := SystemMessage | HumanMessage | AIMessage.

Record Message := { msg_role : role; content : text }.

Record World := {
  (** [self.microservice_specification] *)
  microservice_specification : TaskSpecification;
  (** The directories, each with its files by name. *)
  fs : gmap text (gmap text text);
  (** The directories made by [os.makedirs], in the order of creation. *)
  made_dirs : list text;
  (** [os.environ] *)
  environ : gmap text text;
  (** The reasoning backend: its completions by number of request, the
      requests at which it fails, each with its error, and the message
      lists it has been sent. *)
  gpt_backend : nat -> text;
  gpt_failure : nat -> option text;
  gpt_requests : list (list Message);
  (** The remote builder: the log of each push, and the paths pushed. *)
  hubble : nat -> text;
  pushed : list text;
  (** The registry: its answer to each query, and the names queried. *)
  hub : nat -> bool;
  hub_queries : list text;
  (** The terminal: the lines still to be read by [input], and the prompts
      shown. *)
  stdin : list text;
  prompts : list text
}.

Inductive exn :=
| MaxDebugTimeReachedException (msg : text)
| Exception (msg : text)
| FileExistsError (path : text)
| FileNotFoundError (path : text)
| KeyError (key : text)
| UnboundLocalError (var : text)
| EOFError
| BackendError (msg : text).

(** How a call ends.  [Unfinished] is the end of a [while True] loop that
    was given too few rounds. *)
Inductive Outcome (A : Type) :=
| Return (a : A)
| Raise (e : exn)
| Unfinished.
Arguments Return {A} a.
Arguments Raise {A} e.
Arguments Unfinished {A}.

Definition M (A : Type) : Type := World -> Outcome A * World.

Definition ret {A} (a : A) : M A := fun w => (Return a, w).

Definition raise {A} (e : exn) : M A := fun w => (Raise e, w).

Definition bind {A B} (c : M A) (k : A -> M B) : M B :=
  fun w =>
    match c w with
    | (Return a, w') => k a w'
    | (Raise e, w') => (Raise e, w')
    | (Unfinished, w') => (Unfinished, w')
    end.

Declare Scope py_scope.
Delimit Scope py_scope with py.
Notation "x <- c ;; k" := (bind c (fun x => k))
  (at level 100, c at next level, right associativity) : py_scope.
Notation "c ;;; k" := (bind c (fun _ => k))
  (at level 100, right associativity) : py_scope.
Open Scope py_scope.

Definition get {A} (f : World -> A) : M A := fun w => (Return (f w), w).

Definition modify (f : World -> World) : M unit := fun w => (Return tt, f w).

(** [for x in l: body x] *)
Fixpoint for_each {A} (l : list A) (body : A -> M unit) : M unit :=
  match l with
  | [] => ret tt
  | x :: l' => body x ;;; for_each l' body
  end.

Definition set_fs (f : gmap text (gmap text text)) (w : World) : World :=
  {| microservice_specification := microservice_specification w;
     fs := f; made_dirs := made_dirs w; environ := environ w;
     gpt_backend := gpt_backend w; gpt_failure := gpt_failure w;
     gpt_requests := gpt_requests w;
     hubble := hubble w; pushed := pushed w;
     hub := hub w; hub_queries := hub_queries w;
     stdin := stdin w; prompts := prompts w |}.

Definition set_made_dirs (l : list text) (w : World) : World :=
  {| microservice_specification := microservice_specification w;
     fs := fs w; made_dirs := l; environ := environ w;
     gpt_backend := gpt_backend w; gpt_failure := gpt_failure w;
     gpt_requests := gpt_requests w;
     hubble := hubble w; pushed := pushed w;
     hub := hub w; hub_queries := hub_queries w;
     stdin := stdin w; prompts := prompts w |}.

Definition set_specification (s : TaskSpecification) (w : World) : World :=
  {| microservice_specification := s;
     fs := fs w; made_dirs := made_dirs w; environ := environ w;
     gpt_backend := gpt_backend w; gpt_failure := gpt_failure w;
     gpt_requests := gpt_requests w;
     hubble := hubble w; pushed := pushed w;
     hub := hub w; hub_queries := hub_queries w;
     stdin := stdin w; prompts := prompts w |}.

Definition set_gpt_requests (l : list (list Message)) (w : World) : World :=
  {| microservice_specification := microservice_specification w;
     fs := fs w; made_dirs := made_dirs w; environ := environ w;
     gpt_backend := gpt_backend w; gpt_failure := gpt_failure w;
     gpt_requests := l;
     hubble := hubble w; pushed := pushed w;
     hub := hub w; hub_queries := hub_queries w;
     stdin := stdin w; prompts := prompts w |}.

Definition set_pushed (l : list text) (w : World) : World :=
  {| microservice_specification := microservice_specification w;
     fs := fs w; made_dirs := made_dirs w; environ := environ w;
     gpt_backend := gpt_backend w; gpt_failure := gpt_failure w;
     gpt_requests := gpt_requests w;
     hubble := hubble w; pushed := l;
     hub := hub w; hub_queries := hub_queries w;
     stdin := stdin w; prompts := prompts w |}.

Definition set_hub_queries (l : list text) (w : World) : World :=
  {| microservice_specification := microservice_specification w;
     fs := fs w; made_dirs := made_dirs w; environ := environ w;
     gpt_backend := gpt_backend w; gpt_failure := gpt_failure w;
     gpt_requests := gpt_requests w;
     hubble := hubble w; pushed := pushed w;
     hub := hub w; hub_queries := l;
     stdin := stdin w; prompts := prompts w |}.

Definition set_terminal (lines shown : list text) (w : World) : World :=
  {| microservice_specification := microservice_specification w;
     fs := fs w; made_dirs := made_dirs w; environ := environ w;
     gpt_backend := gpt_backend w; gpt_failure := gpt_failure w;
     gpt_requests := gpt_requests w;
     hubble := hubble w; pushed := pushed w;
     hub := hub w; hub_queries := hub_queries w;
     stdin := lines; prompts := shown |}.

(* ------------------------------------------------------------------ *)
(** ** The file system *)

(** [os.makedirs(path)] *)
Definition makedirs (path : text) : M unit :=
  fun w =>
    match fs w !! path with
    | Some _ => (Raise (FileExistsError path), w)
    | None =>
        (Return tt,
         set_made_dirs (made_dirs w ++ [path]) (set_fs (<[path := ∅]> (fs w)) w))
    end.

(** Modelled from the spec: [persist_file] of [src/utils/io.py], called as
    [persist_file(content, os.path.join(folder, file_name))]; a path of a
    file is kept as the folder and the name in it (the persisted artifact
    layout: a directory per version, holding files by name).  It writes
    the content under that name and, as every write of a file, needs the
    folder to exist.  [open(os.path.join(folder, file_name), 'w')]
    followed by [write] is the same operation. *)
Definition persist_file (file_content folder file_name : text) : M unit :=
  fun w =>
    match fs w !! folder with
    | Some files =>
        (Return tt, set_fs (<[folder := <[file_name := file_content]> files]> (fs w)) w)
    | None => (Raise (FileNotFoundError folder), w)
    end.

(** Modelled from the spec: [get_all_microservice_files_with_content] of
    [src/utils/io.py]: all files of the version, by name. *)
Definition get_all_microservice_files_with_content (folder_path : text)
  : M (gmap text text) :=
  fun w =>
    match fs w !! folder_path with
    | Some files => (Return files, w)
    | None => (Raise (FileNotFoundError folder_path), w)
    end.

(** [open(os.path.join(folder, file_name)).read()] *)
Definition read_file (folder file_name : text) : M text :=
  fun w =>
    match fs w !! folder with
    | Some files =>
        match files !! file_name with
        | Some c => (Return c, w)
        | None => (Raise (FileNotFoundError file_name), w)
        end
    | None => (Raise (FileNotFoundError folder), w)
    end.

(** [shutil.copytree(src, dst)] for a source that holds [files]. *)
Definition copytree (files : gmap text text) (dst : text) : M unit :=
  fun w =>
    match fs w !! dst with
    | Some _ => (Raise (FileExistsError dst), w)
    | None => (Return tt, set_fs (<[dst := files]> (fs w)) w)
    end.

(** [os.path.join(a, b)] *)
Definition path_join (a b : text) : text :=
  if startswith b (txt "/") then b
  else match rev a with
       | [] => b
       | c :: _ => if Ascii.eqb c "/" then a ++ b else a ++ txt "/" ++ b
       end.

(** [os.environ[key]] *)
Definition getenv (key : text) : M text :=
  fun w =>
    match environ w !! key with
    | Some v => (Return v, w)
    | None => (Raise (KeyError key), w)
    end.

(* ------------------------------------------------------------------ *)
(** ** The conversation session *)

(** Modelled from the spec: the conversation session of [src/apis/gpt.py].
    A conversation holds an ordered message history, seeded by the
    messages it is opened with.  [chat] appends the outgoing message,
    invokes the backend on the history, appends the reply and returns the
    reply text; every call is a round trip.  An error of the backend goes
    to the caller as it is: nothing is tried again at this layer.  The
    history of the Python object is threaded as a value; a conversation
    opened without messages starts with an empty history, and the
    messages a conversation is opened with are not changed by it. *)
Definition Conversation := list Message.

Definition get_conversation (messages : list Message) : Conversation := messages.

Definition chat_as (r : role) (conversation : Conversation) (prompt : text)
  : M (text * Conversation) :=
  fun w =>
    let sent := conversation ++ [{| msg_role := r; content := prompt |}] in
    let w' := set_gpt_requests (gpt_requests w ++ [sent]) w in
    match gpt_failure w (length (gpt_requests w)) with
    | Some error => (Raise (BackendError error), w')
    | None =>
        let reply := gpt_backend w (length (gpt_requests w)) in
        (Return (reply, sent ++ [{| msg_role := AIMessage; content := reply |}]), w')
    end.

(** [conversation.chat(prompt)], with the default [role='user']. *)
Definition chat : Conversation -> text -> M (text * Conversation) :=
  chat_as HumanMessage.

(* ------------------------------------------------------------------ *)
(** ** The remote builder and the registry *)

(** Modelled from the spec: [push(candidate_path) -> raw_log_text] of
    [src/apis/jina_cloud.py]. *)
Definition push_executor (path : text) : M text :=
  fun w =>
    (Return (hubble w (length (pushed w))), set_pushed (pushed w ++ [path]) w).

(** Modelled from the spec: [is_published(name) -> bool] of
    [src/apis/jina_cloud.py]. *)
Definition is_executor_in_hub (microservice_name : text) : M bool :=
  fun w =>
    (Return (hub w (length (hub_queries w))),
     set_hub_queries (hub_queries w ++ [microservice_name]) w).

(* ------------------------------------------------------------------ *)
(** ** The terminal *)

(** [input(prompt)] *)
Definition input (prompt : text) : M text :=
  fun w =>
    match stdin w with
    | line :: rest => (Return line, set_terminal rest (prompts w ++ [prompt]) w)
    | [] => (Raise EOFError, set_terminal [] (prompts w ++ [prompt]) w)
    end.

(* ================================================================== *)
(** * More of [str] *)
(* ================================================================== *)

(** [s.split(sep)] for a separator of one character. *)
Fixpoint split (sep : ascii) (s : text) : list text :=
  match s with
  | [] => [[]]
  | c :: s' =>
      if Ascii.eqb c sep then [] :: split sep s'
      else match split sep s' with
           | piece :: pieces => (c :: piece) :: pieces
           | [] => [[c]]
           end
  end.

(** [s.replace(old, new)] for a non-empty [old]: the occurrences are
    replaced from left to right, without overlap.  [skip] counts the
    characters of the current occurrence still to be passed over. *)
Fixpoint replace_from (old new : text) (skip : nat) (s : text) : text :=
  match skip with
  | S k =>
      match s with
      | _ :: s' => replace_from old new k s'
      | [] => []
      end
  | O =>
      match s with
      | c :: s' =>
          if startswith s old then new ++ replace_from old new (length old - 1) s'
          else c :: replace_from old new 0 s'
      | [] => []
      end
  end.

Definition replace (s old new : text) : text := replace_from old new 0 s.

(** [l[:n]] *)
Definition slice_to {A} (n : Z) (l : list A) : list A :=
  if (0 <=? n)%Z then firstn (Z.to_nat n) l
  else firstn (length l - Z.to_nat (- n)) l.

(** [range(a, b)] *)
Definition range (a b : Z) : list Z :=
  map (fun k => (a + Z.of_nat k)%Z) (seq 0 (Z.to_nat (b - a))).

(** [enumerate(l)] *)
Definition enumerate {A} (l : list A) : list (Z * A) :=
  combine (range 0 (Z.of_nat (length l))) l.

(** An [Optional[Text]] passed by keyword. *)
Definition optional (o : option text) : pyval :=
  match o with Some s => PyStr s | None => PyNone end.

(** Truth value of an [Optional[Text]]. *)
Definition truthy_opt (o : option text) : bool :=
  match o with Some s => truthy s | None => false end.

(** [x in l] for a list of strings. *)
Definition in_list (x : text) (l : list text) : bool := bool_decide (x ∈ l).

(* ================================================================== *)
(** * The class [Generator] *)
(* ================================================================== *)

Section Generator.
Context `{Constants} `{Templates} `{Collaborators}.

(** [Generator.write_config_yml] *)
Definition write_config_yml (class_name dest_folder python_file : text) : M unit :=
  let config_content :=
    txt "jtype: " ++ class_name ++ [NL] ++
    txt "py_modules:" ++ [NL] ++
    txt "  - " ++ python_file ++ [NL] ++
    txt "metas:" ++ [NL] ++
    txt "  name: " ++ class_name ++ [NL] in
  persist_file config_content dest_folder (txt "config.yml").

(** [Generator.files_to_string] *)
Definition files_to_string (file_name_to_content : gmap text text)
  (restrict_keys : option (list text)) : text :=
  let unrestricted :=
    match restrict_keys with None | Some [] => true | Some (_ :: _) => false end in
  let in_restrict_keys file_name :=
    match restrict_keys with Some keys => in_list file_name keys | None => false end in
  strip
    (fold_left
       (fun all_microservice_files_string (pair : text * text) =>
          let (file_name, tag) := pair in
          match file_name_to_content !! file_name with
          | Some file_content =>
              if unrestricted || in_restrict_keys file_name then
                all_microservice_files_string ++
                txt "**" ++ file_name ++ txt "**" ++ [NL] ++
                txt "```" ++ tag ++ [NL] ++
                file_content ++ [NL] ++
                txt "```" ++ [NL; NL]
              else all_microservice_files_string
          | None => all_microservice_files_string
          end)
       FILE_AND_TAG_PAIRS []).

(** [Generator._create_system_message] *)
Definition _create_system_message (task_description test_description : option text)
  (system_definition_examples : list text) : Message :=
  let system_message :=
    format template_system_message_base
      [(txt "task_description", optional task_description);
       (txt "test_description", optional test_description)] in
  let system_message :=
    if in_list (txt "gpt") system_definition_examples
    then system_message ++ [NL] ++ gpt_example else system_message in
  let system_message :=
    if in_list (txt "executor") system_definition_examples
    then system_message ++ [NL] ++ executor_example else system_message in
  let system_message :=
    if in_list (txt "docarray") system_definition_examples
    then system_message ++ [NL] ++ docarray_example else system_message in
  let system_message :=
    if in_list (txt "client") system_definition_examples
    then system_message ++ [NL] ++ client_example else system_message in
  {| msg_role := SystemMessage; content := system_message |}.

(** The default of [system_definition_examples]. *)
Definition all_examples : list text :=
  [txt "gpt"; txt "executor"; txt "docarray"; txt "client"].

(** [Generator.generate_and_persist_file] *)
Definition generate_and_persist_file
  (section_title : text) (template : PromptTemplate)
  (destination_folder : option text) (file_name : text)
  (system_definition_examples : list text)
  (template_kwargs : list (text * pyval)) : M text :=
  spec <- get microservice_specification ;;
  let system_introduction_message :=
    _create_system_message (task spec) (test spec) system_definition_examples in
  let conversation := get_conversation [system_introduction_message] in
  let template_kwargs :=
    filter (fun kv => in_list (fst kv) (input_variables template)) template_kwargs in
  r <- chat conversation
         (format template ((txt "file_name", PyStr file_name) :: template_kwargs)) ;;
  let (content_raw, conversation) := r in
  let content_ := extract_content_from_result content_raw file_name true in
  content_ <-
    (if negb (truthy content_) then
       r <- chat conversation
              (txt "You must add the content for " ++ file_name ++ txt ".") ;;
       let (content_raw, _) := r in
       ret (extract_content_from_result content_raw file_name true)
     else ret content_) ;;
  match destination_folder with
  | Some folder =>
      if truthy folder
      then persist_file content_ folder file_name ;;; ret content_
      else ret content_
  | None => ret content_
  end.

(** [Generator.generate_microservice] *)
Definition generate_microservice (path microservice_name : text)
  (packages : list text) (num_approach : Z) : M unit :=
  let MICROSERVICE_FOLDER_v1 :=
    get_microservice_path path microservice_name packages num_approach 1 in
  makedirs MICROSERVICE_FOLDER_v1 ;;;
  spec <- get microservice_specification ;;
  microservice_content <-
    generate_and_persist_file (txt "Microservice") template_generate_executor
      (Some MICROSERVICE_FOLDER_v1) EXECUTOR_FILE_NAME all_examples
      [(txt "microservice_name", PyStr microservice_name);
       (txt "microservice_description", optional (task spec));
       (txt "test_description", optional (test spec));
       (txt "packages", PyList packages);
       (txt "file_name_purpose", PyStr EXECUTOR_FILE_NAME);
       (txt "tag_name", PyStr EXECUTOR_FILE_TAG)] ;;
  spec <- get microservice_specification ;;
  test_microservice_content <-
    generate_and_persist_file (txt "Test Microservice") template_generate_test
      (Some MICROSERVICE_FOLDER_v1) TEST_EXECUTOR_FILE_NAME all_examples
      [(txt "code_files_wrapped",
        PyStr (files_to_string {[ txt "microservice.py" := microservice_content ]} None));
       (txt "microservice_name", PyStr microservice_name);
       (txt "microservice_description", optional (task spec));
       (txt "test_description", optional (test spec));
       (txt "file_name_purpose", PyStr TEST_EXECUTOR_FILE_NAME);
       (txt "tag_name", PyStr TEST_EXECUTOR_FILE_TAG)] ;;
  requirements_content <-
    generate_and_persist_file (txt "Requirements") template_generate_requirements
      (Some MICROSERVICE_FOLDER_v1) REQUIREMENTS_FILE_NAME all_examples
      [(txt "code_files_wrapped",
        PyStr (files_to_string
                 (<[ txt "test_microservice.py" := test_microservice_content ]>
                    {[ txt "microservice.py" := microservice_content ]}) None));
       (txt "file_name_purpose", PyStr REQUIREMENTS_FILE_NAME);
       (txt "tag_name", PyStr REQUIREMENTS_FILE_TAG)] ;;
  generate_and_persist_file (txt "Dockerfile") template_generate_dockerfile
    (Some MICROSERVICE_FOLDER_v1) DOCKER_FILE_NAME all_examples
    [(txt "code_files_wrapped",
      PyStr (files_to_string
               (<[ txt "requirements.txt" := requirements_content ]>
                  (<[ txt "test_microservice.py" := test_microservice_content ]>
                     {[ txt "microservice.py" := microservice_content ]})) None));
     (txt "file_name_purpose", PyStr DOCKER_FILE_NAME);
     (txt "tag_name", PyStr DOCKER_FILE_TAG)] ;;;
  write_config_yml microservice_name MICROSERVICE_FOLDER_v1 (txt "microservice.py").

(** [Generator.generate_playground] *)
Definition generate_playground (microservice_name microservice_path : text) : M unit :=
  file_name_to_content <- get_all_microservice_files_with_content microservice_path ;;
  let conversation := get_conversation [] in
  r <- chat conversation
         (format template_generate_playground
            [(txt "code_files_wrapped",
              PyStr (files_to_string file_name_to_content
                       (Some [txt "microservice.py"; txt "test_microservice.py"])));
             (txt "microservice_name", PyStr microservice_name)]) ;;
  let (_, conversation) := r in
  r <- chat conversation
         (format template_chain_of_thought
            [(txt "file_name_purpose", PyStr (txt "app.py/the playground"));
             (txt "file_name", PyStr (txt "app.py"));
             (txt "tag_name", PyStr (txt "python"))]) ;;
  let (playground_content_raw, conversation) := r in
  let playground_content :=
    extract_content_from_result playground_content_raw (txt "app.py") true in
  playground_content <-
    (if negb (truthy playground_content) then
       r <- chat conversation
              (txt "You must add the app.py code. You most not output any other code") ;;
       let (content_raw, _) := r in
       ret (extract_content_from_result content_raw (txt "app.py") true)
     else ret playground_content) ;;
  let gateway_path := path_join microservice_path (txt "gateway") in
  copytree static_gateway_files gateway_path ;;;
  persist_file playground_content gateway_path (txt "app.py") ;;;
  let gateway_name := txt "Gateway" ++ microservice_name in
  custom_gateway_content <- read_file gateway_path (txt "custom_gateway.py") ;;
  let custom_gateway_content :=
    replace custom_gateway_content
      (txt "class CustomGateway(CompositeGateway):")
      (txt "class " ++ gateway_name ++ txt "(CompositeGateway):") in
  persist_file custom_gateway_content gateway_path (txt "custom_gateway.py") ;;;
  write_config_yml gateway_name gateway_path (txt "custom_gateway.py") ;;;
  hubble_log <- push_executor gateway_path ;;
  in_hub <- is_executor_in_hub gateway_name ;;
  if in_hub then ret tt
  else raise (Exception (microservice_name ++ txt " not in hub. Hubble logs: " ++ hubble_log)).

(** [Generator.summarize_error] *)
Definition summarize_error (error : text) : M text :=
  let conversation := get_conversation [] in
  r <- chat conversation (format template_summarize_error [(txt "error", PyStr error)]) ;;
  ret (fst r).

(** [Generator.is_dependency_issue] *)
Definition is_dependency_issue (error docker_file : text) : M bool :=
  if existsb (fun error_message => contains error_message error)
       [txt "AttributeError"; txt "NameError"; txt "AssertionError"]
  then ret false
  else
    let conversation := get_conversation [] in
    r <- chat conversation
           (format template_is_dependency_issue
              [(txt "error", PyStr error); (txt "docker_file", PyStr docker_file)]) ;;
    let answer := fst r in
    ret (contains (txt "yes") (lower answer)).

(** The first loop of [do_debug_iteration]: the files of the reply that
    are taken over. *)
Definition apply_updates (returned_files_raw : text) (is_dependency_issue : bool)
  (file_name_to_content : gmap text text) : gmap text text :=
  fold_left
    (fun file_name_to_content (pair : text * text) =>
       let (file_name, tag) := pair in
       let updated_file := extract_content_from_result returned_files_raw file_name false in
       if truthy updated_file &&
          (negb is_dependency_issue ||
           in_list file_name [txt "requirements.txt"; txt "Dockerfile"])
       then <[file_name := updated_file]> file_name_to_content
       else file_name_to_content)
    FILE_AND_TAG_PAIRS file_name_to_content.

(** [Generator.do_debug_iteration] *)
Definition do_debug_iteration (error next_microservice_path previous_microservice_path : text)
  : M unit :=
  makedirs next_microservice_path ;;;
  file_name_to_content <- get_all_microservice_files_with_content previous_microservice_path ;;
  summarized_error <- summarize_error error ;;
  docker_file <-
    match file_name_to_content !! txt "Dockerfile" with
    | Some c => ret c
    | None => raise (KeyError (txt "Dockerfile"))
    end ;;
  is_dependency_issue <- is_dependency_issue error docker_file ;;
  spec <- get microservice_specification ;;
  let user_query :=
    if is_dependency_issue then
      let all_files_string :=
        files_to_string
          (filter (fun kv => in_list (fst kv) [txt "requirements.txt"; txt "Dockerfile"] = true)
             file_name_to_content) None in
      format template_solve_dependency_issue
        [(txt "summarized_error", PyStr summarized_error);
         (txt "all_files_string", PyStr all_files_string)]
    else
      format template_solve_code_issue
        [(txt "task_description", optional (task spec));
         (txt "test_description", optional (test spec));
         (txt "summarized_error", PyStr summarized_error);
         (txt "all_files_string", PyStr (files_to_string file_name_to_content None))] in
  let conversation := get_conversation [] in
  r <- chat conversation user_query ;;
  let returned_files_raw := fst r in
  let file_name_to_content :=
    apply_updates returned_files_raw is_dependency_issue file_name_to_content in
  for_each (map_to_list file_name_to_content)
    (fun kv => persist_file (snd kv) next_microservice_path (fst kv)).

(** The [for] loop of [debug_microservice].  The result is the value of
    [i] when the loop is left. *)
Fixpoint debug_for (path microservice_name : text) (num_approach : Z)
  (packages : list text) (iterations : list Z) (i_before : option Z) : M (option Z) :=
  match iterations with
  | [] => ret i_before
  | i :: iterations' =>
      let previous_microservice_path :=
        get_microservice_path path microservice_name packages num_approach i in
      let next_microservice_path :=
        get_microservice_path path microservice_name packages num_approach (i + 1) in
      log_hubble <- push_executor previous_microservice_path ;;
      let error := process_error_message log_hubble in
      if truthy error then
        do_debug_iteration error next_microservice_path previous_microservice_path ;;;
        if (i =? MAX_DEBUGGING_ITERATIONS - 1)%Z
        then raise (MaxDebugTimeReachedException (txt "Could not debug the microservice."))
        else debug_for path microservice_name num_approach packages iterations' (Some i)
      else
        in_hub <- is_executor_in_hub microservice_name ;;
        if in_hub then ret (Some i)
        else raise (Exception
                      (microservice_name ++ txt " not in hub. Hubble logs: " ++ log_hubble))
  end.

(** [debug_microservice] from iteration [i] on: the rest of the loop and
    the [return] after it. *)
Definition debug_from (path microservice_name : text) (num_approach : Z)
  (packages : list text) (i : Z) (i_before : option Z) : M text :=
  i_last <- debug_for path microservice_name num_approach packages
              (range i MAX_DEBUGGING_ITERATIONS) i_before ;;
  match i_last with
  | Some i => ret (get_microservice_path path microservice_name packages num_approach i)
  | None => raise (UnboundLocalError (txt "i"))
  end.

(** [Generator.debug_microservice] *)
Definition debug_microservice (path microservice_name : text) (num_approach : Z)
  (packages : list text) : M text :=
  debug_from path microservice_name num_approach packages 1 None.

(** [Generator.generate_microservice_name] *)
Definition generate_microservice_name (description : option text) : M text :=
  let conversation := get_conversation [] in
  r <- chat conversation
         (format template_generate_microservice_name
            [(txt "description", optional description)]) ;;
  ret (extract_content_from_result (fst r) (txt "name.txt") false).

(** [Generator.get_possible_packages] *)
Definition get_possible_packages : M (list (list text)) :=
  spec <- get microservice_specification ;;
  packages_csv_string <-
    generate_and_persist_file (txt "packages to use") template_generate_possible_packages
      None (txt "packages.csv") [txt "gpt"]
      [(txt "description", optional (task spec))] ;;
  let packages_list :=
    map (fun packages_string => map strip (split "," packages_string))
      (split NL packages_csv_string) in
  ret (slice_to NUM_IMPLEMENTATION_STRATEGIES packages_list).

(** The [while not val] loop of [get_user_input]; [rounds] bounds the
    number of further lines read. *)
Fixpoint read_until_given (rounds : nat) (val : text) : M text :=
  if truthy val then ret val
  else match rounds with
       | O => fun w => (Unfinished, w)
       | S rounds' => val <- input (txt "you: ") ;; read_until_given rounds' val
       end.

(** [Generator.get_user_input].  Every further round reads a line or ends
    with [EOFError], so one round more than there are lines is enough. *)
Definition get_user_input (employee : Employee) (prompt_to_user : text) : M text :=
  fun w =>
    (val <- input (emoji employee ++ txt "❓ " ++ prompt_to_user ++ [NL] ++ txt "you: ") ;;
     read_until_given (S (length (stdin w))) val) w.

Definition set_task (task_final : text) : M unit :=
  modify (fun w =>
    set_specification
      {| task := Some task_final; test := test (microservice_specification w) |} w).

Definition set_test (test_final : text) : M unit :=
  modify (fun w =>
    set_specification
      {| task := task (microservice_specification w); test := Some test_final |} w).

(** The [while True] loop of [refine_task], run for at most [rounds]
    rounds. *)
Fixpoint refine_task_loop (rounds : nat) (pm : Employee) (messages : list Message)
  (task_description : text) : M unit :=
  match rounds with
  | O => fun w => (Unfinished, w)
  | S rounds' =>
      verbose <- getenv (txt "VERBOSE") ;;
      let conversation := get_conversation messages in
      r <- chat_as HumanMessage conversation task_description ;;
      let agent_response_raw := fst r in
      let question :=
        extract_content_from_result agent_response_raw (txt "prompt.txt") false in
      let task_final :=
        extract_content_from_result agent_response_raw (txt "task-final.txt") false in
      if truthy task_final then set_task task_final
      else if truthy question then
        task_description <- get_user_input pm question ;;
        refine_task_loop rounds' pm
          (messages ++ [{| msg_role := HumanMessage; content := task_description |}])
          task_description
      else
        task_description <- get_user_input pm (agent_response_raw ++ [NL] ++ txt ": ") ;;
        refine_task_loop rounds' pm messages task_description
  end.

(** [Generator.refine_task] *)
Definition refine_task (rounds : nat) (pm : Employee) : M unit :=
  spec <- get microservice_specification ;;
  task_description <-
    (if negb (truthy_opt (task spec))
     then get_user_input pm (txt "What should your microservice do?")
     else ret (default [] (task spec))) ;;
  let messages :=
    [{| msg_role := SystemMessage;
        content := system_task_introduction ++ system_task_iteration |}] in
  refine_task_loop rounds pm messages task_description.

(** The [while True] loop of [refine_test]. *)
Fixpoint refine_test_loop (rounds : nat) (pm : Employee) (messages : list Message)
  (user_input : option text) : M unit :=
  match rounds with
  | O => fun w => (Unfinished, w)
  | S rounds' =>
      verbose <- getenv (txt "VERBOSE") ;;
      let conversation := get_conversation messages in
      r <- chat_as HumanMessage conversation
             (txt "**client-response.txt**" ++ [NL] ++
              txt "```" ++ [NL] ++
              match user_input with Some s => s | None => txt "None" end ++ [NL] ++
              txt "```" ++ [NL]) ;;
      let agent_response_raw := fst r in
      let question :=
        extract_content_from_result agent_response_raw (txt "prompt.txt") false in
      let test_final :=
        extract_content_from_result agent_response_raw (txt "test-final.txt") false in
      if truthy test_final then set_test test_final
      else if truthy question then
        user_input <- get_user_input pm question ;;
        refine_test_loop rounds' pm
          (messages ++ [{| msg_role := HumanMessage; content := user_input |}])
          (Some user_input)
      else
        user_input <- get_user_input pm (agent_response_raw ++ [NL] ++ txt ": ") ;;
        refine_test_loop rounds' pm messages (Some user_input)
  end.

(** [Generator.refine_test] *)
Definition refine_test (rounds : nat) (pm : Employee) : M unit :=
  let messages :=
    [{| msg_role := SystemMessage;
        content := system_task_introduction ++ system_test_iteration |}] in
  spec <- get microservice_specification ;;
  refine_test_loop rounds pm messages (task spec).

(** [Generator.refine_specification] *)
Definition refine_specification (rounds : nat) : M unit :=
  let pm := get_random_employee (txt "pm") in
  refine_task rounds pm ;;;
  refine_test rounds pm.

(** The body of the [try] of [generate]. *)
Definition attempt (microservice_path microservice_name : text)
  (num_approach : Z) (packages : list text) : M unit :=
  generate_microservice microservice_path microservice_name packages num_approach ;;;
  final_version_path <-
    debug_microservice microservice_path microservice_name num_approach packages ;;
  generate_playground microservice_name final_version_path.

(** The [for] loop of [generate] over the approaches: [except
    MaxDebugTimeReachedException] goes on with the next approach, the end
    of the [try] body leaves the loop, any other exception leaves
    [generate]. *)
Fixpoint generate_for (microservice_path microservice_name : text)
  (approaches : list (Z * list text)) : M unit :=
  match approaches with
  | [] => ret tt
  | (num_approach, packages) :: approaches' =>
      fun w =>
        match attempt microservice_path microservice_name num_approach packages w with
        | (Raise (MaxDebugTimeReachedException _), w') =>
            generate_for microservice_path microservice_name approaches' w'
        | (Return _, w') => (Return tt, w')
        | (Raise e, w') => (Raise e, w')
        | (Unfinished, w') => (Unfinished, w')
        end
  end.

(** [Generator.generate] *)
Definition generate (rounds : nat) (microservice_path : text) : M unit :=
  refine_specification rounds ;;;
  spec <- get microservice_specification ;;
  generated_name <- generate_microservice_name (task spec) ;;
  let microservice_name := generated_name ++ txt (pretty (randint 0 10000000)) in
  packages_list <- get_possible_packages ;;
  let packages_list :=
    filter (fun packages =>
              forallb (fun package => negb (in_list package PROBLEMATIC_PACKAGES)) packages = true)
      packages_list in
  let packages_list :=
    map (fun packages =>
           filter (fun package => in_list package UNNECESSARY_PACKAGES = false) packages)
      packages_list in
  generate_for microservice_path microservice_name (enumerate packages_list).

End Generator.

(* ================================================================== *)
(** * The vocabulary of the specification *)
(* ================================================================== *)

(** [needle] occurs in [s]. *)
Definition occurs (needle s : text) : Prop :=
  exists before after, s = before ++ needle ++ after.

(** A triple backtick. *)
Definition fence : text := txt "```".

(** A fence at the start of a line. *)
Definition line_fence : text := NL :: fence.

(** A labeled block of a response: the line [**file_name**], the opening
    fence with its language tag, the lines of the body, the closing
    fence. *)
Definition labeled_block (file_name tag body : text) : text :=
  txt "**" ++ file_name ++ txt "**" ++ [NL] ++
  fence ++ tag ++ [NL] ++ body ++ [NL] ++ fence.

(** The offset of the first line of [s] that carries the label of
    [file_name] and an opening fence. *)
Fixpoint first_header (file_name : text) (bol : bool) (s : text) : option nat :=
  if bol && bool_decide (is_Some (Re.header file_name s)) then Some 0
  else match s with
       | c :: s' => S <$> first_header file_name (Ascii.eqb c NL) s'
       | [] => None
       end.






(** The reply carries an affirmative marker: the word yes in any case of
    its letters. *)
Definition affirmative (answer : text) : Prop :=
  exists marker, occurs marker answer /\ lower marker = txt "yes".

(** The runtime exception names of the fast path of the classifier. *)
Definition runtime_exception_names : list text :=
  [txt "AttributeError"; txt "NameError"; txt "AssertionError"].

Definition names_runtime_exception (error : text) : Prop :=
  exists exception_name, In exception_name runtime_exception_names /\ occurs exception_name error.


Definition human (prompt : text) : Message :=
  {| msg_role := HumanMessage; content := prompt |}.

Definition assistant (reply : text) : Message :=
  {| msg_role := AIMessage; content := reply |}.

(** The folder a call of [generate_and_persist_file] writes to, if it
    writes. *)
Definition persists_to (destination_folder : option text) : option text :=
  match destination_folder with
  | Some folder => if truthy folder then Some folder else None
  | None => None
  end.

(** The files of [base] after the files of [l] are written one by one. *)
Definition write_all (base : gmap text text) (l : list (text * text)) : gmap text text :=
  fold_left (fun m kv => <[fst kv := snd kv]> m) l base.

(** Whether the block of the reply for [file_name] is taken over by a
    repair. *)
Definition taken_over (returned_files_raw : text) (dependency : bool) (file_name : text)
  : bool :=
  truthy (extract_content_from_result returned_files_raw file_name false) &&
  (negb dependency || in_list file_name [txt "requirements.txt"; txt "Dockerfile"]).

(** The builder and the registry are where they were. *)
Definition builder_same (w w' : World) : Prop :=
  pushed w' = pushed w /\ hubble w' = hubble w /\
  hub w' = hub w /\ hub_queries w' = hub_queries w.

(** The backend answers every request. *)
Definition answered (w : World) : Prop := forall n, gpt_failure w n = None.

Section Vocabulary.
Context `{Constants} `{Templates} `{Collaborators}.

(** The next [n] builds all end with an error. *)
Definition builds_fail (n : nat) (w : World) : Prop :=
  forall j, j < n ->
    truthy (process_error_message (hubble w (length (pushed w) + j))) = true.

(** Version [i] (under the path [v i]) is there with its build file, and
    the later versions up to [MAX_DEBUGGING_ITERATIONS] are still to be
    made, under paths of their own. *)
Definition repairable_from (v : Z -> text) (i : Z) (w : World) : Prop :=
  (exists files, fs w !! v i = Some files /\ is_Some (files !! txt "Dockerfile")) /\
  (forall j, (i < j <= MAX_DEBUGGING_ITERATIONS)%Z -> fs w !! v j = None) /\
  (forall j j', (i < j < j')%Z -> (j' <= MAX_DEBUGGING_ITERATIONS)%Z -> v j <> v j').

(** Every approach of the list ends with the bounded-retry signal, each
    one tried in the world the previous one left. *)
Fixpoint exhausts_all (microservice_path microservice_name : text)
  (approaches : list (Z * list text)) (w : World) : Prop :=
  match approaches with
  | [] => True
  | (num_approach, packages) :: approaches' =>
      exists msg w',
        attempt microservice_path microservice_name num_approach packages w =
          (Raise (MaxDebugTimeReachedException msg), w') /\
        exhausts_all microservice_path microservice_name approaches' w'
  end.

End Vocabulary.

(* ================================================================== *)
(** * An instance to run the generator on *)
(* ================================================================== *)

Module Example.

Definition show (v : pyval) : text :=
  match v with
  | PyNone => txt "None"
  | PyStr s => s
  | PyList l => concat (map (fun package => package ++ txt " ") l)
  end.

(** A template that lists what it is given. *)
Definition listing (variables : list text) : PromptTemplate :=
  {| input_variables := variables;
     format := fun kwargs =>
       concat (map (fun kv => fst kv ++ txt ": " ++ show (snd kv) ++ [NL]) kwargs) |}.

#[export] Instance constants : Constants :=
  {| FILE_AND_TAG_PAIRS :=
       [(txt "microservice.py", txt "python");
        (txt "test_microservice.py", txt "python");
        (txt "requirements.txt", []);
        (txt "Dockerfile", txt "dockerfile")];
     NUM_IMPLEMENTATION_STRATEGIES := 2;
     MAX_DEBUGGING_ITERATIONS := 3;
     PROBLEMATIC_PACKAGES := [txt "tensorflow"];
     UNNECESSARY_PACKAGES := [txt "fastapi"];
     EXECUTOR_FILE_NAME := txt "microservice.py";
     EXECUTOR_FILE_TAG := txt "python";
     TEST_EXECUTOR_FILE_NAME := txt "test_microservice.py";
     TEST_EXECUTOR_FILE_TAG := txt "python";
     REQUIREMENTS_FILE_NAME := txt "requirements.txt";
     REQUIREMENTS_FILE_TAG := [];
     DOCKER_FILE_NAME := txt "Dockerfile";
     DOCKER_FILE_TAG := txt "dockerfile" |}.

#[export] Instance templates : Templates :=
  {| template_system_message_base := listing [txt "task_description"; txt "test_description"];
     gpt_example := txt "gpt";
     executor_example := txt "executor";
     docarray_example := txt "docarray";
     client_example := txt "client";
     system_task_iteration := txt "Refine the task.";
     system_task_introduction := txt "You are a product manager.";
     system_test_iteration := txt "Refine the test.";
     template_generate_microservice_name := listing [txt "description"];
     template_generate_possible_packages := listing [txt "description"];
     template_solve_code_issue :=
       listing [txt "task_description"; txt "test_description";
                txt "summarized_error"; txt "all_files_string"];
     template_solve_dependency_issue := listing [txt "summarized_error"; txt "all_files_string"];
     template_is_dependency_issue := listing [txt "error"; txt "docker_file"];
     template_generate_playground := listing [txt "code_files_wrapped"; txt "microservice_name"];
     template_generate_executor :=
       listing [txt "microservice_name"; txt "microservice_description";
                txt "test_description"; txt "packages"; txt "file_name_purpose";
                txt "tag_name"; txt "file_name"];
     template_generate_test :=
       listing [txt "code_files_wrapped"; txt "microservice_name";
                txt "microservice_description"; txt "test_description";
                txt "file_name_purpose"; txt "tag_name"; txt "file_name"];
     template_generate_requirements :=
       listing [txt "code_files_wrapped"; txt "file_name_purpose"; txt "tag_name";
                txt "file_name"];
     template_generate_dockerfile :=
       listing [txt "code_files_wrapped"; txt "file_name_purpose"; txt "tag_name";
                txt "file_name"];
     template_chain_of_thought := listing [txt "file_name_purpose"; txt "tag_name"; txt "file_name"];
     template_summarize_error := listing [txt "error"] |}.

Definition alice : Employee := {| emoji := txt "*"; name := txt "Alice" |}.

#[export] Instance collaborators : Collaborators :=
  {| get_microservice_path := fun path microservice_name packages num_approach version =>
       path ++ txt "/" ++ microservice_name ++ txt "/" ++ txt (pretty num_approach) ++
       txt "/v" ++ txt (pretty version);
     process_error_message := fun log =>
       if contains (txt "error") (lower log) then log else [];
     get_random_employee := fun _ => alice;
     static_gateway_files :=
       {[ txt "custom_gateway.py" := txt "class CustomGateway(CompositeGateway):" ]};
     randint := fun a _ => a |}.

(** A world in which the model never writes a block, every build fails
    and nothing is published. *)
Definition barren : World :=
  {| microservice_specification :=
       {| task := Some (txt "Add two numbers."); test := Some (txt "1 + 1 = 2") |};
     fs := ∅;
     made_dirs := [];
     environ := {[ txt "VERBOSE" := txt "true" ]};
     gpt_backend := fun _ => txt "I am sorry.";
     gpt_failure := fun _ => None;
     gpt_requests := [];
     hubble := fun _ => txt "ERROR: build failed";
     pushed := [];
     hub := fun _ => false;
     hub_queries := [];
     stdin := [];
     prompts := [] |}.

Definition adder_v1 : text :=
  get_microservice_path (txt "out") (txt "Adder") [txt "numpy"] 0 1.

(** [barren] after the first version was generated in it. *)
Definition drafted : World :=
  snd (generate_microservice (txt "out") (txt "Adder") [txt "numpy"] 0 barren).

(** [barren] with the folder of the first version made. *)
Definition started : World := snd (makedirs adder_v1 barren).

(** A reply with a block for every file the generator asks for. *)
Definition universal_reply : text :=
  concat (map (fun nb => labeled_block (fst nb) [] (snd nb) ++ [NL; NL])
    [(txt "task-final.txt", txt "Add two numbers given as JSON.");
     (txt "test-final.txt", txt "1 + 1 = 2");
     (txt "name.txt", txt "Adder");
     (txt "packages.csv", txt "numpy, fastapi" ++ [NL] ++ txt "tensorflow" ++ [NL] ++ txt "scipy");
     (txt "microservice.py", txt "class Adder: pass");
     (txt "test_microservice.py", txt "assert True");
     (txt "requirements.txt", txt "numpy");
     (txt "Dockerfile", txt "FROM python");
     (txt "app.py", txt "import streamlit")]).

(** A world in which the model writes every block, every build succeeds
    and everything is published; the human first enters an empty line. *)
Definition helpful : World :=
  {| microservice_specification := {| task := None; test := None |};
     fs := ∅;
     made_dirs := [];
     environ := {[ txt "VERBOSE" := txt "true" ]};
     gpt_backend := fun _ => universal_reply;
     gpt_failure := fun _ => None;
     gpt_requests := [];
     hubble := fun _ => txt "Successfully built.";
     pushed := [];
     hub := fun _ => true;
     hub_queries := [];
     stdin := [[]; txt "an adder"];
     prompts := [] |}.

(** As [helpful], but the first reply of the model has no block. *)
Definition chatty : World :=
  {| microservice_specification := {| task := None; test := None |};
     fs := ∅;
     made_dirs := [];
     environ := {[ txt "VERBOSE" := txt "true" ]};
     gpt_backend := fun n =>
       match n with O => txt "What do you mean?" | S _ => universal_reply end;
     gpt_failure := fun _ => None;
     gpt_requests := [];
     hubble := fun _ => txt "Successfully built.";
     pushed := [];
     hub := fun _ => true;
     hub_queries := [];
     stdin := [[]; txt "I mean sums"];
     prompts := [] |}.

(** A version to repair: the model summarises, says that the packages are
    not the problem, and sends a new source module. *)
Definition broken : World :=
  {| microservice_specification :=
       {| task := Some (txt "Add two numbers."); test := Some (txt "1 + 1 = 2") |};
     fs := {[ txt "v1" :=
                <[ txt "microservice.py" := txt "class Adder pass" ]>
                  {[ txt "Dockerfile" := txt "FROM python" ]} ]};
     made_dirs := [];
     environ := ∅;
     gpt_backend := fun n =>
       match n with
       | 0 => txt "The class statement lacks a colon."
       | 1 => txt "No, the packages are fine."
       | _ => labeled_block (txt "microservice.py") (txt "python") (txt "class Adder: pass")
       end;
     gpt_failure := fun _ => None;
     gpt_requests := [];
     hubble := fun _ => [];
     pushed := [];
     hub := fun _ => false;
     hub_queries := [];
     stdin := [];
     prompts := [] |}.


(** A body with a fence in the middle of a line. *)
Definition inline_fence_body : text := txt "fence = '```'".

Definition preamble : text := txt "Here is the file:" ++ [NL].


Definition attribute_error : text :=
  txt "Traceback: AttributeError: 'NoneType' object has no attribute 'x'".

End Example.

Import (hints) Example.

(* ================================================================== *)
(** * More vocabulary, and more cases *)
(* ================================================================== *)

(** A label the pattern made of [file_name] accepts: character by
    character the same, except that any character but the newline may
    stand where the name has a dot. *)
Fixpoint label_like (file_name label : text) : bool :=
  match file_name, label with
  | [], [] => true
  | p :: file_name', c :: label' =>
      (Ascii.eqb p c || (Ascii.eqb p "." && negb (Ascii.eqb c NL))) &&
      label_like file_name' label'
  | _, _ => false
  end.

(** Whether [s] has no whitespace at its ends. *)
Definition solid_at (o : option ascii) : bool :=
  match o with Some c => negb (is_space c) | None => true end.

Definition trimmed (s : text) : bool := solid_at (head s) && solid_at (last s).

(** The message [refine_test] sends for the input of the human. *)
Definition client_response (user_input : option text) : text :=
  txt "**client-response.txt**" ++ [NL] ++
  txt "```" ++ [NL] ++
  match user_input with Some s => s | None => txt "None" end ++ [NL] ++
  txt "```" ++ [NL].

(** The first prompt of [get_user_input]. *)
Definition question_prompt (employee : Employee) (prompt_to_user : text) : text :=
  emoji employee ++ txt "❓ " ++ prompt_to_user ++ [NL] ++ txt "you: ".

Module Cases.

(** A model that asks a question first and then finalizes, first the task
    and then the test; the human answers at once. *)
Definition curious : World :=
  {| microservice_specification := {| task := Some (txt "add"); test := None |};
     fs := ∅;
     made_dirs := [];
     environ := {[ txt "VERBOSE" := txt "false" ]};
     gpt_backend := fun n =>
       match n with
       | 0 => labeled_block (txt "prompt.txt") [] (txt "Which numbers?")
       | _ => Example.universal_reply
       end;
     gpt_failure := fun _ => None;
     gpt_requests := [];
     hubble := fun _ => [];
     pushed := [];
     hub := fun _ => true;
     hub_queries := [];
     stdin := [txt "integers"; txt "small ones"];
     prompts := [] |}.

(** A model that only ever asks, and a human with three answers. *)
Definition endless : World :=
  {| microservice_specification := {| task := Some (txt "add"); test := None |};
     fs := ∅;
     made_dirs := [];
     environ := {[ txt "VERBOSE" := txt "false" ]};
     gpt_backend := fun _ => labeled_block (txt "prompt.txt") [] (txt "Which numbers?");
     gpt_failure := fun _ => None;
     gpt_requests := [];
     hubble := fun _ => [];
     pushed := [];
     hub := fun _ => true;
     hub_queries := [];
     stdin := [txt "integers"; txt "small ones"; txt "two of them"];
     prompts := [] |}.

(** A task is given, and the model finalizes at once. *)
Definition decided : World :=
  {| microservice_specification := {| task := Some (txt "add"); test := None |};
     fs := ∅;
     made_dirs := [];
     environ := {[ txt "VERBOSE" := txt "false" ]};
     gpt_backend := fun _ => Example.universal_reply;
     gpt_failure := fun _ => None;
     gpt_requests := [];
     hubble := fun _ => [];
     pushed := [];
     hub := fun _ => true;
     hub_queries := [];
     stdin := [];
     prompts := [] |}.

(** A task is given, but [VERBOSE] is not set. *)
Definition quiet : World :=
  {| microservice_specification := {| task := Some (txt "add"); test := None |};
     fs := ∅;
     made_dirs := [];
     environ := ∅;
     gpt_backend := fun _ => Example.universal_reply;
     gpt_failure := fun _ => None;
     gpt_requests := [];
     hubble := fun _ => [];
     pushed := [];
     hub := fun _ => true;
     hub_queries := [];
     stdin := [];
     prompts := [] |}.

End Cases.

(** The text [write_config_yml] writes. *)
Definition config_yml (class_name python_file : text) : text :=
  txt "jtype: " ++ class_name ++ [NL] ++
  txt "py_modules:" ++ [NL] ++
  txt "  - " ++ python_file ++ [NL] ++
  txt "metas:" ++ [NL] ++
  txt "  name: " ++ class_name ++ [NL].

(** Everything but the requests to the model and the files is where it
    was. *)
Definition drafting_only (w w' : World) : Prop :=
  builder_same w w' /\
  microservice_specification w' = microservice_specification w /\
  environ w' = environ w /\ gpt_backend w' = gpt_backend w /\
  gpt_failure w' = gpt_failure w /\
  stdin w' = stdin w /\ prompts w' = prompts w.

Module Limits.

(** The constants of [Example], with room for no iteration at all. *)
Definition single_iteration : Constants :=
  {| FILE_AND_TAG_PAIRS := @FILE_AND_TAG_PAIRS Example.constants;
     NUM_IMPLEMENTATION_STRATEGIES := 2;
     MAX_DEBUGGING_ITERATIONS := 1;
     PROBLEMATIC_PACKAGES := @PROBLEMATIC_PACKAGES Example.constants;
     UNNECESSARY_PACKAGES := @UNNECESSARY_PACKAGES Example.constants;
     EXECUTOR_FILE_NAME := txt "microservice.py";
     EXECUTOR_FILE_TAG := txt "python";
     TEST_EXECUTOR_FILE_NAME := txt "test_microservice.py";
     TEST_EXECUTOR_FILE_TAG := txt "python";
     REQUIREMENTS_FILE_NAME := txt "requirements.txt";
     REQUIREMENTS_FILE_TAG := [];
     DOCKER_FILE_NAME := txt "Dockerfile";
     DOCKER_FILE_TAG := txt "dockerfile" |}.

End Limits.

(** The folders of the versions 1 to [upto - 1] of an approach. *)
Definition versions `{Collaborators} (path microservice_name : text) (upto : Z)
  (approach : Z * list text) : list text :=
  map (get_microservice_path path microservice_name (snd approach) (fst approach))
    (range 1 upto).

(* ================================================================== *)
(** * Properties of text *)
(* ================================================================== *)

#[local] Arguments Ascii.eqb : simpl never.

(** Case analysis on every comparison of characters of the goal. *)
Ltac case_chars :=
  repeat match goal with
         | |- context [Ascii.eqb ?x ?y] =>
             destruct (Ascii.eqb_spec x y); subst; simpl
         end.

Lemma strip_prefix_app p r : strip_prefix p (p ++ r) = Some r.
Proof.
  induction p as [|a p IH]; simpl; [reflexivity|].
  now rewrite Ascii.eqb_refl.
Qed.

Lemma strip_prefix_Some p s r : strip_prefix p s = Some r -> s = p ++ r.
Proof.
  revert s; induction p as [|a p IH]; intros s; simpl.
  - now intros [= ->].
  - destruct s as [|c s]; [discriminate|].
    destruct (Ascii.eqb_spec a c) as [->|]; [|discriminate].
    intros Hs. now rewrite (IH _ Hs).
Qed.

Lemma startswith_true s p : startswith s p = true <-> exists r, s = p ++ r.
Proof.
  unfold startswith. split.
  - destruct (strip_prefix p s) eqn:E; [|discriminate].
    intros _. eexists. eauto using strip_prefix_Some.
  - intros [r ->]. now rewrite strip_prefix_app.
Qed.

Lemma contains_occurs needle s : contains needle s = true <-> occurs needle s.
Proof.
  unfold occurs. induction s as [|c s IH]; simpl.
  - rewrite orb_false_r, startswith_true. split.
    + intros [r Hr]. exists [], r. exact Hr.
    + intros (b & a & Hs). destruct b; [|discriminate]. eauto.
  - rewrite orb_true_iff, startswith_true, IH. split.
    + intros [[r Hr]|(b & a & ->)].
      * exists [], r. exact Hr.
      * exists (c :: b), a. reflexivity.
    + intros (b & a & Hs). destruct b as [|c' b].
      * left. eauto.
      * right. injection Hs as -> ->. eauto.
Qed.

Lemma contains_false_suffix needle a b :
  contains needle (a ++ b) = false -> contains needle b = false.
Proof.
  induction a as [|c a IH]; simpl; [tauto|].
  intros [_ Hc]%orb_false_iff. auto.
Qed.

Lemma truthy_false s : truthy s = false <-> s = [].
Proof. destruct s; simpl; split; congruence. Qed.

Lemma truthy_true s : truthy s = true <-> s <> [].
Proof. destruct s; simpl; split; congruence. Qed.




Lemma strip_cons_space s c : is_space c = true -> strip (c :: s) = strip s.
Proof. intros Hc. unfold strip. simpl. now rewrite Hc. Qed.

Lemma lower_app a b : lower (a ++ b) = lower a ++ lower b.
Proof. apply map_app. Qed.



(* ================================================================== *)
(** * The lazy group and the fences *)
(* ================================================================== *)

Lemma lazy_until_eq close s :
  Re.lazy_until close s =
  match strip_prefix close s with
  | Some r => Some ([], r)
  | None =>
      match s with
      | c :: s' =>
          match Re.lazy_until close s' with
          | Some (cap, r) => Some (c :: cap, r)
          | None => None
          end
      | [] => None
      end
  end.
Proof. destruct s; reflexivity. Qed.

(** The lazy group stops at the first place where the closing sequence
    follows. *)
Lemma lazy_until_first close cap r :
  (forall c1 c2, cap = c1 ++ c2 -> c2 <> [] ->
     strip_prefix close (c2 ++ close ++ r) = None) ->
  Re.lazy_until close (cap ++ close ++ r) = Some (cap, r).
Proof.
  induction cap as [|c cap IH]; intros Hfree.
  - rewrite lazy_until_eq. simpl. now rewrite strip_prefix_app.
  - rewrite lazy_until_eq.
    rewrite (Hfree [] (c :: cap)) by (reflexivity || discriminate).
    simpl. rewrite IH; [reflexivity|].
    intros c1 c2 -> Hne. apply (Hfree (c :: c1) c2); [reflexivity|assumption].
Qed.

(** A fence at the start of a line cannot begin in a text without one and
    end in the closing fence. *)
Lemma line_fence_not_across c2 r :
  c2 <> [] -> contains line_fence c2 = false ->
  strip_prefix line_fence (c2 ++ line_fence ++ r) = None.
Proof.
  intros Hne Hc.
  destruct c2 as [|a [|b [|c [|d c2]]]]; [congruence| | | |];
    revert Hc; unfold line_fence, fence, txt, contains, startswith; simpl;
    case_chars; try reflexivity; try discriminate.
Qed.





(* ================================================================== *)
(** * The labeled block *)
(* ================================================================== *)

Lemma atom_self p : Re.atom p p = true.
Proof.
  unfold Re.atom. destruct (Ascii.eqb_spec p "."); subst; [reflexivity|].
  apply Ascii.eqb_refl.
Qed.

Lemma file_name_self name r : Re.file_name name (name ++ r) = Some r.
Proof.
  induction name as [|p name IH]; simpl; [reflexivity|].
  now rewrite atom_self.
Qed.

Lemma header_labeled_block name r :
  Re.header name (txt "**" ++ name ++ txt "**" ++ [NL] ++ fence ++ r) = Some r.
Proof.
  unfold Re.header.
  rewrite strip_prefix_app, file_name_self.
  apply (strip_prefix_app ("*" :: "*" :: NL :: txt "```")%char r).
Qed.

Lemma word_run_tag tag r :
  forallb is_word tag = true -> Re.word_run (tag ++ NL :: r) = NL :: r.
Proof.
  induction tag as [|c tag IH]; simpl; [reflexivity|].
  intros [Hc Ht]%andb_true_iff. rewrite Hc. auto.
Qed.

Lemma tag_line_tag tag r :
  tag <> [] -> forallb is_word tag = true -> Re.tag_line (tag ++ NL :: r) = Some r.
Proof.
  destruct tag as [|c tag]; [congruence|]. intros _. simpl.
  intros [Hc Ht]%andb_true_iff. rewrite Hc, word_run_tag by assumption.
  now rewrite Ascii.eqb_refl.
Qed.

Lemma tag_line_newline r : Re.tag_line (NL :: r) = None.
Proof. reflexivity. Qed.

Lemma search_eq here bol s :
  Re.search here bol s =
  match (if bol then here s else None) with
  | Some (cap, _) => Some cap
  | None =>
      match s with
      | c :: s' => Re.search here (Ascii.eqb c NL) s'
      | [] => None
      end
  end.
Proof. destruct s; reflexivity. Qed.

Lemma first_header_eq name bol s :
  first_header name bol s =
  if bol && bool_decide (is_Some (Re.header name s)) then Some 0
  else match s with
       | c :: s' => S <$> first_header name (Ascii.eqb c NL) s'
       | [] => None
       end.
Proof. destruct s; reflexivity. Qed.

(** The search passes over the lines before the first header. *)
Lemma search_first_header name pre rest bol cap r :
  first_header name bol (pre ++ rest) = Some (length pre) ->
  Re.labeled_here name rest = Some (cap, r) ->
  Re.search (Re.labeled_here name) bol (pre ++ rest) = Some cap.
Proof.
  intros Hfirst Hhere. revert bol Hfirst.
  induction pre as [|c pre IH]; intros bol; rewrite first_header_eq, search_eq.
  - simpl. destruct bol; simpl.
    + now rewrite Hhere.
    + destruct rest; simpl; [discriminate|].
      destruct (first_header _ _ _); discriminate.
  - destruct (bol && _) eqn:Hb; [discriminate|].
    assert ((if bol then Re.labeled_here name ((c :: pre) ++ rest) else None) = None) as ->.
    { destruct bol; [|reflexivity]. simpl in Hb.
      apply bool_decide_eq_false in Hb. unfold Re.labeled_here.
      destruct (Re.header name _); [|reflexivity].
      exfalso. apply Hb. eauto. }
    simpl. destruct (first_header name _ (pre ++ rest)) eqn:Hf; [|discriminate].
    intros [= Hn]. apply IH. now rewrite Hf, Hn.
Qed.

Lemma fence_body_labeled tag body r :
  forallb is_word tag = true ->
  contains line_fence (NL :: body) = false ->
  exists cap, Re.fence_body line_fence (tag ++ NL :: body ++ line_fence ++ r) = Some (cap, r)
              /\ strip cap = strip body.
Proof.
  intros Htag Hfree.
  destruct tag as [|c tag].
  - exists (NL :: body). split; [|now apply strip_cons_space].
    unfold Re.fence_body. simpl app. rewrite tag_line_newline.
    apply (lazy_until_first line_fence (NL :: body) r).
    intros c1 c2 Heq Hne. apply line_fence_not_across; [assumption|].
    rewrite Heq in Hfree. eauto using contains_false_suffix.
  - exists body. split; [|reflexivity].
    unfold Re.fence_body. rewrite tag_line_tag by (assumption || discriminate).
    assert (Re.lazy_until line_fence (body ++ line_fence ++ r) = Some (body, r)) as ->;
      [|reflexivity].
    apply lazy_until_first.
    intros c1 c2 Heq Hne. apply line_fence_not_across; [assumption|].
    apply (contains_false_suffix _ (NL :: c1)). simpl app. now rewrite <- Heq.
Qed.




(* ================================================================== *)
(** * The single block *)
(* ================================================================== *)

Lemma findall_eq here skip bol s :
  Re.findall here skip bol s =
  match skip with
  | S k =>
      match s with
      | c :: s' => Re.findall here k (Ascii.eqb c NL) s'
      | [] => []
      end
  | O =>
      match (if bol then here s else None) with
      | Some (cap, r) =>
          cap :: match s with
                 | c :: s' =>
                     Re.findall here (length s - length r - 1) (Ascii.eqb c NL) s'
                 | [] => []
                 end
      | None =>
          match s with
          | c :: s' => Re.findall here 0 (Ascii.eqb c NL) s'
          | [] => []
          end
      end
  end.
Proof. destruct s, skip; reflexivity. Qed.











(* ================================================================== *)
(** * The classifier *)
(* ================================================================== *)

Lemma existsb_runtime_exception error :
  existsb (fun error_message => contains error_message error) runtime_exception_names = true
  <-> names_runtime_exception error.
Proof.
  unfold names_runtime_exception. rewrite existsb_exists.
  split; intros (x & Hin & Hx); exists x; split; try assumption;
    now apply contains_occurs.
Qed.

Lemma contains_yes_affirmative answer :
  contains (txt "yes") (lower answer) = true <-> affirmative answer.
Proof.
  rewrite contains_occurs. unfold affirmative, occurs. split.
  - intros (b & a & Heq). unfold lower in Heq.
    apply map_eq_app in Heq as (b' & r & -> & Hb & Hr).
    apply map_eq_app in Hr as (m & a' & -> & Hm & Ha).
    exists m. split; [|exact Hm]. eauto.
  - intros (m & (b & a & ->) & Hm).
    exists (lower b), (lower a). now rewrite !lower_app, Hm.
Qed.

(** A request the backend answers. *)
Lemma chat_as_answered r conversation prompt w :
  gpt_failure w (length (gpt_requests w)) = None ->
  chat_as r conversation prompt w =
  (Return (gpt_backend w (length (gpt_requests w)),
           conversation ++ [{| msg_role := r; content := prompt |}] ++
           [assistant (gpt_backend w (length (gpt_requests w)))]),
   set_gpt_requests
     (gpt_requests w ++ [conversation ++ [{| msg_role := r; content := prompt |}]]) w).
Proof. intros Hanswer. unfold chat_as. rewrite Hanswer. now rewrite <- app_assoc. Qed.

(** A request the backend fails at: the error goes to the caller. *)
Lemma chat_as_failed r conversation prompt error w :
  gpt_failure w (length (gpt_requests w)) = Some error ->
  chat_as r conversation prompt w =
  (Raise (BackendError error),
   set_gpt_requests
     (gpt_requests w ++ [conversation ++ [{| msg_role := r; content := prompt |}]]) w).
Proof. intros Hfailure. unfold chat_as. now rewrite Hfailure. Qed.

(** Nothing the generator does changes how the backend will answer. *)
Lemma gpt_failure_set_fs f w : gpt_failure (set_fs f w) = gpt_failure w.
Proof. reflexivity. Qed.

Lemma gpt_failure_set_made_dirs l w : gpt_failure (set_made_dirs l w) = gpt_failure w.
Proof. reflexivity. Qed.

Lemma gpt_failure_set_specification s w : gpt_failure (set_specification s w) = gpt_failure w.
Proof. reflexivity. Qed.

Lemma gpt_failure_set_gpt_requests l w : gpt_failure (set_gpt_requests l w) = gpt_failure w.
Proof. reflexivity. Qed.

Lemma gpt_failure_set_pushed l w : gpt_failure (set_pushed l w) = gpt_failure w.
Proof. reflexivity. Qed.

Lemma gpt_failure_set_hub_queries l w : gpt_failure (set_hub_queries l w) = gpt_failure w.
Proof. reflexivity. Qed.

Lemma gpt_failure_set_terminal lines shown w :
  gpt_failure (set_terminal lines shown w) = gpt_failure w.
Proof. reflexivity. Qed.

(** Rewrites with the answers of the backend, [H] saying that every
    request is answered. *)
Ltac answers H :=
  unfold answered in H;
  repeat first
    [ rewrite H
    | rewrite gpt_failure_set_gpt_requests
    | rewrite gpt_failure_set_fs
    | rewrite gpt_failure_set_made_dirs
    | rewrite gpt_failure_set_specification
    | rewrite gpt_failure_set_pushed
    | rewrite gpt_failure_set_hub_queries
    | rewrite gpt_failure_set_terminal ].

Section Classifier.
Context `{Templates}.

(** C5.  When the error text names one of the runtime exceptions,
    [is_dependency_issue] answers that the code is at fault and leaves the
    world as it is: the model is not called.  Otherwise it sends one
    request to the model, and, the request answered, says that the
    dependencies are at fault exactly when the reply carries an
    affirmative marker. *)
Theorem is_dependency_issue_classifies error docker_file w :
  (names_runtime_exception error ->
   is_dependency_issue error docker_file w = (Return false, w)) /\
  (~ names_runtime_exception error ->
   gpt_failure w (length (gpt_requests w)) = None ->
   exists prompt dependency,
     is_dependency_issue error docker_file w =
       (Return dependency,
        set_gpt_requests (gpt_requests w ++ [[human prompt]]) w) /\
     (dependency = true <-> affirmative (gpt_backend w (length (gpt_requests w))))).
Proof.
  unfold is_dependency_issue.
  change [txt "AttributeError"; txt "NameError"; txt "AssertionError"]
    with runtime_exception_names.
  split; [intros Hn|intros Hn Hanswer].
  - apply existsb_runtime_exception in Hn. now rewrite Hn.
  - destruct (existsb _ _) eqn:E; [apply existsb_runtime_exception in E; contradiction|].
    unfold bind, chat. rewrite chat_as_answered by assumption.
    eexists _, _. split; [reflexivity|].
    apply contains_yes_affirmative.
Qed.

(** The classifier touches neither the files nor the builder, however it
    ends. *)
Lemma is_dependency_issue_frame error docker w r w' :
  is_dependency_issue error docker w = (r, w') ->
  fs w' = fs w /\ made_dirs w' = made_dirs w /\ builder_same w w' /\
  gpt_failure w' = gpt_failure w /\
  r <> Unfinished.
Proof.
  unfold is_dependency_issue, bind, chat, chat_as, ret, builder_same.
  destruct (existsb _ _); [|destruct (gpt_failure w _)]; intros [= <- <-];
    repeat split; discriminate.
Qed.

Lemma is_dependency_issue_returns error docker w :
  answered w ->
  exists dependency w',
    is_dependency_issue error docker w = (Return dependency, w') /\
    fs w' = fs w /\ made_dirs w' = made_dirs w /\ builder_same w w' /\
    gpt_failure w' = gpt_failure w.
Proof.
  intros Hanswered.
  unfold is_dependency_issue, bind, chat, chat_as, ret, builder_same.
  destruct (existsb _ _); [|rewrite Hanswered]; eexists _, _; repeat split.
Qed.

End Classifier.

(** C5 at the error text of the specification's scenario. *)
Lemma is_dependency_issue_classifies_witness :
  is_dependency_issue Example.attribute_error (txt "FROM python") Example.barren =
  (Return false, Example.barren).
Proof.
  apply (proj1 (is_dependency_issue_classifies Example.attribute_error (txt "FROM python")
                  Example.barren)).
  exists (txt "AttributeError"). split.
  - simpl. auto.
  - exists (txt "Traceback: "), (txt ": 'NoneType' object has no attribute 'x'").
    reflexivity.
Defined.

(* ================================================================== *)
(** * Generating one file *)
(* ================================================================== *)

Section Persist.
Context `{Templates}.

(** C8.  When the first extraction of [generate_and_persist_file] is
    empty, the call sends exactly one further message, the corrective
    one, in the same conversation, and returns what the second extraction
    gives, the empty string included; nothing is raised, given that the
    backend answers and that the folder to write to, if any, exists. *)
Theorem generate_and_persist_file_one_follow_up
  section_title template destination_folder file_name examples kwargs w :
  let first := gpt_backend w (length (gpt_requests w)) in
  let second := gpt_backend w (S (length (gpt_requests w))) in
  answered w ->
  (forall folder, persists_to destination_folder = Some folder -> is_Some (fs w !! folder)) ->
  extract_content_from_result first file_name true = [] ->
  exists system prompt w',
    generate_and_persist_file section_title template destination_folder file_name
      examples kwargs w =
      (Return (extract_content_from_result second file_name true), w') /\
    gpt_requests w' =
      gpt_requests w ++
      [[system; human prompt];
       [system; human prompt; assistant first;
        human (txt "You must add the content for " ++ file_name ++ txt ".")]].
Proof.
  intros first second Hanswered Hfolder Hfirst.
  unfold generate_and_persist_file, bind, get, chat, chat_as, ret, get_conversation.
  answers Hanswered.
  cbn [fst snd]. fold first. rewrite Hfirst. cbn [truthy negb].
  answers Hanswered.
  cbn [gpt_backend gpt_requests set_gpt_requests].
  rewrite length_app. cbn [length]. rewrite Nat.add_1_r. fold second.
  eexists _, _.
  destruct destination_folder as [folder|]; cbn [persists_to] in Hfolder.
  - destruct (truthy folder) eqn:Et.
    + destruct (Hfolder folder eq_refl) as [files Hfiles].
      unfold persist_file. cbn [fs set_gpt_requests]. rewrite Hfiles.
      eexists. split; [reflexivity|].
      cbn [gpt_requests set_fs set_gpt_requests].
      rewrite <- app_assoc. reflexivity.
    + eexists. split; [reflexivity|].
      cbn [gpt_requests set_gpt_requests]. rewrite <- app_assoc. reflexivity.
  - eexists. split; [reflexivity|].
    cbn [gpt_requests set_gpt_requests]. rewrite <- app_assoc. reflexivity.
Qed.

(** C10.  A call of [generate_and_persist_file] with a destination folder
    writes, the backend answering, the file under its name into the
    folder, whatever the content is: when both extractions are empty, the
    empty file is written and the empty string returned. *)
Theorem generate_and_persist_file_writes
  section_title template folder file_name examples kwargs files w :
  let first := gpt_backend w (length (gpt_requests w)) in
  let second := gpt_backend w (S (length (gpt_requests w))) in
  answered w ->
  truthy folder = true ->
  fs w !! folder = Some files ->
  exists file_content w',
    generate_and_persist_file section_title template (Some folder) file_name
      examples kwargs w = (Return file_content, w') /\
    fs w' = <[folder := <[file_name := file_content]> files]> (fs w) /\
    (extract_content_from_result first file_name true = [] ->
     extract_content_from_result second file_name true = [] ->
     file_content = []).
Proof.
  intros first second Hanswered Ht Hfiles.
  unfold generate_and_persist_file, bind, get, chat, chat_as, ret, get_conversation.
  answers Hanswered.
  cbn [fst snd]. fold first. rewrite Ht.
  destruct (truthy (extract_content_from_result first file_name true)) eqn:E;
    cbn [negb]; answers Hanswered; unfold persist_file;
    cbn [fs gpt_backend gpt_requests set_gpt_requests]; rewrite Hfiles.
  - eexists _, _. split; [reflexivity|]. split; [reflexivity|].
    intros Hfirst. rewrite Hfirst in E. discriminate.
  - rewrite length_app. cbn [length]. rewrite Nat.add_1_r. fold second.
    eexists _, _. split; [reflexivity|]. split; [reflexivity|]. auto.
Qed.

End Persist.

(** C8 at a model that never writes a block: two requests, the empty
    string returned. *)
Lemma generate_and_persist_file_one_follow_up_witness :
  exists w',
    generate_and_persist_file (txt "packages to use") template_generate_possible_packages
      None (txt "packages.csv") [txt "gpt"] [] Example.barren = (Return [], w') /\
    length (gpt_requests w') = 2.
Proof.
  destruct (generate_and_persist_file_one_follow_up
              (txt "packages to use") template_generate_possible_packages
              None (txt "packages.csv") [txt "gpt"] [] Example.barren)
    as (system & prompt & w' & Hrun & Hrequests).
  - intros n. reflexivity.
  - intros folder Hfolder. discriminate Hfolder.
  - vm_compute. reflexivity.
  - exists w'. split; [exact Hrun|]. rewrite Hrequests. reflexivity.
Defined.

(** C10 at a model that never writes a block: the source module of the
    first version is written empty. *)
Lemma generate_and_persist_file_writes_witness :
  exists w',
    generate_and_persist_file (txt "Microservice") template_generate_executor
      (Some Example.adder_v1) (txt "microservice.py") all_examples [] Example.started =
      (Return [], w') /\
    fs w' !! Example.adder_v1 = Some {[ txt "microservice.py" := [] ]}.
Proof.
  destruct (generate_and_persist_file_writes
              (txt "Microservice") template_generate_executor
              Example.adder_v1 (txt "microservice.py") all_examples [] ∅ Example.started)
    as (file_content & w' & Hrun & Hfs & Hempty).
  - intros n. reflexivity.
  - vm_compute. reflexivity.
  - vm_compute. reflexivity.
  - rewrite Hempty in * by (vm_compute; reflexivity).
    exists w'. split; [exact Hrun|]. rewrite Hfs. apply lookup_insert_eq.
Defined.

(** The first version generated with a model that never writes a block
    holds its four artifacts, all empty. *)
Lemma generate_microservice_empty_artifacts :
  fst (generate_microservice (txt "out") (txt "Adder") [txt "numpy"] 0 Example.barren) =
    Return tt /\
  forall file_name,
    In file_name [txt "microservice.py"; txt "test_microservice.py";
                  txt "requirements.txt"; txt "Dockerfile"] ->
    fs Example.drafted !! Example.adder_v1 ≫= (.!! file_name) = Some [].
Proof.
  split; [vm_compute; reflexivity|].
  intros file_name Hin. simpl in Hin.
  destruct Hin as [<-|[<-|[<-|[<-|[]]]]]; vm_compute; reflexivity.
Qed.

(* ================================================================== *)
(** * One repair *)
(* ================================================================== *)

Lemma for_each_persist l folder base w :
  fs w !! folder = Some base ->
  for_each l (fun kv => persist_file (snd kv) folder (fst kv)) w =
  (Return tt, set_fs (<[folder := write_all base l]> (fs w)) w).
Proof.
  revert base w. induction l as [|[k v] l IH]; intros base w Hbase.
  - unfold for_each, ret, write_all. simpl. rewrite insert_id by assumption.
    now destruct w.
  - cbn [for_each]. unfold bind at 1. unfold persist_file at 1. rewrite Hbase.
    cbn [fst snd].
    rewrite (IH (<[k := v]> base)) by (cbn [fs set_fs]; apply lookup_insert_eq).
    cbn [fs set_fs]. rewrite insert_insert_eq. reflexivity.
Qed.

Lemma write_all_list_to_map (l : list (text * text)) (base : gmap text text) :
  NoDup l.*1 -> write_all base l = list_to_map l ∪ base.
Proof.
  revert base. induction l as [|[k v] l IH]; intros base Hnd.
  - unfold write_all. simpl. now rewrite (left_id_L ∅ (∪)).
  - apply NoDup_cons in Hnd as [Hk Hnd].
    change (write_all base ((k, v) :: l)) with (write_all (<[k := v]> base) l).
    rewrite IH by assumption. cbn [list_to_map foldr]. simpl.
    rewrite <- insert_union_l.
    rewrite <- insert_union_r; [reflexivity|].
    now apply not_elem_of_list_to_map_1.
Qed.

(** Writing the files of a dictionary one by one into an empty folder
    gives the dictionary. *)
Lemma write_all_map_to_list (m : gmap text text) : write_all ∅ (map_to_list m) = m.
Proof.
  rewrite write_all_list_to_map by apply NoDup_fst_map_to_list.
  rewrite list_to_map_to_list. apply (right_id_L ∅ (∪)).
Qed.

Section Repair.
Context `{Constants} `{Templates}.

Lemma apply_updates_lookup raw dependency files k :
  apply_updates raw dependency files !! k =
  if in_list k (FILE_AND_TAG_PAIRS.*1) && taken_over raw dependency k
  then Some (extract_content_from_result raw k false)
  else files !! k.
Proof.
  unfold apply_updates. generalize FILE_AND_TAG_PAIRS as pairs.
  intros pairs. revert files.
  induction pairs as [|[file_name tag] pairs IH]; intros files; [reflexivity|].
  cbn [fold_left]. rewrite IH. clear IH.
  fold (taken_over raw dependency file_name).
  unfold in_list. cbn [fmap list_fmap fst].
  destruct (decide (k = file_name)) as [->|Hne].
  - rewrite (bool_decide_eq_true_2 (file_name ∈ file_name :: _)) by constructor.
    destruct (taken_over raw dependency file_name); simpl.
    + rewrite lookup_insert_eq. now destruct (bool_decide _).
    + now rewrite andb_false_r.
  - rewrite (bool_decide_ext (k ∈ file_name :: pairs.*1) (k ∈ pairs.*1)).
    2:{ rewrite elem_of_cons. tauto. }
    destruct (bool_decide (k ∈ pairs.*1) && taken_over raw dependency k); [reflexivity|].
    destruct (taken_over raw dependency file_name); [|reflexivity].
    now rewrite lookup_insert_ne.
Qed.

Lemma apply_updates_keeps raw dependency files k :
  is_Some (files !! k) -> is_Some (apply_updates raw dependency files !! k).
Proof.
  intros Hk. rewrite apply_updates_lookup. destruct (_ && _); eauto.
Qed.

Lemma summarize_error_answered error w :
  gpt_failure w (length (gpt_requests w)) = None ->
  summarize_error error w =
  (Return (gpt_backend w (length (gpt_requests w))),
   set_gpt_requests
     (gpt_requests w ++ [[human (format template_summarize_error [(txt "error", PyStr error)])]])
     w).
Proof.
  intros Hanswer. unfold summarize_error, bind, chat.
  now rewrite chat_as_answered by assumption.
Qed.

(** A repair of a version that is there with its build file, into a folder
    that is not there yet, runs to its end, the backend answering, and
    writes the updated files of the version into the new folder. *)
Lemma do_debug_iteration_runs error next prev files docker dependency w w2 :
  answered w ->
  fs w !! prev = Some files ->
  files !! txt "Dockerfile" = Some docker ->
  fs w !! next = None ->
  is_dependency_issue error docker (snd (summarize_error error (snd (makedirs next w)))) =
    (Return dependency, w2) ->
  exists w',
    do_debug_iteration error next prev w = (Return tt, w') /\
    fs w' =
      <[next := apply_updates (gpt_backend w2 (length (gpt_requests w2))) dependency files]>
        (fs w).
Proof.
  intros Hanswered Hprev Hdocker Hnext Hdep.
  assert (next <> prev) as Hne by congruence.
  unfold do_debug_iteration.
  unfold bind at 1. unfold makedirs at 1. rewrite Hnext.
  unfold makedirs in Hdep. rewrite Hnext in Hdep. cbn [snd] in Hdep.
  set (w0 := set_made_dirs _ _) in *.
  unfold bind at 1. unfold get_all_microservice_files_with_content at 1.
  assert (fs w0 !! prev = Some files) as ->.
  { subst w0. cbn [fs set_made_dirs set_fs]. now rewrite lookup_insert_ne. }
  unfold bind at 1.
  rewrite (summarize_error_answered error w0) in Hdep |- * by apply Hanswered.
  cbn [snd] in Hdep.
  unfold bind at 1. rewrite Hdocker. unfold ret at 1.
  unfold bind at 1. rewrite Hdep.
  apply is_dependency_issue_frame in Hdep as (Hfs2 & _ & _ & Hfailure & _).
  unfold bind at 1. unfold get at 1.
  unfold bind at 1. unfold chat.
  rewrite chat_as_answered by (rewrite Hfailure; apply Hanswered).
  cbn [fst].
  rewrite (for_each_persist _ next ∅).
  2:{ cbn [fs set_gpt_requests]. rewrite Hfs2. apply lookup_insert_eq. }
  rewrite write_all_map_to_list.
  eexists. split; [reflexivity|].
  cbn [fs set_fs set_gpt_requests]. rewrite Hfs2.
  cbn [fs set_gpt_requests]. subst w0. cbn [fs set_made_dirs set_fs].
  rewrite insert_insert_eq. reflexivity.
Qed.

(** C3.  A repair of version [prev] (there with its build file) into the
    folder [next] (not there yet) writes, the backend answering, a
    successor that holds every file of the predecessor and leaves the
    predecessor as it was.  When
    the classifier says dependency, only [requirements.txt] and
    [Dockerfile] can differ from the predecessor; when it says code, the
    files replaced are the recognized file names for which the reply has
    content, each by that content, and every other file is carried
    over. *)
Theorem do_debug_iteration_successor error next prev files docker dependency w w2 :
  answered w ->
  fs w !! prev = Some files ->
  files !! txt "Dockerfile" = Some docker ->
  fs w !! next = None ->
  is_dependency_issue error docker (snd (summarize_error error (snd (makedirs next w)))) =
    (Return dependency, w2) ->
  let reply := gpt_backend w2 (length (gpt_requests w2)) in
  exists w' successor,
    do_debug_iteration error next prev w = (Return tt, w') /\
    fs w' = <[next := successor]> (fs w) /\
    fs w' !! prev = Some files /\
    (forall k, is_Some (files !! k) -> is_Some (successor !! k)) /\
    (dependency = true ->
     forall k, k <> txt "requirements.txt" -> k <> txt "Dockerfile" ->
       successor !! k = files !! k) /\
    (dependency = false ->
     forall k,
       successor !! k =
       if decide (k ∈ FILE_AND_TAG_PAIRS.*1 /\ extract_content_from_result reply k false <> [])
       then Some (extract_content_from_result reply k false)
       else files !! k).
Proof.
  intros Hanswered Hprev Hdocker Hnext Hdep reply.
  destruct (do_debug_iteration_runs error next prev files docker dependency w w2
              Hanswered Hprev Hdocker Hnext Hdep) as (w' & Hrun & Hfs).
  fold reply in Hfs.
  exists w', (apply_updates reply dependency files).
  split; [exact Hrun|]. split; [exact Hfs|].
  split; [rewrite Hfs; rewrite lookup_insert_ne; congruence|].
  split; [intros k; apply apply_updates_keeps|].
  split.
  - intros -> k Hk1 Hk2. rewrite apply_updates_lookup. unfold taken_over, in_list at 2.
    rewrite (bool_decide_eq_false_2 (k ∈ _)).
    2:{ rewrite !elem_of_cons, elem_of_nil. tauto. }
    now rewrite !andb_false_r.
  - intros -> k. rewrite apply_updates_lookup. unfold taken_over, in_list.
    cbn [negb orb]. rewrite andb_true_r.
    destruct (decide _) as [[Hin Hext]|Hno].
    + rewrite bool_decide_eq_true_2 by assumption.
      apply truthy_true in Hext. now rewrite Hext.
    + destruct (bool_decide (k ∈ _)) eqn:Hin; [|reflexivity].
      apply bool_decide_eq_true in Hin.
      destruct (truthy _) eqn:Hext; [|reflexivity].
      apply truthy_true in Hext. tauto.
Qed.

(** A repair leaves the builder and the registry alone, and makes its
    folder or fails before. *)
Lemma do_debug_iteration_frame error next prev w r w' :
  do_debug_iteration error next prev w = (r, w') ->
  builder_same w w' /\
  ((r = Return tt /\ made_dirs w' = made_dirs w ++ [next]) \/
   (exists e, r = Raise e /\
      (made_dirs w' = made_dirs w \/ made_dirs w' = made_dirs w ++ [next]))).
Proof.
  unfold do_debug_iteration, builder_same.
  unfold bind at 1. unfold makedirs at 1.
  destruct (fs w !! next) eqn:Hnext; [intros [= <- <-]; solve [eauto 10]|].
  set (w0 := set_made_dirs _ _).
  unfold bind at 1. unfold get_all_microservice_files_with_content at 1.
  destruct (fs w0 !! prev) as [files|] eqn:Hprev; [|intros [= <- <-]; solve [eauto 10]].
  unfold bind at 1. unfold summarize_error, bind, chat, chat_as, ret. cbn [fst snd].
  set (w1 := set_gpt_requests _ w0).
  destruct (gpt_failure w0 _); [intros [= <- <-]; solve [eauto 10]|].
  destruct (files !! txt "Dockerfile") as [docker|]; [|intros [= <- <-]; solve [eauto 10]].
  destruct (is_dependency_issue error docker w1) as [r2 w2] eqn:Hdep.
  apply is_dependency_issue_frame in Hdep
    as (Hfs & Hdirs & (Hp & Hh & Hu & Hq) & _ & Hfinished).
  assert (made_dirs w2 = made_dirs w ++ [next]) as Hdirs2 by (now rewrite Hdirs).
  destruct r2 as [dependency|e|]; [| |congruence].
  2:{ intros [= <- <-]. rewrite Hp, Hh, Hu, Hq. eauto 10. }
  unfold get. cbn [fst snd].
  destruct (gpt_failure w2 _).
  { intros [= <- <-].
    cbn [pushed hubble hub hub_queries made_dirs set_gpt_requests].
    rewrite Hp, Hh, Hu, Hq. eauto 10. }
  rewrite (for_each_persist _ next ∅).
  2:{ cbn [fs set_gpt_requests]. rewrite Hfs. subst w1 w0.
      cbn [fs set_gpt_requests set_made_dirs set_fs]. apply lookup_insert_eq. }
  intros [= <- <-].
  cbn [pushed hubble hub hub_queries made_dirs set_fs set_gpt_requests].
  rewrite Hp, Hh, Hu, Hq. eauto 10.
Qed.

(** A repair does not change how the backend will answer. *)
Lemma do_debug_iteration_backend error next prev w r w' :
  do_debug_iteration error next prev w = (r, w') -> gpt_failure w' = gpt_failure w.
Proof.
  unfold do_debug_iteration.
  unfold bind at 1. unfold makedirs at 1.
  destruct (fs w !! next); [intros [= <- <-]; reflexivity|].
  set (w0 := set_made_dirs _ _).
  unfold bind at 1. unfold get_all_microservice_files_with_content at 1.
  destruct (fs w0 !! prev) as [files|]; [|intros [= <- <-]; reflexivity].
  unfold bind at 1. unfold summarize_error, bind, chat, chat_as, ret. cbn [fst snd].
  set (w1 := set_gpt_requests _ w0).
  destruct (gpt_failure w0 _); [intros [= <- <-]; reflexivity|].
  destruct (files !! txt "Dockerfile") as [docker|]; [|intros [= <- <-]; reflexivity].
  destruct (is_dependency_issue error docker w1) as [r2 w2] eqn:Hdep.
  apply is_dependency_issue_frame in Hdep as (Hfs & _ & _ & Hfailure & Hfinished).
  destruct r2 as [dependency|e|]; [| |congruence].
  2:{ intros [= <- <-]. exact Hfailure. }
  unfold get. cbn [fst snd].
  destruct (gpt_failure w2 _); [intros [= <- <-]; exact Hfailure|].
  rewrite (for_each_persist _ next ∅).
  2:{ cbn [fs set_gpt_requests]. rewrite Hfs. subst w1 w0.
      cbn [fs set_gpt_requests set_made_dirs set_fs]. apply lookup_insert_eq. }
  intros [= <- <-]. exact Hfailure.
Qed.

Lemma summarize_error_backend error w :
  gpt_failure (snd (summarize_error error w)) = gpt_failure w.
Proof.
  unfold summarize_error, bind, chat, chat_as, ret. now destruct (gpt_failure w _).
Qed.

End Repair.

Lemma makedirs_backend path w : gpt_failure (snd (makedirs path w)) = gpt_failure w.
Proof. unfold makedirs. now destruct (fs w !! path). Qed.

(** C3 at a code-classified repair: the source module is replaced by the
    one of the reply, the build file is carried over, the predecessor is
    as before. *)
Lemma do_debug_iteration_successor_witness :
  exists w' successor,
    do_debug_iteration (txt "SyntaxError: invalid syntax") (txt "v2") (txt "v1")
      Example.broken = (Return tt, w') /\
    fs w' !! txt "v2" = Some successor /\
    fs w' !! txt "v1" = fs Example.broken !! txt "v1" /\
    successor !! txt "microservice.py" = Some (txt "class Adder: pass") /\
    successor !! txt "Dockerfile" = Some (txt "FROM python").
Proof.
  destruct (do_debug_iteration_successor
              (txt "SyntaxError: invalid syntax") (txt "v2") (txt "v1")
              (<[ txt "microservice.py" := txt "class Adder pass" ]>
                 {[ txt "Dockerfile" := txt "FROM python" ]})
              (txt "FROM python") false Example.broken
              (snd (is_dependency_issue (txt "SyntaxError: invalid syntax") (txt "FROM python")
                      (snd (summarize_error (txt "SyntaxError: invalid syntax")
                              (snd (makedirs (txt "v2") Example.broken)))))))
    as (w' & successor & Hrun & Hfs & Hprev & _ & _ & Hcode).
  - intros n. reflexivity.
  - vm_compute. reflexivity.
  - vm_compute. reflexivity.
  - vm_compute. reflexivity.
  - vm_compute. reflexivity.
  - exists w', successor. split; [exact Hrun|].
    split; [rewrite Hfs; apply lookup_insert_eq|].
    split; [rewrite Hprev; vm_compute; reflexivity|].
    rewrite !(Hcode eq_refl). split; vm_compute; reflexivity.
Defined.

(* ================================================================== *)
(** * The debug loop *)
(* ================================================================== *)

Lemma range_nil a b : (b <= a)%Z -> range a b = [].
Proof. intros Hle. unfold range. now replace (Z.to_nat (b - a)) with 0 by lia. Qed.

Lemma range_cons a b : (a < b)%Z -> range a b = a :: range (a + 1) b.
Proof.
  intros Hlt. unfold range.
  replace (Z.to_nat (b - a)) with (S (Z.to_nat (b - (a + 1)))) by lia.
  cbn [seq map]. f_equal; [lia|].
  rewrite <- seq_shift, map_map. apply map_ext. intros k. lia.
Qed.

Lemma builds_fail_next `{Collaborators} n w w' path_pushed :
  builds_fail (S n) w -> hubble w' = hubble w -> pushed w' = pushed w ++ [path_pushed] ->
  builds_fail n w'.
Proof.
  intros Hall Hh Hp j Hj. rewrite Hh, Hp, length_app. cbn [length].
  replace (length (pushed w) + 1 + j) with (length (pushed w) + S j) by lia.
  apply Hall. lia.
Qed.

Section Loop.
Context `{Constants} `{Templates} `{Collaborators}.

#[local] Abbreviation version path microservice_name num_approach packages :=
  (get_microservice_path path microservice_name packages num_approach).

(** One turn of the loop of [debug_microservice]. *)
Lemma debug_for_cons path microservice_name num_approach packages i iterations i_before w :
  debug_for path microservice_name num_approach packages (i :: iterations) i_before w =
  let w1 := set_pushed (pushed w ++ [version path microservice_name num_approach packages i]) w in
  let log_hubble := hubble w (length (pushed w)) in
  let error := process_error_message log_hubble in
  if truthy error then
    match do_debug_iteration error
            (version path microservice_name num_approach packages (i + 1))
            (version path microservice_name num_approach packages i) w1 with
    | (Return _, w2) =>
        if (i =? MAX_DEBUGGING_ITERATIONS - 1)%Z
        then (Raise (MaxDebugTimeReachedException (txt "Could not debug the microservice.")), w2)
        else debug_for path microservice_name num_approach packages iterations (Some i) w2
    | (Raise e, w2) => (Raise e, w2)
    | (Unfinished, w2) => (Unfinished, w2)
    end
  else
    let w2 := set_hub_queries (hub_queries w ++ [microservice_name]) w1 in
    if hub w (length (hub_queries w)) then (Return (Some i), w2)
    else (Raise (Exception (microservice_name ++ txt " not in hub. Hubble logs: " ++ log_hubble)), w2).
Proof.
  cbn [debug_for]. unfold bind at 1. unfold push_executor at 1. cbv zeta.
  destruct (truthy _).
  - unfold bind at 1. destruct (do_debug_iteration _ _ _ _) as [[[]| |] w2]; try reflexivity.
    destruct (_ =? _)%Z; reflexivity.
  - unfold bind, is_executor_in_hub. cbn [hub hub_queries set_pushed].
    destruct (hub w _); reflexivity.
Qed.

(** From iteration [i] on, the loop pushes the versions [i], [i + 1], ...
    one after the other and makes the versions [i + 1], [i + 2], ...,
    never more versions than it pushed and never more pushes than there
    are iterations left. *)
Lemma debug_for_bounded path microservice_name num_approach packages n :
  forall i i_before w,
    n = Z.to_nat (MAX_DEBUGGING_ITERATIONS - i) ->
    let r := debug_for path microservice_name num_approach packages
               (range i MAX_DEBUGGING_ITERATIONS) i_before w in
    exists k m : nat,
      k <= n /\ m <= k /\
      hubble (snd r) = hubble w /\
      pushed (snd r) =
        pushed w ++ map (version path microservice_name num_approach packages)
                      (range i (i + Z.of_nat k)) /\
      made_dirs (snd r) =
        made_dirs w ++ map (version path microservice_name num_approach packages)
                         (range (i + 1) (i + 1 + Z.of_nat m)).
Proof.
  induction n as [|n IH]; intros i i_before w Hn.
  - rewrite range_nil by lia. exists 0, 0. cbn [debug_for ret snd].
    rewrite !range_nil by lia. cbn [map]. now rewrite !app_nil_r.
  - rewrite range_cons by lia. rewrite debug_for_cons. cbv zeta.
    set (v := version path microservice_name num_approach packages).
    set (w1 := set_pushed _ w).
    destruct (truthy _).
    + destruct (do_debug_iteration _ _ _ _) as [r w2] eqn:Hrun.
      apply do_debug_iteration_frame in Hrun as [(Hp & Hh & _) Hcases].
      destruct r as [[]|e|]; cbn [fst snd] in *.
      * destruct Hcases as [[_ Hdirs]|(e & He & _)]; [|discriminate].
        destruct (i =? _)%Z eqn:Hlast.
        -- exists 1, 1. cbn [snd]. rewrite Hp, Hh, Hdirs. subst w1.
           cbn [pushed hubble made_dirs set_pushed].
           rewrite (range_cons i), (range_nil (i + 1)) by lia.
           rewrite (range_cons (i + 1)), (range_nil (i + 1 + 1)) by lia.
           repeat split; try lia; reflexivity.
        -- destruct (IH (i + 1)%Z (Some i) w2 ltac:(lia))
             as (k & m & Hk & Hm & Hh' & Hp' & Hd').
           exists (S k), (S m). repeat split; try lia.
           ++ now rewrite Hh', Hh.
           ++ rewrite Hp', Hp. subst w1. cbn [pushed set_pushed].
              rewrite (range_cons i) by lia. cbn [map]. rewrite <- app_assoc.
              replace (i + Z.of_nat (S k))%Z with (i + 1 + Z.of_nat k)%Z by lia.
              reflexivity.
           ++ rewrite Hd', Hdirs. subst w1. cbn [made_dirs set_pushed].
              rewrite (range_cons (i + 1)) by lia. cbn [map]. rewrite <- app_assoc.
              replace (i + 1 + Z.of_nat (S m))%Z with (i + 1 + 1 + Z.of_nat m)%Z by lia.
              reflexivity.
      * destruct Hcases as [[? _]|(e' & _ & [Hdirs|Hdirs])]; [discriminate| |].
        -- exists 1, 0. cbn [snd]. rewrite Hp, Hh, Hdirs. subst w1.
           cbn [pushed hubble made_dirs set_pushed].
           rewrite (range_cons i), (range_nil (i + 1)) by lia.
           rewrite (range_nil (i + 1)) by lia. cbn [map]. rewrite app_nil_r.
           repeat split; try lia; reflexivity.
        -- exists 1, 1. cbn [snd]. rewrite Hp, Hh, Hdirs. subst w1.
           cbn [pushed hubble made_dirs set_pushed].
           rewrite (range_cons i), (range_nil (i + 1)) by lia.
           rewrite (range_cons (i + 1)), (range_nil (i + 1 + 1)) by lia.
           repeat split; try lia; reflexivity.
      * destruct Hcases as [[? _]|(e' & ? & _)]; discriminate.
    + exists 1, 0.
      assert (forall (a b : Outcome (option Z)) (c : bool),
                 snd (if c then (a, set_hub_queries (hub_queries w ++ [microservice_name]) w1)
                      else (b, set_hub_queries (hub_queries w ++ [microservice_name]) w1)) =
                 set_hub_queries (hub_queries w ++ [microservice_name]) w1) as ->
        by (intros ? ? []; reflexivity).
      subst w1. cbn [pushed hubble made_dirs set_pushed set_hub_queries].
      rewrite (range_cons i), (range_nil (i + 1)) by lia.
      rewrite (range_nil (i + 1)) by lia. cbn [map]. rewrite app_nil_r.
      repeat split; try lia; reflexivity.
Qed.

(** When every build fails, the loop ends with an exception. *)
Lemma debug_for_all_fail path microservice_name num_approach packages n :
  forall i i_before w,
    S n = Z.to_nat (MAX_DEBUGGING_ITERATIONS - i) ->
    builds_fail (S n) w ->
    exists e w',
      debug_for path microservice_name num_approach packages
        (range i MAX_DEBUGGING_ITERATIONS) i_before w = (Raise e, w').
Proof.
  induction n as [|n IH]; intros i i_before w Hn Hall;
    rewrite range_cons by lia; rewrite debug_for_cons; cbv zeta;
    pose proof (Hall 0 ltac:(lia)) as Hfail; rewrite Nat.add_0_r in Hfail; rewrite Hfail;
    destruct (do_debug_iteration _ _ _ _) as [r w2] eqn:Hrun;
    apply do_debug_iteration_frame in Hrun as [(Hp & Hh & _) Hcases];
    (destruct Hcases as [[-> _]|(e & -> & _)]; [|solve [repeat eexists]]).
  - replace (i =? MAX_DEBUGGING_ITERATIONS - 1)%Z with true by lia. repeat eexists.
  - destruct (i =? _)%Z; [solve [repeat eexists]|].
    apply IH; [lia|]. eapply builds_fail_next; [exact Hall|exact Hh|exact Hp].
Qed.

(** When every build fails and every repair can be written, the loop
    pushes every version up to the last allowed one, makes a successor of
    each, and ends with the bounded-retry signal. *)
Lemma debug_for_exhausted path microservice_name num_approach packages n :
  let v := version path microservice_name num_approach packages in
  forall i i_before w,
    S n = Z.to_nat (MAX_DEBUGGING_ITERATIONS - i) ->
    builds_fail (S n) w ->
    repairable_from v i w ->
    answered w ->
    exists w',
      debug_for path microservice_name num_approach packages
        (range i MAX_DEBUGGING_ITERATIONS) i_before w =
        (Raise (MaxDebugTimeReachedException (txt "Could not debug the microservice.")), w') /\
      pushed w' = pushed w ++ map v (range i MAX_DEBUGGING_ITERATIONS) /\
      made_dirs w' = made_dirs w ++ map v (range (i + 1) (MAX_DEBUGGING_ITERATIONS + 1)).
Proof.
  intros v. induction n as [|n IH]; intros i i_before w Hn Hall Hrep Hanswered;
    rewrite (range_cons i) by lia; rewrite debug_for_cons; cbv zeta;
    pose proof (Hall 0 ltac:(lia)) as Hfail; rewrite Nat.add_0_r in Hfail; rewrite Hfail;
    fold v; set (w1 := set_pushed _ w);
    set (error := process_error_message _);
    destruct Hrep as ((files & Hfiles & [docker Hdocker]) & Hfresh & Hdistinct);
    assert (answered w1) as Hanswered1 by exact Hanswered;
    assert (answered (snd (summarize_error error (snd (makedirs (v (i + 1)%Z) w1)))))
      as Hanswered' by (intros k; rewrite summarize_error_backend, makedirs_backend;
                        apply Hanswered);
    destruct (is_dependency_issue_returns error docker
                (snd (summarize_error error (snd (makedirs (v (i + 1)%Z) w1)))) Hanswered')
      as (dependency & wd & Hdep & _);
    destruct (do_debug_iteration_runs error (v (i + 1)%Z) (v i) files docker
                dependency w1 wd Hanswered1 Hfiles Hdocker (Hfresh (i + 1)%Z ltac:(lia)) Hdep)
      as (w2 & Hrun & Hfs);
    rewrite Hrun;
    pose proof (do_debug_iteration_backend _ _ _ _ _ _ Hrun) as Hbackend;
    apply do_debug_iteration_frame in Hrun as [(Hp & Hh & _) Hcases];
    (destruct Hcases as [[_ Hdirs]|(e & ? & _)]; [|discriminate]).
  - replace (i =? MAX_DEBUGGING_ITERATIONS - 1)%Z with true by lia.
    eexists. split; [reflexivity|].
    rewrite Hp, Hdirs. subst w1. cbn [pushed made_dirs set_pushed].
    rewrite (range_nil (i + 1)) by lia.
    rewrite (range_cons (i + 1)), (range_nil (i + 1 + 1)) by lia. split; reflexivity.
  - replace (i =? MAX_DEBUGGING_ITERATIONS - 1)%Z with false by lia.
    destruct (IH (i + 1)%Z (Some i) w2) as (w' & Hrun' & Hp' & Hd').
    + lia.
    + eapply builds_fail_next; [exact Hall|exact Hh|exact Hp].
    + split; [|split].
      * eexists. rewrite Hfs. split; [apply lookup_insert_eq|].
        apply apply_updates_keeps. eauto.
      * intros j Hj. rewrite Hfs, lookup_insert_ne.
        -- apply (Hfresh j). lia.
        -- apply Hdistinct; lia.
      * intros j j' Hj Hj'. apply Hdistinct; lia.
    + intros k. rewrite Hbackend. apply Hanswered.
    + exists w'. split; [exact Hrun'|].
      rewrite Hp', Hd', Hp, Hdirs. subst w1. cbn [pushed made_dirs set_pushed].
      rewrite (range_cons (i + 1) (MAX_DEBUGGING_ITERATIONS + 1)) by lia.
      cbn [map]. rewrite <- !app_assoc. split; reflexivity.
Qed.

(** C2.  With [MAX_DEBUGGING_ITERATIONS] at least 1, a run of
    [debug_microservice] pushes the versions 1, 2, ..., [pushes] and makes
    the versions 2, 3, ..., [repairs + 1], with [repairs <= pushes <=
    MAX_DEBUGGING_ITERATIONS - 1].  When every build ends with an error
    the run ends with an exception; it is [MaxDebugTimeReachedException],
    raised after the repair of the last allowed iteration, when the first
    version is there with its build file, the later versions have fresh
    folders of their own and the backend answers. *)
Theorem debug_microservice_bounded path microservice_name num_approach packages w :
  (1 <= MAX_DEBUGGING_ITERATIONS)%Z ->
  let v := version path microservice_name num_approach packages in
  exists r w',
    debug_microservice path microservice_name num_approach packages w = (r, w') /\
    (exists repairs pushes : nat,
       repairs <= pushes /\ (Z.of_nat pushes <= MAX_DEBUGGING_ITERATIONS - 1)%Z /\
       pushed w' = pushed w ++ map v (range 1 (1 + Z.of_nat pushes)) /\
       made_dirs w' = made_dirs w ++ map v (range 2 (2 + Z.of_nat repairs))) /\
    (builds_fail (Z.to_nat (MAX_DEBUGGING_ITERATIONS - 1)) w ->
     (exists e, r = Raise e) /\
     ((1 < MAX_DEBUGGING_ITERATIONS)%Z -> repairable_from v 1 w -> answered w ->
      r = Raise (MaxDebugTimeReachedException (txt "Could not debug the microservice.")) /\
      pushed w' = pushed w ++ map v (range 1 MAX_DEBUGGING_ITERATIONS) /\
      made_dirs w' = made_dirs w ++ map v (range 2 (MAX_DEBUGGING_ITERATIONS + 1)))).
Proof.
  intros Hmax v. unfold debug_microservice, debug_from.
  pose proof (debug_for_bounded path microservice_name num_approach packages
                (Z.to_nat (MAX_DEBUGGING_ITERATIONS - 1)) 1%Z None w eq_refl) as Hb.
  cbv zeta in Hb. fold v in Hb.
  destruct Hb as (k & m & Hk & Hm & _ & Hp & Hd).
  unfold bind at 1.
  destruct (debug_for _ _ _ _ _ _ w) as [r0 w'] eqn:Hrun. cbn [snd] in *.
  exists (match r0 with
          | Return (Some i) => Return (v i)
          | Return None => Raise (UnboundLocalError (txt "i"))
          | Raise e => Raise e
          | Unfinished => Unfinished
          end), w'.
  split; [now destruct r0 as [[i|]| |]|].
  split; [exists m, k; repeat split; [lia|lia|exact Hp|exact Hd]|].
  intros Hall.
  destruct (Z.to_nat (MAX_DEBUGGING_ITERATIONS - 1)) as [|n] eqn:Hn.
  - rewrite range_nil in Hrun by lia. injection Hrun as <- <-.
    split; [eauto|]. lia.
  - destruct (debug_for_all_fail path microservice_name num_approach packages n
                1%Z None w ltac:(lia) Hall) as (e & w'' & Hrun').
    rewrite Hrun in Hrun'. injection Hrun' as -> <-.
    split; [eauto|]. intros _ Hrep Hanswered.
    destruct (debug_for_exhausted path microservice_name num_approach packages n
                1%Z None w ltac:(lia) Hall Hrep Hanswered) as (w'' & Hrun' & Hp' & Hd').
    rewrite Hrun in Hrun'. injection Hrun' as -> <-. auto.
Qed.

(** C4.  When the push of iteration [i] yields no error,
    [debug_microservice] asks the registry once and is over: with the
    artifact present it returns the path of version [i], with the artifact
    absent it raises an exception; in both cases nothing else happens, no
    repair and no further push. *)
Theorem debug_from_no_error path microservice_name num_approach packages i i_before w :
  (i < MAX_DEBUGGING_ITERATIONS)%Z ->
  let this_version := version path microservice_name num_approach packages i in
  let log_hubble := hubble w (length (pushed w)) in
  let w' := set_hub_queries (hub_queries w ++ [microservice_name])
              (set_pushed (pushed w ++ [this_version]) w) in
  truthy (process_error_message log_hubble) = false ->
  debug_from path microservice_name num_approach packages i i_before w =
  if hub w (length (hub_queries w))
  then (Return this_version, w')
  else (Raise (Exception (microservice_name ++ txt " not in hub. Hubble logs: " ++ log_hubble)),
        w').
Proof.
  intros Hi this_version log_hubble w' Herr. unfold debug_from.
  rewrite range_cons by lia. unfold bind at 1.
  rewrite debug_for_cons. cbv zeta. fold log_hubble. rewrite Herr.
  now destruct (hub w _).
Qed.

(** After a repair that was not the last allowed one, [debug_microservice]
    goes on with the next iteration. *)
Lemma debug_from_repaired path microservice_name num_approach packages i i_before w w2 :
  (i < MAX_DEBUGGING_ITERATIONS - 1)%Z ->
  let error := process_error_message (hubble w (length (pushed w))) in
  truthy error = true ->
  do_debug_iteration error
    (version path microservice_name num_approach packages (i + 1))
    (version path microservice_name num_approach packages i)
    (set_pushed (pushed w ++ [version path microservice_name num_approach packages i]) w) =
    (Return tt, w2) ->
  debug_from path microservice_name num_approach packages i i_before w =
  debug_from path microservice_name num_approach packages (i + 1) (Some i) w2.
Proof.
  intros Hi error Herr Hrun. unfold debug_from.
  rewrite (range_cons i) by lia. unfold bind at 1.
  rewrite debug_for_cons. cbv zeta. fold error. rewrite Herr, Hrun.
  now replace (i =? MAX_DEBUGGING_ITERATIONS - 1)%Z with false by lia.
Qed.

End Loop.

(** C2 at a first version without content whose builds all fail: two
    pushes, two repairs, the bounded-retry signal. *)
Lemma debug_microservice_bounded_witness :
  exists w',
    debug_microservice (txt "out") (txt "Adder") 0 [txt "numpy"] Example.drafted =
      (Raise (MaxDebugTimeReachedException (txt "Could not debug the microservice.")), w') /\
    length (pushed w') = 2 /\ length (made_dirs w') = 3.
Proof.
  destruct (debug_microservice_bounded (txt "out") (txt "Adder") 0 [txt "numpy"]
              Example.drafted)
    as (r & w' & Hrun & _ & Hfail).
  - vm_compute. discriminate.
  - destruct Hfail as [_ Hsignal].
    + intros j Hj. vm_compute. reflexivity.
    + destruct Hsignal as (-> & Hpushed & Hdirs).
      * reflexivity.
      * split; [|split].
        -- exists (default ∅ (fs Example.drafted !! Example.adder_v1)).
           split; [vm_compute; reflexivity|]. exists []. vm_compute. reflexivity.
        -- intros j Hj.
           assert (j = 2 \/ j = 3)%Z as [-> | ->]
             by (change MAX_DEBUGGING_ITERATIONS with 3%Z in Hj; lia);
             vm_compute; reflexivity.
        -- intros j j' Hj Hj'.
           assert (j = 2 /\ j' = 3)%Z as [-> ->]
             by (change MAX_DEBUGGING_ITERATIONS with 3%Z in Hj'; lia).
           vm_compute. discriminate.
      * intros n. reflexivity.
      * exists w'. split; [exact Hrun|]. rewrite Hpushed, Hdirs. split; reflexivity.
Defined.

(** C4 at a first version that builds and is published. *)
Lemma debug_from_no_error_witness :
  fst (debug_microservice (txt "out") (txt "Adder") 0 [txt "numpy"] Example.helpful) =
  Return Example.adder_v1.
Proof.
  unfold debug_microservice.
  rewrite (debug_from_no_error (txt "out") (txt "Adder") 0 [txt "numpy"] 1 None
             Example.helpful).
  - reflexivity.
  - reflexivity.
  - reflexivity.
Defined.

(* ================================================================== *)
(** * The refinement of the task *)
(* ================================================================== *)

Lemma read_until_given_given rounds val w :
  val <> [] -> read_until_given rounds val w = (Return val, w).
Proof. destruct val; [congruence|]. now destruct rounds. Qed.

(** The loop of [get_user_input] passes over the empty lines and returns
    the first line with content. *)
Lemma read_until_given_reads line rest blanks :
  line <> [] ->
  forall rounds w,
    blanks < rounds ->
    stdin w = repeat [] blanks ++ line :: rest ->
    read_until_given rounds [] w =
    (Return line, set_terminal rest (prompts w ++ repeat (txt "you: ") (S blanks)) w).
Proof.
  intros Hline. induction blanks as [|blanks IH]; intros rounds w Hr Hin;
    (destruct rounds as [|rounds]; [lia|]);
    cbn [read_until_given truthy]; unfold bind at 1; unfold input at 1; rewrite Hin;
    cbn [repeat app].
  - now rewrite read_until_given_given.
  - rewrite (IH rounds) with (w := set_terminal _ _ w); [|lia|reflexivity].
    cbn [prompts set_terminal]. unfold set_terminal at 1. cbn.
    rewrite <- app_assoc. reflexivity.
Qed.

Lemma get_user_input_reads employee prompt_to_user line rest blanks w :
  line <> [] ->
  stdin w = repeat [] blanks ++ line :: rest ->
  get_user_input employee prompt_to_user w =
  (Return line,
   set_terminal rest
     (prompts w ++
      [emoji employee ++ txt "❓ " ++ prompt_to_user ++ [NL] ++ txt "you: "] ++
      repeat (txt "you: ") blanks) w).
Proof.
  intros Hline Hin. unfold get_user_input.
  unfold bind at 1. unfold input at 1. rewrite Hin.
  destruct blanks as [|blanks]; cbn [repeat app].
  - now rewrite read_until_given_given by assumption.
  - rewrite (read_until_given_reads line rest blanks Hline);
      [| cbn [length]; rewrite length_app, repeat_length; cbn [length]; lia | reflexivity].
    cbn [prompts set_terminal]. unfold set_terminal at 1. cbn.
    rewrite <- app_assoc. reflexivity.
Qed.

(** C9.  One round of the loop of [refine_task], with [VERBOSE] set and
    the request answered.  When
    the reply of the model has a finalized task, the loop stores it in the
    specification and is over.  When the reply has neither a finalized
    task nor a question, the whole reply is shown to the human as the
    question, and the loop goes on with the answer of the human (the
    first line of input that is not empty). *)
Theorem refine_task_iteration rounds pm messages task_description verbose w :
  environ w !! txt "VERBOSE" = Some verbose ->
  gpt_failure w (length (gpt_requests w)) = None ->
  let agent_response_raw := gpt_backend w (length (gpt_requests w)) in
  let asked :=
    set_gpt_requests (gpt_requests w ++ [messages ++ [human task_description]]) w in
  let task_final :=
    extract_content_from_result agent_response_raw (txt "task-final.txt") false in
  let question :=
    extract_content_from_result agent_response_raw (txt "prompt.txt") false in
  (task_final <> [] ->
   refine_task_loop (S rounds) pm messages task_description w =
   (Return tt,
    set_specification
      {| task := Some task_final; test := test (microservice_specification w) |} asked)) /\
  (task_final = [] -> question = [] ->
   forall blanks line rest,
     line <> [] ->
     stdin w = repeat [] blanks ++ line :: rest ->
     refine_task_loop (S rounds) pm messages task_description w =
     refine_task_loop rounds pm messages line
       (set_terminal rest
          (prompts w ++
           [emoji pm ++ txt "❓ " ++ (agent_response_raw ++ [NL] ++ txt ": ") ++ [NL] ++
            txt "you: "] ++
           repeat (txt "you: ") blanks) asked)).
Proof.
  intros Henv Hanswer raw asked task_final question.
  assert (refine_task_loop (S rounds) pm messages task_description w =
          (if truthy task_final then set_task task_final
           else if truthy question then
             task_description <- get_user_input pm question ;;
             refine_task_loop rounds pm
               (messages ++ [human task_description]) task_description
           else
             task_description <- get_user_input pm (raw ++ [NL] ++ txt ": ") ;;
             refine_task_loop rounds pm messages task_description) asked) as ->.
  { cbn [refine_task_loop]. unfold bind at 1. unfold getenv at 1. rewrite Henv.
    unfold bind at 1. rewrite chat_as_answered by assumption. reflexivity. }
  split.
  - intros Hfinal. apply truthy_true in Hfinal. rewrite Hfinal. reflexivity.
  - intros Hfinal Hquestion blanks line rest Hline Hin.
    rewrite Hfinal, Hquestion. cbn [truthy].
    unfold bind at 1.
    rewrite (get_user_input_reads pm _ line rest blanks asked Hline Hin).
    reflexivity.
Qed.

(** C9 at a model whose first reply has no block and whose second reply
    has the finalized task: the reply is shown, the answer is read after
    an empty line, and the second round stores the task. *)
Lemma refine_task_iteration_witness :
  fst (refine_task_loop 2 Example.alice [] (txt "add") Example.chatty) = Return tt /\
  task (microservice_specification
          (snd (refine_task_loop 2 Example.alice [] (txt "add") Example.chatty))) =
    Some (txt "Add two numbers given as JSON.") /\
  prompts (snd (refine_task_loop 2 Example.alice [] (txt "add") Example.chatty)) =
    [txt "*❓ What do you mean?" ++ [NL] ++ txt ": " ++ [NL] ++ txt "you: "; txt "you: "].
Proof.
  rewrite (proj2 (refine_task_iteration 1 Example.alice [] (txt "add") (txt "true")
                    Example.chatty eq_refl eq_refl) eq_refl eq_refl 1 (txt "I mean sums") []);
    [|discriminate|reflexivity].
  vm_compute. repeat split.
Defined.

(* ================================================================== *)
(** * The approaches *)
(* ================================================================== *)

Section Approaches.
Context `{Constants} `{Templates} `{Collaborators}.

(** The bounded-retry signal never leaves the loop over the approaches. *)
Lemma generate_for_no_signal path name approaches :
  forall w msg,
    fst (generate_for path name approaches w) <> Raise (MaxDebugTimeReachedException msg).
Proof.
  induction approaches as [|[num_approach packages] approaches IH]; intros w msg.
  - discriminate.
  - cbn [generate_for].
    destruct (attempt path name num_approach packages w) as [[[]|e|] w'];
      try discriminate.
    destruct e; try discriminate. apply IH.
Qed.

Lemma generate_for_exhausted path name approaches :
  forall w,
    exhausts_all path name approaches w ->
    fst (generate_for path name approaches w) = Return tt.
Proof.
  induction approaches as [|[n p] approaches IH]; intros w; [reflexivity|].
  cbn [exhausts_all generate_for]. intros (msg & w' & -> & Hrest). now apply IH.
Qed.

(** C6.  In the loop of [generate] over the approaches: when an approach
    ends with the bounded-retry signal, the loop goes on with the next
    approach, in the world the failed one left; when an approach runs to
    its end, the loop is over and no later approach is tried; the
    bounded-retry signal never leaves the loop; and when every approach
    ends with it, the loop ends normally. *)
Theorem generate_for_fallback path name num_approach packages approaches w :
  (forall msg w',
     attempt path name num_approach packages w =
       (Raise (MaxDebugTimeReachedException msg), w') ->
     generate_for path name ((num_approach, packages) :: approaches) w =
     generate_for path name approaches w') /\
  (forall w',
     attempt path name num_approach packages w = (Return tt, w') ->
     generate_for path name ((num_approach, packages) :: approaches) w = (Return tt, w')) /\
  (forall msg,
     fst (generate_for path name ((num_approach, packages) :: approaches) w) <>
     Raise (MaxDebugTimeReachedException msg)) /\
  (exhausts_all path name ((num_approach, packages) :: approaches) w ->
   fst (generate_for path name ((num_approach, packages) :: approaches) w) = Return tt).
Proof.
  split; [|split; [|split]].
  - intros msg w' Hrun. cbn [generate_for]. now rewrite Hrun.
  - intros w' Hrun. cbn [generate_for]. now rewrite Hrun.
  - intros msg. apply generate_for_no_signal.
  - apply generate_for_exhausted.
Qed.

End Approaches.

(** C6 at two approaches in a world where every build fails: both end
    with the bounded-retry signal, the second after the first, and the
    loop ends normally. *)
Lemma generate_for_fallback_witness :
  fst (generate_for (txt "out") (txt "Adder") [(0%Z, [txt "numpy"]); (1%Z, [txt "scipy"])]
         Example.barren) = Return tt /\
  length (made_dirs
            (snd (generate_for (txt "out") (txt "Adder")
                    [(0%Z, [txt "numpy"]); (1%Z, [txt "scipy"])] Example.barren))) = 6.
Proof.
  split.
  - apply (proj2 (proj2 (proj2 (generate_for_fallback (txt "out") (txt "Adder") 0
                                  [txt "numpy"] [(1%Z, [txt "scipy"])] Example.barren)))).
    exists (txt "Could not debug the microservice."),
      (snd (attempt (txt "out") (txt "Adder") 0 [txt "numpy"] Example.barren)).
    split; [vm_compute; reflexivity|].
    exists (txt "Could not debug the microservice."),
      (snd (attempt (txt "out") (txt "Adder") 1 [txt "scipy"]
              (snd (attempt (txt "out") (txt "Adder") 0 [txt "numpy"] Example.barren)))).
    split; [vm_compute; reflexivity|exact I].
  - rewrite (proj1 (generate_for_fallback (txt "out") (txt "Adder") 0
                      [txt "numpy"] [(1%Z, [txt "scipy"])] Example.barren)
               (txt "Could not debug the microservice.")
               (snd (attempt (txt "out") (txt "Adder") 0 [txt "numpy"] Example.barren)))
      by (vm_compute; reflexivity).
    vm_compute. reflexivity.
Defined.

(** The whole of [generate] in a world where the model writes every
    block and every build succeeds: the first approach is completed. *)
Lemma generate_helpful :
  fst (generate 5 (txt "out") Example.helpful) = Return tt /\
  made_dirs (snd (generate 5 (txt "out") Example.helpful)) =
    [get_microservice_path (txt "out") (txt "Adder0") [txt "numpy"] 0 1].
Proof. vm_compute. split; reflexivity. Qed.

(* ================================================================== *)
(** * More of the extraction *)
(* ================================================================== *)

(* ---------- whitespace at the ends ---------- *)

Lemma lstrip_head s c : head (lstrip s) = Some c -> is_space c = false.
Proof.
  induction s as [|a s IH]; simpl; [discriminate|].
  destruct (is_space a) eqn:Ha; [exact IH|]. simpl. now intros [= <-].
Qed.

Lemma lstrip_suffix s : exists ws, s = ws ++ lstrip s /\ forallb is_space ws = true.
Proof.
  induction s as [|a s (ws & Hs & Hws)]; simpl.
  - now exists [].
  - destruct (is_space a) eqn:Ha.
    + exists (a :: ws). simpl. rewrite Ha, Hws. split; [congruence|reflexivity].
    + now exists [].
Qed.

Lemma lstrip_snoc_solid s c :
  is_space c = false -> lstrip (s ++ [c]) = lstrip s ++ [c].
Proof.
  intros Hc. induction s as [|a s IH]; simpl.
  - now rewrite Hc.
  - destruct (is_space a); [exact IH|reflexivity].
Qed.

Lemma rstrip_cons_solid s c : is_space c = false -> rstrip (c :: s) = c :: rstrip s.
Proof.
  intros Hc. unfold rstrip. simpl. rewrite lstrip_snoc_solid by assumption.
  now rewrite rev_app_distr.
Qed.

Lemma rstrip_prefix s : exists ws, s = rstrip s ++ ws /\ forallb is_space ws = true.
Proof.
  unfold rstrip. destruct (lstrip_suffix (rev s)) as (ws & Hs & Hws).
  exists (rev ws). split.
  - apply (f_equal (@rev _)) in Hs. rewrite rev_involutive, rev_app_distr in Hs. exact Hs.
  - rewrite forallb_forall in *. intros x Hx. apply Hws. now apply in_rev.
Qed.

Lemma last_rev_head (s : text) : last (rev s) = head s.
Proof. destruct s as [|a s]; [reflexivity|]. simpl. apply last_snoc. Qed.

Lemma rstrip_last s c : last (rstrip s) = Some c -> is_space c = false.
Proof.
  unfold rstrip. rewrite last_rev_head. apply lstrip_head.
Qed.

Lemma strip_head s c : head (strip s) = Some c -> is_space c = false.
Proof.
  unfold strip. destruct (lstrip s) as [|a l] eqn:E; [discriminate|].
  assert (is_space a = false) as Ha by (apply (lstrip_head s); now rewrite E).
  rewrite rstrip_cons_solid by assumption. simpl. now intros [= <-].
Qed.

Lemma strip_last s c : last (strip s) = Some c -> is_space c = false.
Proof. apply rstrip_last. Qed.

Lemma occurs_strip s : occurs (strip s) s.
Proof.
  destruct (lstrip_suffix s) as (ws & Hs & _).
  destruct (rstrip_prefix (lstrip s)) as (ws' & Hs' & _).
  exists ws, ws'. unfold strip. now rewrite <- Hs', <- Hs.
Qed.

Lemma occurs_trans a b c : occurs a b -> occurs b c -> occurs a c.
Proof.
  intros (p & q & ->) (p' & q' & ->). exists (p' ++ p), (q ++ q').
  now rewrite <- !app_assoc.
Qed.

Lemma occurs_nil s : occurs [] s.
Proof. now exists [], s. Qed.

(* ---------- what a match is made of ---------- *)

Lemma lazy_until_Some close s cap r :
  Re.lazy_until close s = Some (cap, r) -> s = cap ++ close ++ r.
Proof.
  revert cap. induction s as [|c s IH]; intros cap; rewrite lazy_until_eq.
  - destruct (strip_prefix close []) eqn:E; [|discriminate].
    intros [= <- <-]. now apply strip_prefix_Some in E.
  - destruct (strip_prefix close (c :: s)) eqn:E.
    + intros [= <- <-]. now apply strip_prefix_Some in E.
    + destruct (Re.lazy_until close s) as [[cap' r']|]; [|discriminate].
      intros [= <- <-]. simpl. f_equal. now apply IH.
Qed.

Lemma word_run_suffix s : exists w, s = w ++ Re.word_run s.
Proof.
  induction s as [|c s [w Hw]]; simpl; [now exists []|].
  destruct (is_word c); [|now exists []].
  exists (c :: w). simpl. now f_equal.
Qed.

Lemma tag_line_Some s r : Re.tag_line s = Some r -> exists tag, s = tag ++ NL :: r.
Proof.
  destruct s as [|c s]; simpl; [discriminate|].
  destruct (is_word c); [|discriminate].
  destruct (word_run_suffix s) as [w Hw].
  destruct (Re.word_run s) as [|n r']; [discriminate|].
  destruct (Ascii.eqb_spec n NL) as [->|]; [|discriminate].
  intros [= <-]. exists (c :: w). simpl. now f_equal.
Qed.

Lemma fence_body_Some close s cap r :
  Re.fence_body close s = Some (cap, r) -> exists tag, s = tag ++ cap ++ close ++ r.
Proof.
  unfold Re.fence_body.
  destruct (Re.tag_line s) as [s1|] eqn:Et.
  - destruct (Re.lazy_until close s1) as [[cap' r']|] eqn:El.
    + intros [= <- <-]. apply tag_line_Some in Et as [tag ->].
      apply lazy_until_Some in El. exists (tag ++ [NL]). rewrite <- app_assoc. simpl.
      now rewrite El.
    + intros Hl. apply lazy_until_Some in Hl. now exists [].
  - intros Hl. apply lazy_until_Some in Hl. now exists [].
Qed.

Lemma file_name_Some name s r :
  Re.file_name name s = Some r ->
  exists label, s = label ++ r /\ length label = length name.
Proof.
  revert s. induction name as [|p name IH]; intros s; simpl.
  - intros [= ->]. now exists [].
  - destruct s as [|c s]; [discriminate|]. destruct (Re.atom p c); [|discriminate].
    intros (l & -> & Hl)%IH. exists (c :: l). simpl. now rewrite Hl.
Qed.

Lemma header_Some name s r :
  Re.header name s = Some r ->
  exists label,
    s = txt "**" ++ label ++ txt "**" ++ [NL] ++ fence ++ r /\
    length label = length name.
Proof.
  unfold Re.header.
  destruct (strip_prefix (txt "**") s) as [s1|] eqn:E1; [|discriminate].
  apply strip_prefix_Some in E1.
  destruct (Re.file_name name s1) as [s2|] eqn:E2; [|discriminate].
  apply file_name_Some in E2 as (label & -> & Hl).
  intros E3. apply strip_prefix_Some in E3. subst. now exists label.
Qed.

Lemma labeled_here_Some name s cap r :
  Re.labeled_here name s = Some (cap, r) ->
  occurs cap s /\ occurs line_fence s.
Proof.
  unfold Re.labeled_here. destruct (Re.header name s) as [s3|] eqn:Eh; [|discriminate].
  intros [tag Hb]%fence_body_Some.
  apply header_Some in Eh as (label & -> & _). subst s3. split.
  - exists (txt "**" ++ label ++ txt "**" ++ [NL] ++ fence ++ tag), (NL :: txt "```" ++ r).
    now rewrite <- !app_assoc.
  - exists (txt "**" ++ label ++ txt "**"), (tag ++ cap ++ (NL :: txt "```") ++ r).
    now rewrite <- !app_assoc.
Qed.

Lemma single_here_Some s cap r :
  Re.single_here s = Some (cap, r) -> occurs cap s /\ occurs fence s.
Proof.
  unfold Re.single_here. destruct (strip_prefix (txt "```") s) as [s1|] eqn:E1; [|discriminate].
  apply strip_prefix_Some in E1. intros [tag Hb]%fence_body_Some. subst. split.
  - exists (txt "```" ++ tag), (txt "```" ++ r). now rewrite <- !app_assoc.
  - now exists [], (tag ++ cap ++ txt "```" ++ r).
Qed.

Lemma occurs_cons needle c s : occurs needle s -> occurs needle (c :: s).
Proof. intros (p & q & ->). now exists (c :: p), q. Qed.

Lemma search_Some here (P : text -> text -> Prop) :
  (forall s cap r, here s = Some (cap, r) -> P cap s) ->
  (forall cap c s, P cap s -> P cap (c :: s)) ->
  forall s bol cap, Re.search here bol s = Some cap -> P cap s.
Proof.
  intros Hhere Hcons. induction s as [|c s IH]; intros bol cap; rewrite search_eq.
  - destruct bol; [|discriminate].
    destruct (here []) as [[cap' r]|] eqn:E; [|discriminate].
    intros [= <-]. eauto.
  - destruct (if bol then here (c :: s) else None) as [[cap' r]|] eqn:E.
    + intros [= <-]. destruct bol; [eauto|discriminate].
    + intros Hs. eauto.
Qed.

Lemma findall_In here (P : text -> text -> Prop) :
  (forall s cap r, here s = Some (cap, r) -> P cap s) ->
  (forall cap c s, P cap s -> P cap (c :: s)) ->
  forall s skip bol cap, In cap (Re.findall here skip bol s) -> P cap s.
Proof.
  intros Hhere Hcons. induction s as [|c s IH]; intros skip bol cap; rewrite findall_eq.
  - destruct skip; [|intros []].
    destruct (if bol then here [] else None) as [[cap' r]|] eqn:E; [|intros []].
    intros [<-|[]]. destruct bol; [eauto|discriminate].
  - destruct skip; [|eauto].
    destruct (if bol then here (c :: s) else None) as [[cap' r]|] eqn:E.
    + intros [<-|Hin]; [destruct bol; [eauto|discriminate]|eauto].
    + eauto.
Qed.

(** X1.  What [extract_content_from_result] returns is a part of the
    response: the extractor cuts out and trims, it never makes up or
    rewrites content. *)
Theorem extract_content_occurs plain_text file_name match_single_block :
  Re.plain_name file_name = true ->
  occurs (extract_content_from_result plain_text file_name match_single_block) plain_text.
Proof.
  intros _. unfold extract_content_from_result.
  destruct (Re.search _ _ _) as [cap|] eqn:Es.
  - apply (occurs_trans _ cap); [apply occurs_strip|].
    revert Es. apply (search_Some (Re.labeled_here file_name) (fun cap s => occurs cap s)).
    + intros s c r Hh. now apply labeled_here_Some in Hh.
    + intros; now apply occurs_cons.
  - destruct match_single_block; [|apply occurs_nil].
    destruct (Re.findall _ _ _ _) as [|block [|]] eqn:Ef; try apply occurs_nil.
    apply (occurs_trans _ block); [apply occurs_strip|].
    apply (findall_In Re.single_here (fun cap s => occurs cap s)) with (skip := 0) (bol := true).
    + intros s c r Hh. now apply single_here_Some in Hh.
    + intros; now apply occurs_cons.
    + rewrite Ef. now left.
Qed.

Lemma trimmed_strip s : trimmed (strip s) = true.
Proof.
  unfold trimmed, solid_at. apply andb_true_iff. split.
  - destruct (head (strip s)) as [c|] eqn:Hc; [|reflexivity].
    now rewrite (strip_head s c Hc).
  - destruct (last (strip s)) as [c|] eqn:Hc; [|reflexivity].
    now rewrite (strip_last s c Hc).
Qed.

(** X2.  What [extract_content_from_result] returns has no whitespace at
    its start and none at its end. *)
Theorem extract_content_trimmed plain_text file_name match_single_block :
  Re.plain_name file_name = true ->
  trimmed (extract_content_from_result plain_text file_name match_single_block) = true.
Proof.
  intros _. unfold extract_content_from_result.
  destruct (Re.search _ _ _) as [cap|]; [apply trimmed_strip|].
  destruct match_single_block; [|reflexivity].
  destruct (Re.findall _ _ _ _) as [|block [|]]; try reflexivity.
  apply trimmed_strip.
Qed.

(** X3.  A response without a triple backtick gives the empty string, in
    both modes of [extract_content_from_result]. *)
Theorem extract_content_needs_fence plain_text file_name match_single_block :
  Re.plain_name file_name = true ->
  contains fence plain_text = false ->
  extract_content_from_result plain_text file_name match_single_block = [].
Proof.
  intros _ Hfree.
  assert (~ occurs fence plain_text) as Hno.
  { intros Ho. apply contains_occurs in Ho. congruence. }
  unfold extract_content_from_result.
  destruct (Re.search _ _ _) as [cap|] eqn:Es.
  - exfalso. apply Hno. revert Es.
    apply (search_Some (Re.labeled_here file_name) (fun _ s => occurs fence s)).
    + intros s c r Hh. apply labeled_here_Some in Hh as [_ (p & q & ->)].
      exists (p ++ [NL]), q. unfold line_fence. now rewrite <- app_assoc.
    + intros; now apply occurs_cons.
  - destruct match_single_block; [|reflexivity].
    destruct (Re.findall _ _ _ _) as [|block [|]] eqn:Ef; try reflexivity.
    exfalso. apply Hno.
    apply (findall_In Re.single_here (fun _ s => occurs fence s))
      with (skip := 0) (bol := true) (cap := block).
    + intros s c r Hh. now apply single_here_Some in Hh.
    + intros; now apply occurs_cons.
    + rewrite Ef. now left.
Qed.

(** X1 at a labeled block after a line of prose. *)
Lemma extract_content_occurs_witness :
  occurs
    (extract_content_from_result
       (Example.preamble ++
        labeled_block (txt "microservice.py") (txt "python") Example.inline_fence_body)
       (txt "microservice.py") false)
    (Example.preamble ++
     labeled_block (txt "microservice.py") (txt "python") Example.inline_fence_body).
Proof. apply extract_content_occurs. reflexivity. Defined.

(** X2 at a body with spaces around it. *)
Lemma extract_content_trimmed_witness :
  trimmed
    (extract_content_from_result
       (labeled_block (txt "microservice.py") (txt "python") (txt "  x = 1  "))
       (txt "microservice.py") false) = true.
Proof. apply extract_content_trimmed. reflexivity. Defined.

(** X3 at an apology. *)
Lemma extract_content_needs_fence_witness :
  extract_content_from_result (txt "I am sorry.") (txt "microservice.py") true = [].
Proof. apply extract_content_needs_fence; reflexivity. Defined.

Lemma file_name_label name label r :
  label_like name label = true -> Re.file_name name (label ++ r) = Some r.
Proof.
  revert label. induction name as [|p name IH]; intros [|c label]; simpl; try discriminate.
  - reflexivity.
  - intros [Hc Hl]%andb_true_iff. unfold Re.atom. revert Hc.
    destruct (Ascii.eqb_spec p "."); subst.
    + destruct (Ascii.eqb_spec c NL); subst; simpl; [|intros _; now apply IH].
      vm_compute. discriminate.
    + rewrite andb_false_l, orb_false_r. intros ->. now apply IH.
Qed.

Lemma header_label name label r :
  label_like name label = true ->
  Re.header name (txt "**" ++ label ++ txt "**" ++ [NL] ++ fence ++ r) = Some r.
Proof.
  intros Hl. unfold Re.header.
  rewrite strip_prefix_app, file_name_label by assumption.
  apply (strip_prefix_app ("*" :: "*" :: NL :: txt "```")%char r).
Qed.

(** X4.  The file name goes into the pattern unescaped, so its dots are
    wildcards: a labeled block is also read when its label has any
    character but the newline where the file name has a dot. *)
Theorem extract_label_pattern pre name label tag body post match_single_block :
  Re.plain_name name = true ->
  label_like name label = true ->
  forallb is_word tag = true ->
  first_header name true (pre ++ labeled_block label tag body ++ post) = Some (length pre) ->
  contains line_fence (NL :: body) = false ->
  extract_content_from_result (pre ++ labeled_block label tag body ++ post) name
    match_single_block = strip body.
Proof.
  intros _ Hlabel Htag Hfirst Hfree.
  destruct (fence_body_labeled tag body post Htag Hfree) as (cap & Hcap & Hstrip).
  unfold extract_content_from_result.
  rewrite (search_first_header name pre _ true cap post Hfirst); [assumption|].
  unfold Re.labeled_here, labeled_block.
  repeat rewrite <- app_assoc.
  rewrite header_label by assumption. simpl app.
  exact Hcap.
Qed.

(** X4 at a label with a hyphen for the dot. *)
Lemma extract_label_pattern_witness :
  extract_content_from_result
    (labeled_block (txt "requirements-txt") [] (txt "numpy") ++ [NL])
    (txt "requirements.txt") false = txt "numpy".
Proof.
  apply (extract_label_pattern [] (txt "requirements.txt") (txt "requirements-txt") []
           (txt "numpy") [NL] false); vm_compute; reflexivity.
Defined.

Lemma contains_line_fence_tag tag s :
  existsb (Ascii.eqb NL) tag = false ->
  contains line_fence s = false ->
  contains line_fence (tag ++ s) = false.
Proof.
  intros Ht Hs. induction tag as [|c tag IH]; [exact Hs|].
  simpl in Ht. apply orb_false_iff in Ht as [Hc Ht].
  simpl. rewrite (IH Ht), orb_false_r.
  unfold startswith, line_fence. simpl. now rewrite Hc.
Qed.

Lemma tag_line_odd tag r :
  forallb is_word tag = false ->
  existsb (Ascii.eqb NL) tag = false ->
  Re.tag_line (tag ++ r) = None.
Proof.
  destruct tag as [|c tag]; [discriminate|]. simpl.
  destruct (is_word c) eqn:Hc; [|reflexivity]. simpl.
  intros Hw [_ Hn]%orb_false_iff.
  induction tag as [|d tag IH]; [discriminate|].
  simpl in *. apply orb_false_iff in Hn as [Hd Hn].
  destruct (is_word d) eqn:Hwd; simpl in *.
  - now apply IH.
  - rewrite Ascii.eqb_sym, Hd. reflexivity.
Qed.

(** X5.  When what follows the opening fence of a labeled block on its
    line is not a run of word characters (as in [c++]), it is not taken
    for the language tag: the extractor returns it together with the
    body. *)
Theorem extract_info_string_kept pre name tag body post match_single_block :
  Re.plain_name name = true ->
  forallb is_word tag = false ->
  existsb (Ascii.eqb NL) tag = false ->
  first_header name true (pre ++ labeled_block name tag body ++ post) = Some (length pre) ->
  contains line_fence (NL :: body) = false ->
  extract_content_from_result (pre ++ labeled_block name tag body ++ post) name
    match_single_block = strip (tag ++ NL :: body).
Proof.
  intros _ Hodd Hline Hfirst Hfree.
  unfold extract_content_from_result.
  rewrite (search_first_header name pre _ true (tag ++ NL :: body) post Hfirst); [reflexivity|].
  unfold Re.labeled_here, labeled_block.
  repeat rewrite <- app_assoc.
  rewrite header_labeled_block. unfold Re.fence_body.
  rewrite tag_line_odd by assumption.
  replace (tag ++ [NL] ++ body ++ [NL] ++ fence ++ post)
    with ((tag ++ NL :: body) ++ line_fence ++ post)
    by (unfold line_fence; simpl; now rewrite <- app_assoc).
  apply lazy_until_first.
  intros c1 c2 Heq Hne. apply line_fence_not_across; [assumption|].
  apply (contains_false_suffix _ c1). rewrite <- Heq.
  now apply contains_line_fence_tag.
Qed.

(** X5 at the info string [c++]. *)
Lemma extract_info_string_kept_witness :
  extract_content_from_result
    (labeled_block (txt "microservice.py") (txt "c++") (txt "int main() {}"))
    (txt "microservice.py") false = txt "c++" ++ [NL] ++ txt "int main() {}".
Proof.
  apply (extract_info_string_kept [] (txt "microservice.py") (txt "c++")
           (txt "int main() {}") [] false); vm_compute; reflexivity.
Defined.

Lemma lazy_until_None close s :
  contains close s = false -> Re.lazy_until close s = None.
Proof.
  induction s as [|c s IH]; rewrite lazy_until_eq; simpl; unfold startswith.
  - destruct (strip_prefix close []); [discriminate|reflexivity].
  - destruct (strip_prefix close (c :: s)); [discriminate|]. simpl.
    intros Hc. now rewrite IH.
Qed.

Lemma is_word_not_space c : is_word c = true -> is_space c = false.
Proof.
  destruct c as [[] [] [] [] [] [] [] []]; vm_compute; congruence.
Qed.

Lemma is_word_not_newline c : is_word c = true -> Ascii.eqb NL c = false.
Proof.
  destruct c as [[] [] [] [] [] [] [] []]; vm_compute; congruence.
Qed.

Lemma strip_word tag : forallb is_word tag = true -> strip tag = tag.
Proof.
  intros Hw. unfold strip.
  assert (forall t, forallb is_word t = true -> lstrip t = t) as Hl.
  { intros [|c t]; [reflexivity|]. simpl. intros [Hc _]%andb_true_iff.
    now rewrite is_word_not_space. }
  rewrite Hl by assumption. unfold rstrip. rewrite Hl.
  - apply rev_involutive.
  - rewrite forallb_forall in *. intros x Hx. apply Hw. now apply in_rev.
Qed.

(** X6.  A labeled block whose closing fence follows the line of the
    language tag at once, with no line fence after it, gives the language
    tag as the content. *)
Theorem extract_block_without_content pre name tag post match_single_block :
  Re.plain_name name = true ->
  tag <> [] ->
  forallb is_word tag = true ->
  first_header name true
    (pre ++ txt "**" ++ name ++ txt "**" ++ [NL] ++ fence ++ tag ++ line_fence ++ post)
    = Some (length pre) ->
  contains line_fence (fence ++ post) = false ->
  extract_content_from_result
    (pre ++ txt "**" ++ name ++ txt "**" ++ [NL] ++ fence ++ tag ++ line_fence ++ post)
    name match_single_block = tag.
Proof.
  intros _ Hne Hw Hfirst Hfree.
  unfold extract_content_from_result.
  rewrite (search_first_header name pre _ true tag post Hfirst).
  - now apply strip_word.
  - unfold Re.labeled_here. rewrite header_labeled_block. unfold Re.fence_body.
    change (tag ++ line_fence ++ post) with (tag ++ NL :: fence ++ post).
    rewrite tag_line_tag by assumption.
    change (NL :: txt "```") with line_fence.
    rewrite (lazy_until_None line_fence (fence ++ post)) by assumption.
    change (tag ++ NL :: fence ++ post) with (tag ++ line_fence ++ post).
    apply lazy_until_first.
    intros c1 c2 Heq Hc2. apply line_fence_not_across; [assumption|].
    apply (contains_false_suffix _ c1). rewrite <- Heq.
    clear -Hw. induction tag as [|c tag IH]; [reflexivity|].
    simpl in *. apply andb_true_iff in Hw as [Hc Hw]. rewrite (IH Hw), orb_false_r.
    unfold startswith, line_fence. simpl. now rewrite is_word_not_newline.
Qed.

(** X6 at an empty Python block. *)
Lemma extract_block_without_content_witness :
  extract_content_from_result
    (txt "**microservice.py**" ++ [NL] ++ txt "```python" ++ [NL] ++ txt "```")
    (txt "microservice.py") false = txt "python".
Proof.
  apply (extract_block_without_content [] (txt "microservice.py") (txt "python") [] false);
    vm_compute; try reflexivity. discriminate.
Defined.

(* ================================================================== *)
(** * The wrapping of the files *)
(* ================================================================== *)

Lemma fold_left_agree {A B} (f g : A -> B -> A) (l : list B) :
  (forall x, In x l -> forall a, f a x = g a x) ->
  forall a, fold_left f l a = fold_left g l a.
Proof.
  induction l as [|x l IH]; intros Hfg a; [reflexivity|].
  simpl. rewrite (Hfg x) by now left. apply IH. intros; apply Hfg. now right.
Qed.

Lemma fold_left_grows {B} (f : text -> B -> text) (l : list B) :
  (forall a x, exists r, f a x = a ++ r) ->
  forall acc, exists rest, fold_left f l acc = acc ++ rest.
Proof.
  intros Hf. induction l as [|x l IH]; intros acc; simpl.
  - exists []. now rewrite app_nil_r.
  - destruct (Hf acc x) as [r ->]. destruct (IH (acc ++ r)) as [rest ->].
    exists (r ++ rest). now rewrite app_assoc.
Qed.

Lemma lstrip_solid_inside u c v :
  is_space c = false -> exists u', lstrip (u ++ c :: v) = u' ++ c :: v.
Proof.
  intros Hc. induction u as [|a u [u' IH]]; simpl.
  - rewrite Hc. now exists [].
  - destruct (is_space a); [now exists u'|now exists (a :: u)].
Qed.

Lemma rstrip_solid_inside a c x :
  is_space c = false -> exists post, rstrip (a ++ c :: x) = a ++ c :: post.
Proof.
  intros Hc. unfold rstrip. rewrite rev_app_distr. simpl. rewrite <- app_assoc. simpl.
  destruct (lstrip_solid_inside (rev x) c (rev a) Hc) as [u' ->].
  exists (rev u'). rewrite rev_app_distr. simpl. rewrite rev_involutive.
  now rewrite <- app_assoc.
Qed.

Lemma strip_solid_ends c a d x :
  is_space c = false -> is_space d = false ->
  exists post, strip ((c :: a) ++ d :: x) = (c :: a) ++ d :: post.
Proof.
  intros Hc Hd. unfold strip. simpl. rewrite Hc.
  apply (rstrip_solid_inside (c :: a) d x Hd).
Qed.

(** A labeled block at the start of the response is the one read. *)
Lemma extract_leading_block name tag body post match_single_block :
  forallb is_word tag = true ->
  contains line_fence (NL :: body) = false ->
  extract_content_from_result (labeled_block name tag body ++ post) name match_single_block
  = strip body.
Proof.
  intros Htag Hfree.
  destruct (fence_body_labeled tag body post Htag Hfree) as (cap & Hcap & Hstrip).
  unfold extract_content_from_result.
  assert (Re.labeled_here name (labeled_block name tag body ++ post) = Some (cap, post)) as Hh.
  { unfold Re.labeled_here, labeled_block. repeat rewrite <- app_assoc.
    rewrite header_labeled_block. simpl app. exact Hcap. }
  rewrite search_eq. cbv iota. rewrite Hh. exact Hstrip.
Qed.

Section Wrapping.
Context `{Constants}.

(** X7.  [files_to_string] shows only the files named in
    [FILE_AND_TAG_PAIRS]: any other file of the dictionary makes no
    difference. *)
Theorem files_to_string_only_listed file_name_to_content restrict_keys file_name file_content :
  file_name ∉ FILE_AND_TAG_PAIRS.*1 ->
  files_to_string (<[file_name := file_content]> file_name_to_content) restrict_keys =
  files_to_string file_name_to_content restrict_keys.
Proof.
  intros Hout. unfold files_to_string. f_equal.
  apply fold_left_agree. intros [k tag] Hin acc.
  rewrite lookup_insert_ne; [reflexivity|].
  intros ->. apply Hout. apply list_elem_of_fmap. exists (k, tag). split; [reflexivity|].
  now apply list_elem_of_In.
Qed.

(** X8.  A restriction of [files_to_string] to a list of keys that is
    not empty is the same as leaving the other files out of the
    dictionary, the way [do_debug_iteration] does for a dependency
    issue. *)
Theorem files_to_string_restricted file_name_to_content keys :
  keys <> [] ->
  files_to_string file_name_to_content (Some keys) =
  files_to_string
    (filter (fun kv => in_list (fst kv) keys = true) file_name_to_content) None.
Proof.
  intros Hkeys. unfold files_to_string. f_equal.
  apply fold_left_agree. intros [k tag] _ acc.
  destruct keys as [|k0 keys]; [congruence|]. cbv iota. rewrite orb_false_l, orb_true_l.
  rewrite map_lookup_filter.
  destruct (file_name_to_content !! k) as [c|]; simpl; [|reflexivity].
  case_guard as Hin; simpl in Hin; simpl.
  - now rewrite Hin.
  - apply not_true_is_false in Hin. now rewrite Hin.
Qed.

(** X9.  What [files_to_string] writes, [extract_content_from_result]
    reads: for the first file of [FILE_AND_TAG_PAIRS] that the dictionary
    has, with a tag of word characters and no line of the content that
    starts with a fence, the extraction from the wrapped files gives the
    trimmed content back. *)
Theorem files_to_string_round_trip file_name_to_content skipped file_name tag later
  file_content match_single_block :
  FILE_AND_TAG_PAIRS = skipped ++ (file_name, tag) :: later ->
  (forall k, k ∈ skipped.*1 -> file_name_to_content !! k = None) ->
  file_name_to_content !! file_name = Some file_content ->
  Re.plain_name file_name = true ->
  forallb is_word tag = true ->
  contains line_fence (NL :: file_content) = false ->
  extract_content_from_result (files_to_string file_name_to_content None) file_name
    match_single_block = strip file_content.
Proof.
  intros Hpairs Hskipped Hfile _ Htag Hfree.
  unfold files_to_string. rewrite Hpairs, fold_left_app. cbn [fold_left].
  match goal with |- context [fold_left ?f skipped []] =>
    assert (fold_left f skipped [] = []) as -> end.
  { clear Hpairs. induction skipped as [|[k t] skipped IH]; [reflexivity|].
    cbn [fold_left]. rewrite Hskipped by (rewrite fmap_cons; left).
    apply IH. intros k' Hk'. apply Hskipped. rewrite fmap_cons. now right. }
  rewrite Hfile. cbn [orb app].
  match goal with |- context [fold_left ?f later ?acc] =>
    assert (exists rest, fold_left f later acc = acc ++ rest) as [rest ->] end.
  { apply fold_left_grows. intros a [k t].
    destruct (file_name_to_content !! k) as [c|]; [|exists []; now rewrite app_nil_r].
    eexists. reflexivity. }
  match goal with |- context [strip ?x] =>
    assert (exists post, strip x = labeled_block file_name tag file_content ++ post)
      as [post ->] end.
  { destruct (strip_solid_ends "*"
      ("*"%char :: file_name ++ txt "**" ++ [NL] ++ fence ++ tag ++ [NL] ++
       file_content ++ [NL] ++ txt "``") "`" (NL :: NL :: rest) eq_refl eq_refl)
      as [post Hpost].
    exists post. etransitivity; [etransitivity; [|exact Hpost]|].
    - f_equal. simpl. repeat (rewrite <- app_assoc; simpl). reflexivity.
    - unfold labeled_block. simpl. repeat (rewrite <- app_assoc; simpl). reflexivity. }
  now apply extract_leading_block.
Qed.

End Wrapping.

(** X7 at [config.yml]. *)
Lemma files_to_string_only_listed_witness :
  files_to_string (<[txt "config.yml" := txt "jtype: Adder"]>
                     {[ txt "microservice.py" := txt "class Adder: pass" ]}) None =
  files_to_string {[ txt "microservice.py" := txt "class Adder: pass" ]} None.
Proof.
  apply (files_to_string_only_listed (H := Example.constants)). vm_compute.
  intros Hin. repeat (apply elem_of_cons in Hin as [Hin|Hin]; [discriminate|]).
  now apply elem_of_nil in Hin.
Defined.

(** X8 at the restriction of [generate_playground]. *)
Lemma files_to_string_restricted_witness :
  files_to_string
    (<[txt "Dockerfile" := txt "FROM python"]>
       {[ txt "microservice.py" := txt "class Adder: pass" ]})
    (Some [txt "microservice.py"; txt "test_microservice.py"]) =
  files_to_string
    (filter (fun kv => in_list (fst kv) [txt "microservice.py"; txt "test_microservice.py"] = true)
       (<[txt "Dockerfile" := txt "FROM python"]>
          {[ txt "microservice.py" := txt "class Adder: pass" ]})) None.
Proof.
  apply (files_to_string_restricted (H := Example.constants)). discriminate.
Defined.

(** X9 at the requirements, the first file of two. *)
Lemma files_to_string_round_trip_witness :
  extract_content_from_result
    (files_to_string
       (<[txt "Dockerfile" := txt "FROM python"]> {[ txt "requirements.txt" := txt "numpy" ]})
       None)
    (txt "requirements.txt") false = txt "numpy".
Proof.
  apply (files_to_string_round_trip (H := Example.constants) _
           [(txt "microservice.py", txt "python"); (txt "test_microservice.py", txt "python")]
           (txt "requirements.txt") [] [(txt "Dockerfile", txt "dockerfile")] (txt "numpy") false);
    try (vm_compute; reflexivity).
  intros k Hk. vm_compute in Hk.
  repeat (apply elem_of_cons in Hk as [->|Hk]; [vm_compute; reflexivity|]).
  now apply elem_of_nil in Hk.
Defined.

(* ================================================================== *)
(** * The human, and the refinement of the test *)
(* ================================================================== *)

Lemma lines_split (lines : list text) :
  (exists blanks, lines = repeat [] blanks) \/
  (exists blanks line rest, line <> [] /\ lines = repeat [] blanks ++ line :: rest).
Proof.
  induction lines as [|l lines [[n ->]|(n & line & rest & Hline & ->)]].
  - left. now exists 0.
  - destruct l as [|c l].
    + left. now exists (S n).
    + right. exists 0, (c :: l), (repeat [] n). split; [discriminate|reflexivity].
  - right. destruct l as [|c l].
    + exists (S n), line, rest. split; [assumption|reflexivity].
    + exists 0, (c :: l), (repeat [] n ++ line :: rest). split; [discriminate|reflexivity].
Qed.

Section Asking.
Context `{Constants} `{Templates} `{Collaborators}.

Lemma read_until_given_eof blanks :
  forall rounds w,
    blanks < rounds ->
    stdin w = repeat [] blanks ->
    read_until_given rounds [] w =
    (Raise EOFError, set_terminal [] (prompts w ++ repeat (txt "you: ") (S blanks)) w).
Proof.
  induction blanks as [|blanks IH]; intros rounds w Hr Hin;
    (destruct rounds as [|rounds]; [lia|]);
    cbn [read_until_given truthy]; unfold bind at 1; unfold input at 1; rewrite Hin;
    cbn [repeat app].
  - reflexivity.
  - rewrite (IH rounds) with (w := set_terminal _ _ w); [|lia|reflexivity].
    cbn [prompts set_terminal]. unfold set_terminal at 1. cbn.
    rewrite <- app_assoc. reflexivity.
Qed.

(** X10.  [get_user_input] passes over the empty lines, asking again
    with [you: ] for each, and returns the first line that is not empty;
    when the input ends before one comes, it ends with [EOFError].  It
    never returns the empty string. *)
Theorem get_user_input_first_line employee prompt_to_user w :
  exists blanks,
    let shown :=
      prompts w ++ [question_prompt employee prompt_to_user] ++ repeat (txt "you: ") blanks in
    (stdin w = repeat [] blanks /\
     get_user_input employee prompt_to_user w = (Raise EOFError, set_terminal [] shown w)) \/
    (exists line rest,
       line <> [] /\ stdin w = repeat [] blanks ++ line :: rest /\
       get_user_input employee prompt_to_user w = (Return line, set_terminal rest shown w)).
Proof.
  destruct (lines_split (stdin w)) as [[n Hin]|(n & line & rest & Hline & Hin)]; exists n.
  - left. split; [assumption|]. unfold get_user_input.
    unfold bind at 1. unfold input at 1. rewrite Hin.
    destruct n as [|n]; cbn [repeat app]; [reflexivity|].
    rewrite (read_until_given_eof n);
      [| cbn [length]; rewrite repeat_length; lia | reflexivity].
    cbn [prompts set_terminal]. unfold set_terminal at 1. cbn.
    rewrite <- app_assoc. reflexivity.
  - right. exists line, rest. repeat split; try assumption.
    now apply get_user_input_reads.
Qed.

(** X11.  A round of [refine_task], with [VERBOSE] set and the request
    answered, in which the reply of the model has a question and no
    finalized task: the question is shown to the human,
    and the next round sends the answer, which is now also part of the
    messages the conversation is opened with. *)
Theorem refine_task_question rounds pm messages task_description verbose blanks line rest w :
  let agent_response_raw := gpt_backend w (length (gpt_requests w)) in
  let asked :=
    set_gpt_requests (gpt_requests w ++ [messages ++ [human task_description]]) w in
  let question :=
    extract_content_from_result agent_response_raw (txt "prompt.txt") false in
  environ w !! txt "VERBOSE" = Some verbose ->
  gpt_failure w (length (gpt_requests w)) = None ->
  extract_content_from_result agent_response_raw (txt "task-final.txt") false = [] ->
  question <> [] ->
  line <> [] ->
  stdin w = repeat [] blanks ++ line :: rest ->
  refine_task_loop (S rounds) pm messages task_description w =
  refine_task_loop rounds pm (messages ++ [human line]) line
    (set_terminal rest
       (prompts w ++ [question_prompt pm question] ++ repeat (txt "you: ") blanks) asked).
Proof.
  intros raw asked question Henv Hanswer Hfinal Hquestion Hline Hin.
  cbn [refine_task_loop]. unfold bind at 1. unfold getenv at 1. rewrite Henv.
  unfold bind at 1. rewrite chat_as_answered by assumption. cbn [fst].
  fold raw. rewrite Hfinal. cbn [truthy]. fold question.
  apply truthy_true in Hquestion. rewrite Hquestion.
  unfold bind at 1.
  rewrite (get_user_input_reads pm _ line rest blanks asked Hline Hin).
  reflexivity.
Qed.

(** X12.  One round of the loop of [refine_test], with [VERBOSE] set and
    the request answered.
    The input is sent wrapped as the block [client-response.txt].  A
    finalized test in the reply is stored in the specification and ends
    the loop.  Otherwise the human is asked, with the question of the
    reply or, when there is none, with the whole reply, and the loop goes
    on with the answer, kept in the messages only in the first case. *)
Theorem refine_test_iteration rounds pm messages user_input verbose w :
  environ w !! txt "VERBOSE" = Some verbose ->
  gpt_failure w (length (gpt_requests w)) = None ->
  let agent_response_raw := gpt_backend w (length (gpt_requests w)) in
  let asked :=
    set_gpt_requests (gpt_requests w ++ [messages ++ [human (client_response user_input)]]) w in
  let test_final :=
    extract_content_from_result agent_response_raw (txt "test-final.txt") false in
  let question :=
    extract_content_from_result agent_response_raw (txt "prompt.txt") false in
  (test_final <> [] ->
   refine_test_loop (S rounds) pm messages user_input w =
   (Return tt,
    set_specification
      {| task := task (microservice_specification w); test := Some test_final |} asked)) /\
  (test_final = [] ->
   forall blanks line rest,
     line <> [] ->
     stdin w = repeat [] blanks ++ line :: rest ->
     refine_test_loop (S rounds) pm messages user_input w =
     refine_test_loop rounds pm
       (if truthy question then messages ++ [human line] else messages) (Some line)
       (set_terminal rest
          (prompts w ++
           [question_prompt pm
              (if truthy question then question else agent_response_raw ++ [NL] ++ txt ": ")] ++
           repeat (txt "you: ") blanks) asked)).
Proof.
  intros Henv Hanswer raw asked test_final question.
  assert (refine_test_loop (S rounds) pm messages user_input w =
          (if truthy test_final then set_test test_final
           else if truthy question then
             user_input <- get_user_input pm question ;;
             refine_test_loop rounds pm (messages ++ [human user_input]) (Some user_input)
           else
             user_input <- get_user_input pm (raw ++ [NL] ++ txt ": ") ;;
             refine_test_loop rounds pm messages (Some user_input)) asked) as ->.
  { cbn [refine_test_loop]. unfold bind at 1. unfold getenv at 1. rewrite Henv.
    unfold bind at 1. rewrite chat_as_answered by assumption. reflexivity. }
  split.
  - intros Hfinal. apply truthy_true in Hfinal. rewrite Hfinal. reflexivity.
  - intros Hfinal blanks line rest Hline Hin.
    rewrite Hfinal. cbn [truthy].
    destruct (truthy question); unfold bind at 1;
      rewrite (get_user_input_reads pm _ line rest blanks asked Hline Hin); reflexivity.
Qed.

(** X13.  The loop of [refine_task] has no bound of its own: as long as
    the backend answers, no reply has a finalized task and the human
    answers,
    every round is followed by another one, whatever their number, with
    one request to the model each and the specification unchanged. *)
Theorem refine_task_loop_no_bound rounds pm messages task_description lines rest w :
  is_Some (environ w !! txt "VERBOSE") ->
  answered w ->
  (forall n, extract_content_from_result (gpt_backend w n) (txt "task-final.txt") false = []) ->
  length lines = rounds ->
  Forall (fun line => line <> []) lines ->
  stdin w = lines ++ rest ->
  exists w',
    refine_task_loop rounds pm messages task_description w = (Unfinished, w') /\
    length (gpt_requests w') = length (gpt_requests w) + rounds /\
    stdin w' = rest /\
    microservice_specification w' = microservice_specification w.
Proof.
  revert pm messages task_description lines rest w.
  induction rounds as [|rounds IH];
    intros pm messages task_description lines rest w [verbose Henv] Hanswered Hnever
      Hlen Hlines Hin.
  - destruct lines; [|discriminate]. exists w. repeat split; [lia|exact Hin].
  - destruct lines as [|line lines]; [discriminate|].
    apply Forall_cons in Hlines as [Hline Hlines]. injection Hlen as Hlen.
    cbn [refine_task_loop]. unfold bind at 1. unfold getenv at 1. rewrite Henv.
    unfold bind at 1. rewrite chat_as_answered by apply Hanswered. cbn [fst].
    rewrite Hnever. cbn [truthy].
    match goal with |- context [set_gpt_requests ?l w] => set (asked := set_gpt_requests l w) end.
    assert (stdin asked = repeat [] 0 ++ line :: lines ++ rest) as Hin' by exact Hin.
    destruct (truthy (extract_content_from_result _ (txt "prompt.txt") false));
      unfold bind at 1;
      rewrite (get_user_input_reads pm _ line (lines ++ rest) 0 asked Hline Hin');
      match goal with |- context [refine_task_loop rounds pm ?m line ?w1] =>
        destruct (IH pm m line lines rest w1) as (w' & Hrun & Hreq & Hrest & Hspec);
          [now exists verbose|exact Hanswered|exact Hnever|exact Hlen|exact Hlines
          |reflexivity|]
      end;
      exists w'; (split; [exact Hrun|]);
      rewrite Hreq, Hrest, Hspec; cbn; rewrite length_app; cbn; repeat split; lia.
Qed.

(** X14.  [generate] reads [VERBOSE] from the environment before the
    first request: with a task given and [VERBOSE] not set it ends with
    [KeyError], and nothing has been sent, asked or written. *)
Theorem generate_needs_verbose rounds microservice_path task_description w :
  task (microservice_specification w) = Some task_description ->
  task_description <> [] ->
  environ w !! txt "VERBOSE" = None ->
  generate (S rounds) microservice_path w = (Raise (KeyError (txt "VERBOSE")), w).
Proof.
  intros Htask Hgiven Henv.
  unfold generate, refine_specification, refine_task.
  unfold bind at 1. unfold bind at 1. unfold bind at 1. unfold get at 1.
  rewrite Htask. cbn [truthy_opt]. apply truthy_true in Hgiven. rewrite Hgiven.
  cbn [negb]. unfold bind at 1. unfold ret at 1.
  cbn [refine_task_loop]. unfold bind at 1. unfold getenv at 1. rewrite Henv.
  reflexivity.
Qed.

End Asking.

(** X11 at a model that asks which numbers are meant. *)
Lemma refine_task_question_witness :
  refine_task_loop 2 Example.alice [] (txt "add") Cases.curious =
  refine_task_loop 1 Example.alice [human (txt "integers")] (txt "integers")
    (set_terminal [txt "small ones"]
       [question_prompt Example.alice (txt "Which numbers?")]
       (set_gpt_requests [[human (txt "add")]] Cases.curious)).
Proof.
  apply (refine_task_question 1 Example.alice [] (txt "add") (txt "false") 0
           (txt "integers") [txt "small ones"] Cases.curious);
    try (vm_compute; reflexivity); vm_compute; discriminate.
Defined.

(** X12 at the same model. *)
Lemma refine_test_iteration_witness :
  refine_test_loop 2 Example.alice [] (Some (txt "add")) Cases.curious =
  refine_test_loop 1 Example.alice [human (txt "integers")] (Some (txt "integers"))
    (set_terminal [txt "small ones"]
       [question_prompt Example.alice (txt "Which numbers?")]
       (set_gpt_requests [[human (client_response (Some (txt "add")))]] Cases.curious)).
Proof.
  apply (proj2 (refine_test_iteration 1 Example.alice [] (Some (txt "add")) (txt "false")
                  Cases.curious eq_refl eq_refl) eq_refl 0 (txt "integers") [txt "small ones"]);
    [discriminate|reflexivity].
Defined.

(** X13 at a model that only ever asks: three answers, three rounds. *)
Lemma refine_task_loop_no_bound_witness :
  exists w',
    refine_task_loop 3 Example.alice [] (txt "add") Cases.endless = (Unfinished, w') /\
    length (gpt_requests w') = 3 /\ stdin w' = [].
Proof.
  destruct (refine_task_loop_no_bound 3 Example.alice [] (txt "add")
              [txt "integers"; txt "small ones"; txt "two of them"] [] Cases.endless)
    as (w' & Hrun & Hreq & Hrest & _).
  - vm_compute. eauto.
  - intros n. reflexivity.
  - intros n. vm_compute. reflexivity.
  - reflexivity.
  - repeat constructor; discriminate.
  - reflexivity.
  - exists w'. repeat split; assumption.
Defined.

(** X14 at an empty environment. *)
Lemma generate_needs_verbose_witness :
  generate 1 (txt "out") Cases.quiet = (Raise (KeyError (txt "VERBOSE")), Cases.quiet).
Proof.
  apply (generate_needs_verbose 0 (txt "out") (txt "add") Cases.quiet);
    try reflexivity. discriminate.
Defined.

Section Handover.
Context `{Constants} `{Templates} `{Collaborators}.

(** X15.  [refine_specification] hands the refined task on: when the
    backend answers and the model finalizes the task in its first reply
    and the test in its second, the refinement of the test is started with the finalized
    task, not with the one the generator was given, both end up in the
    specification, and the human is not asked. *)
Theorem refine_specification_direct rounds verbose task_description w :
  let first := gpt_backend w (length (gpt_requests w)) in
  let second := gpt_backend w (S (length (gpt_requests w))) in
  let task_final := extract_content_from_result first (txt "task-final.txt") false in
  let test_final := extract_content_from_result second (txt "test-final.txt") false in
  environ w !! txt "VERBOSE" = Some verbose ->
  answered w ->
  task (microservice_specification w) = Some task_description ->
  task_description <> [] ->
  task_final <> [] ->
  test_final <> [] ->
  exists w',
    refine_specification (S rounds) w = (Return tt, w') /\
    microservice_specification w' = {| task := Some task_final; test := Some test_final |} /\
    gpt_requests w' =
      gpt_requests w ++
      [[{| msg_role := SystemMessage;
           content := system_task_introduction ++ system_task_iteration |};
        human task_description];
       [{| msg_role := SystemMessage;
           content := system_task_introduction ++ system_test_iteration |};
        human (client_response (Some task_final))]] /\
    stdin w' = stdin w /\ prompts w' = prompts w.
Proof.
  intros first second task_final test_final Henv Hanswered Htask Hgiven Hfinal Htest.
  apply truthy_true in Hgiven, Hfinal, Htest.
  unfold refine_specification, refine_task.
  unfold bind at 1. unfold bind at 1. unfold get at 1. rewrite Htask.
  cbn [truthy_opt default]. rewrite Hgiven. cbn [negb].
  unfold bind at 1. unfold ret at 1.
  cbn [refine_task_loop]. unfold bind at 1. unfold getenv at 1. rewrite Henv.
  unfold bind at 1. rewrite chat_as_answered by apply Hanswered. cbn [fst].
  fold first. fold task_final. rewrite Hfinal.
  unfold set_task, modify. cbv beta iota.
  unfold refine_test. unfold bind at 1. unfold get at 1.
  cbn [refine_test_loop microservice_specification set_specification task].
  unfold bind at 1. unfold getenv at 1.
  cbn [environ set_specification set_gpt_requests]. rewrite Henv.
  unfold bind at 1. rewrite chat_as_answered by apply Hanswered.
  cbn [fst gpt_backend gpt_requests set_specification set_gpt_requests].
  rewrite length_app. cbn [length]. rewrite Nat.add_1_r. fold second. fold test_final.
  rewrite Htest. unfold set_test, modify.
  eexists. split; [reflexivity|].
  cbn. rewrite <- app_assoc. repeat split.
Qed.

End Handover.

(** X15 at a model that finalizes at once. *)
Lemma refine_specification_direct_witness :
  exists w',
    refine_specification 1 Cases.decided = (Return tt, w') /\
    microservice_specification w' =
      {| task := Some (txt "Add two numbers given as JSON."); test := Some (txt "1 + 1 = 2") |} /\
    stdin w' = [].
Proof.
  destruct (refine_specification_direct 0 (txt "false") (txt "add") Cases.decided)
    as (w' & Hrun & Hspec & _ & Hin & _);
    try (vm_compute; reflexivity); try (vm_compute; discriminate).
  exists w'. split; [exact Hrun|]. split; [exact Hspec|exact Hin].
Defined.

(* ================================================================== *)
(** * The first version *)
(* ================================================================== *)

Lemma drafting_only_refl w : drafting_only w w.
Proof. repeat split. Qed.

Lemma drafting_only_trans w1 w2 w3 :
  drafting_only w1 w2 -> drafting_only w2 w3 -> drafting_only w1 w3.
Proof.
  unfold drafting_only, builder_same.
  intros ((?&?&?&?)&?&?&?&?&?&?) ((?&?&?&?)&?&?&?&?&?&?).
  repeat split; congruence.
Qed.

Lemma answered_drafting w w' : drafting_only w w' -> answered w -> answered w'.
Proof. intros (_ & _ & _ & _ & Hfailure & _) Hanswered n. rewrite Hfailure. apply Hanswered. Qed.

Section Drafting.
Context `{Constants} `{Templates} `{Collaborators}.

(** A call of [generate_and_persist_file] that writes, the backend
    answering: one or two requests, one file. *)
Lemma generate_and_persist_file_runs
  section_title template folder file_name examples kwargs files w :
  answered w ->
  truthy folder = true ->
  fs w !! folder = Some files ->
  exists file_content w',
    generate_and_persist_file section_title template (Some folder) file_name
      examples kwargs w = (Return file_content, w') /\
    fs w' = <[folder := <[file_name := file_content]> files]> (fs w) /\
    made_dirs w' = made_dirs w /\
    drafting_only w w' /\
    length (gpt_requests w) + 1 <= length (gpt_requests w') <= length (gpt_requests w) + 2.
Proof.
  intros Hanswered Ht Hfiles.
  unfold generate_and_persist_file, bind, get, chat, chat_as, ret, get_conversation.
  answers Hanswered.
  cbn [fst snd]. rewrite Ht.
  destruct (truthy (extract_content_from_result _ file_name true)) eqn:E;
    cbn [negb]; answers Hanswered; unfold persist_file;
    cbn [fs gpt_backend gpt_requests set_gpt_requests]; rewrite Hfiles.
  - eexists _, _. split; [reflexivity|]. split; [reflexivity|].
    split; [reflexivity|]. split; [repeat split|].
    cbn. rewrite length_app. cbn. lia.
  - eexists _, _. split; [reflexivity|]. split; [reflexivity|].
    split; [reflexivity|]. split; [repeat split|].
    cbn. rewrite !length_app. cbn. lia.
Qed.

Lemma generate_microservice_runs path microservice_name packages num_approach w :
  let v1 := get_microservice_path path microservice_name packages num_approach 1 in
  answered w ->
  v1 <> [] ->
  fs w !! v1 = None ->
  exists microservice_content test_microservice_content requirements_content
         docker_content w',
    generate_microservice path microservice_name packages num_approach w = (Return tt, w') /\
    fs w' =
      <[v1 :=
          <[txt "config.yml" := config_yml microservice_name (txt "microservice.py")]>
            (<[DOCKER_FILE_NAME := docker_content]>
               (<[REQUIREMENTS_FILE_NAME := requirements_content]>
                  (<[TEST_EXECUTOR_FILE_NAME := test_microservice_content]>
                     {[ EXECUTOR_FILE_NAME := microservice_content ]})))]> (fs w) /\
    made_dirs w' = made_dirs w ++ [v1] /\
    drafting_only w w' /\
    length (gpt_requests w) + 4 <= length (gpt_requests w') <= length (gpt_requests w) + 8.
Proof.
  intros v1 Hanswered Hv1 Hfresh. apply truthy_true in Hv1.
  unfold generate_microservice. fold v1.
  unfold bind at 1. unfold makedirs at 1. rewrite Hfresh.
  set (w0 := set_made_dirs _ _).
  assert (fs w0 = <[v1 := ∅]> (fs w)) as Hfs0 by reflexivity.
  assert (made_dirs w0 = made_dirs w ++ [v1]) as Hd0 by reflexivity.
  assert (drafting_only w w0) as Hf0 by (repeat split).
  assert (answered w0) as Ha0 by exact Hanswered.
  assert (length (gpt_requests w0) = length (gpt_requests w)) as Hr0 by reflexivity.
  clearbody w0.
  unfold bind at 1. unfold get at 1.
  unfold bind at 1.
  match goal with |- context [generate_and_persist_file ?s ?t (Some v1) ?f ?e ?k w0] =>
    destruct (generate_and_persist_file_runs s t v1 f e k ∅ w0 Ha0 Hv1)
      as (c1 & w1 & -> & Hfs1 & Hd1 & Hf1 & Hr1) end.
  { rewrite Hfs0. apply lookup_insert_eq. }
  rewrite Hfs0, insert_insert_eq in Hfs1.
  pose proof (answered_drafting _ _ Hf1 Ha0) as Ha1.
  unfold bind at 1. unfold get at 1.
  unfold bind at 1.
  match goal with |- context [generate_and_persist_file ?s ?t (Some v1) ?f ?e ?k w1] =>
    destruct (generate_and_persist_file_runs s t v1 f e k (<[EXECUTOR_FILE_NAME := c1]> ∅) w1 Ha1 Hv1)
      as (c2 & w2 & -> & Hfs2 & Hd2 & Hf2 & Hr2) end.
  { rewrite Hfs1. apply lookup_insert_eq. }
  rewrite Hfs1, insert_insert_eq in Hfs2.
  pose proof (answered_drafting _ _ Hf2 Ha1) as Ha2.
  unfold bind at 1.
  match goal with |- context [generate_and_persist_file ?s ?t (Some v1) ?f ?e ?k w2] =>
    destruct (generate_and_persist_file_runs s t v1 f e k
                (<[TEST_EXECUTOR_FILE_NAME := c2]> (<[EXECUTOR_FILE_NAME := c1]> ∅)) w2 Ha2 Hv1)
      as (c3 & w3 & -> & Hfs3 & Hd3 & Hf3 & Hr3) end.
  { rewrite Hfs2. apply lookup_insert_eq. }
  rewrite Hfs2, insert_insert_eq in Hfs3.
  pose proof (answered_drafting _ _ Hf3 Ha2) as Ha3.
  unfold bind at 1.
  match goal with |- context [generate_and_persist_file ?s ?t (Some v1) ?f ?e ?k w3] =>
    destruct (generate_and_persist_file_runs s t v1 f e k
                (<[REQUIREMENTS_FILE_NAME := c3]>
                   (<[TEST_EXECUTOR_FILE_NAME := c2]> (<[EXECUTOR_FILE_NAME := c1]> ∅))) w3 Ha3 Hv1)
      as (c4 & w4 & -> & Hfs4 & Hd4 & Hf4 & Hr4) end.
  { rewrite Hfs3. apply lookup_insert_eq. }
  rewrite Hfs3, insert_insert_eq in Hfs4.
  pose proof (answered_drafting _ _ Hf4 Ha3) as Ha4.
  unfold write_config_yml, persist_file. cbv beta zeta iota.
  exists c1, c2, c3, c4. eexists. rewrite Hfs4, lookup_insert_eq. split; [reflexivity|].
  cbn [fs made_dirs gpt_requests set_fs].
  split; [now rewrite insert_insert_eq|].
  split; [congruence|].
  split.
  - eapply drafting_only_trans; [exact Hf0|].
    eapply drafting_only_trans; [exact Hf1|].
    eapply drafting_only_trans; [exact Hf2|].
    eapply drafting_only_trans; [exact Hf3|].
    eapply drafting_only_trans; [exact Hf4|]. repeat split.
  - lia.
Qed.

(** X16.  In a fresh folder, the backend answering,
    [generate_microservice] makes the first version: the folder holds the four generated files and [config.yml],
    nothing else of the file system is touched, nothing is pushed, and
    four to eight requests are sent to the model. *)
Theorem generate_microservice_first_version path microservice_name packages num_approach w :
  let v1 := get_microservice_path path microservice_name packages num_approach 1 in
  answered w ->
  v1 <> [] ->
  fs w !! v1 = None ->
  exists microservice_content test_microservice_content requirements_content
         docker_content w',
    generate_microservice path microservice_name packages num_approach w = (Return tt, w') /\
    fs w' =
      <[v1 :=
          <[txt "config.yml" := config_yml microservice_name (txt "microservice.py")]>
            (<[DOCKER_FILE_NAME := docker_content]>
               (<[REQUIREMENTS_FILE_NAME := requirements_content]>
                  (<[TEST_EXECUTOR_FILE_NAME := test_microservice_content]>
                     {[ EXECUTOR_FILE_NAME := microservice_content ]})))]> (fs w) /\
    made_dirs w' = made_dirs w ++ [v1] /\
    drafting_only w w' /\
    length (gpt_requests w) + 4 <= length (gpt_requests w') <= length (gpt_requests w) + 8.
Proof. apply generate_microservice_runs. Qed.

(** X17.  When the folder of the first version of an approach is there
    already, [generate] ends with [FileExistsError]: nothing is
    overwritten, the model is not called, and the later approaches are not
    tried. *)
Theorem generate_for_existing_version path microservice_name num_approach packages approaches w :
  let v1 := get_microservice_path path microservice_name packages num_approach 1 in
  is_Some (fs w !! v1) ->
  generate_for path microservice_name ((num_approach, packages) :: approaches) w =
  (Raise (FileExistsError v1), w).
Proof.
  intros v1 [files Hthere].
  cbn [generate_for]. unfold attempt, generate_microservice. fold v1.
  unfold bind at 1. unfold bind at 1. unfold makedirs at 1. rewrite Hthere. reflexivity.
Qed.

End Drafting.

(** X16 at a model that writes every block: four requests. *)
Lemma generate_microservice_first_version_witness :
  exists w',
    generate_microservice (txt "out") (txt "Adder") [txt "numpy"] 0 Example.helpful =
      (Return tt, w') /\
    fs w' !! Example.adder_v1 ≫= (.!! txt "config.yml") =
      Some (config_yml (txt "Adder") (txt "microservice.py")) /\
    length (gpt_requests w') = 4.
Proof.
  destruct (generate_microservice_first_version (txt "out") (txt "Adder") [txt "numpy"] 0
              Example.helpful) as (c1 & c2 & c3 & c4 & w' & Hrun & Hfs & _ & _ & _).
  - intros n. reflexivity.
  - discriminate.
  - reflexivity.
  - exists w'. split; [exact Hrun|]. split.
    + rewrite Hfs. unfold Example.adder_v1. rewrite lookup_insert_eq. cbn [mbind option_bind].
      apply lookup_insert_eq.
    + revert Hrun. vm_compute. now intros [= <-].
Defined.

(** X17 at a first version made before. *)
Lemma generate_for_existing_version_witness :
  generate_for (txt "out") (txt "Adder") [(0%Z, [txt "numpy"]); (1%Z, [txt "scipy"])]
    Example.started = (Raise (FileExistsError Example.adder_v1), Example.started).
Proof.
  apply (generate_for_existing_version (txt "out") (txt "Adder") 0 [txt "numpy"]
           [(1%Z, [txt "scipy"])] Example.started).
  vm_compute. eauto.
Defined.

(* ================================================================== *)
(** * More of the repair loop *)
(* ================================================================== *)

Section Debugging.
Context `{Constants} `{Templates} `{Collaborators}.

#[local] Abbreviation version path microservice_name num_approach packages :=
  (get_microservice_path path microservice_name packages num_approach).

(** X18.  With [MAX_DEBUGGING_ITERATIONS] at most 1 the loop of
    [debug_microservice] has no iteration, the variable [i] of the final
    [return] is not bound, and the call ends with [UnboundLocalError]
    without a push. *)
Theorem debug_microservice_no_iteration path microservice_name num_approach packages w :
  (MAX_DEBUGGING_ITERATIONS <= 1)%Z ->
  debug_microservice path microservice_name num_approach packages w =
  (Raise (UnboundLocalError (txt "i")), w).
Proof.
  intros Hmax. unfold debug_microservice, debug_from.
  rewrite range_nil by lia. reflexivity.
Qed.

(** The loop returns at the first build without an error, given that the
    registry knows the microservice. *)
Lemma debug_for_returns path microservice_name num_approach packages n :
  let v := version path microservice_name num_approach packages in
  forall i i_before w i_last w',
    S n = Z.to_nat (MAX_DEBUGGING_ITERATIONS - i) ->
    debug_for path microservice_name num_approach packages
      (range i MAX_DEBUGGING_ITERATIONS) i_before w = (Return i_last, w') ->
    exists k : nat,
      k <= n /\ i_last = Some (i + Z.of_nat k)%Z /\
      pushed w' = pushed w ++ map v (range i (i + Z.of_nat k + 1)) /\
      made_dirs w' = made_dirs w ++ map v (range (i + 1) (i + Z.of_nat k + 1)) /\
      hub_queries w' = hub_queries w ++ [microservice_name] /\
      (forall m, m < k ->
         truthy (process_error_message (hubble w (length (pushed w) + m))) = true) /\
      truthy (process_error_message (hubble w (length (pushed w) + k))) = false /\
      hub w (length (hub_queries w)) = true.
Proof.
  intros v. induction n as [|n IH]; intros i i_before w i_last w' Hn;
    rewrite (range_cons i) by lia; rewrite debug_for_cons; cbv zeta; fold v;
    set (w1 := set_pushed _ w);
    destruct (truthy (process_error_message (hubble w (length (pushed w))))) eqn:Herr.
  - destruct (do_debug_iteration _ _ _ _) as [[[]| |] w2]; try discriminate.
    replace (i =? MAX_DEBUGGING_ITERATIONS - 1)%Z with true by lia. discriminate.
  - destruct (hub w (length (hub_queries w))) eqn:Hhub; [|discriminate].
    intros [= <- <-]. exists 0. rewrite !Z.add_0_r, Nat.add_0_r.
    rewrite (range_cons i), !(range_nil (i + 1)) by lia.
    cbn [pushed made_dirs hub_queries set_pushed set_hub_queries map].
    rewrite app_nil_r. repeat split; try lia; try assumption.
  - destruct (do_debug_iteration _ _ _ _) as [r w2] eqn:Hrun.
    apply do_debug_iteration_frame in Hrun as [(Hp & Hh & Hu & Hq) Hcases].
    destruct r as [[]|e|]; try discriminate.
    destruct Hcases as [[_ Hdirs]|(e & He & _)]; [|discriminate].
    destruct (i =? MAX_DEBUGGING_ITERATIONS - 1)%Z; [discriminate|].
    intros Hrun.
    destruct (IH (i + 1)%Z (Some i) w2 i_last w' ltac:(lia) Hrun)
      as (k & Hk & Hlast & Hp' & Hd' & Hq' & Hfail & Hok & Hhub).
    assert (length (pushed w2) = S (length (pushed w))) as Hlen.
    { rewrite Hp. subst w1. cbn [pushed set_pushed]. rewrite length_app. cbn. lia. }
    exists (S k). repeat split.
    + lia.
    + rewrite Hlast. f_equal. lia.
    + rewrite Hp', Hp. subst w1. cbn [pushed set_pushed].
      rewrite (range_cons i) by lia. cbn [map]. rewrite <- app_assoc.
      replace (i + Z.of_nat (S k) + 1)%Z with (i + 1 + Z.of_nat k + 1)%Z by lia.
      reflexivity.
    + rewrite Hd', Hdirs. subst w1. cbn [made_dirs set_pushed].
      rewrite (range_cons (i + 1)) by lia. cbn [map]. rewrite <- app_assoc.
      replace (i + Z.of_nat (S k) + 1)%Z with (i + 1 + Z.of_nat k + 1)%Z by lia.
      reflexivity.
    + rewrite Hq', Hq. reflexivity.
    + intros [|m] Hm.
      * now rewrite Nat.add_0_r.
      * specialize (Hfail m ltac:(lia)). rewrite Hh, Hlen in Hfail.
        now replace (length (pushed w) + S m) with (S (length (pushed w)) + m) by lia.
    + rewrite Hh, Hlen in Hok.
      now replace (length (pushed w) + S k) with (S (length (pushed w)) + k) by lia.
    + now rewrite Hu, Hq in Hhub.
  - destruct (hub w (length (hub_queries w))) eqn:Hhub; [|discriminate].
    intros [= <- <-]. exists 0. rewrite !Z.add_0_r, Nat.add_0_r.
    rewrite (range_cons i), !(range_nil (i + 1)) by lia.
    cbn [pushed made_dirs hub_queries set_pushed set_hub_queries map].
    rewrite app_nil_r. repeat split; try lia; try assumption.
Qed.

(** X19.  Whenever [debug_microservice] returns a path, it is the path
    of the version pushed last; the build of that version ended without
    an error, the one registry query of the run was answered with yes,
    every earlier build ended with an error, and the versions made are
    exactly the successors of those. *)
Theorem debug_microservice_returns path microservice_name num_approach packages w
  final_version_path w' :
  let v := version path microservice_name num_approach packages in
  debug_microservice path microservice_name num_approach packages w =
    (Return final_version_path, w') ->
  exists repairs : nat,
    (Z.of_nat repairs < MAX_DEBUGGING_ITERATIONS - 1)%Z /\
    final_version_path = v (1 + Z.of_nat repairs)%Z /\
    pushed w' = pushed w ++ map v (range 1 (2 + Z.of_nat repairs)) /\
    made_dirs w' = made_dirs w ++ map v (range 2 (2 + Z.of_nat repairs)) /\
    hub_queries w' = hub_queries w ++ [microservice_name] /\
    (forall m, m < repairs ->
       truthy (process_error_message (hubble w (length (pushed w) + m))) = true) /\
    truthy (process_error_message (hubble w (length (pushed w) + repairs))) = false /\
    hub w (length (hub_queries w)) = true.
Proof.
  intros v. unfold debug_microservice, debug_from. unfold bind at 1.
  destruct (Z_le_gt_dec MAX_DEBUGGING_ITERATIONS 1) as [Hmax|Hmax].
  { rewrite range_nil by lia. discriminate. }
  destruct (debug_for _ _ _ _ _ _ w) as [[i_last| |] w2] eqn:Hrun; try discriminate.
  destruct (debug_for_returns path microservice_name num_approach packages
              (Z.to_nat (MAX_DEBUGGING_ITERATIONS - 1) - 1) 1%Z None w i_last w2
              ltac:(lia) Hrun)
    as (k & Hk & -> & Hp & Hd & Hq & Hfail & Hok & Hhub).
  intros [= <- <-]. exists k. fold v in Hp, Hd. repeat split; try assumption.
  - lia.
  - rewrite Hp. do 3 f_equal. lia.
  - rewrite Hd. do 3 f_equal. lia.
Qed.

(** X20.  A repair that can be written costs, the backend answering,
    three requests to the model (summary, classification, repair), and
    two when the error names a runtime exception. *)
Theorem do_debug_iteration_requests error next prev files docker w :
  answered w ->
  fs w !! prev = Some files ->
  files !! txt "Dockerfile" = Some docker ->
  fs w !! next = None ->
  exists w',
    do_debug_iteration error next prev w = (Return tt, w') /\
    (names_runtime_exception error ->
     length (gpt_requests w') = length (gpt_requests w) + 2) /\
    (~ names_runtime_exception error ->
     length (gpt_requests w') = length (gpt_requests w) + 3).
Proof.
  intros Hanswered Hprev Hdocker Hnext.
  assert (next <> prev) as Hne by congruence.
  unfold do_debug_iteration.
  unfold bind at 1. unfold makedirs at 1. rewrite Hnext.
  set (w0 := set_made_dirs _ _).
  unfold bind at 1. unfold get_all_microservice_files_with_content at 1.
  assert (fs w0 !! prev = Some files) as ->.
  { subst w0. cbn [fs set_made_dirs set_fs]. now rewrite lookup_insert_ne. }
  unfold bind at 1. rewrite (summarize_error_answered error w0) by apply Hanswered.
  set (w1 := set_gpt_requests _ w0).
  unfold bind at 1. rewrite Hdocker. unfold ret at 1.
  unfold bind at 1. unfold is_dependency_issue.
  fold runtime_exception_names.
  destruct (existsb _ runtime_exception_names) eqn:Hfast.
  - unfold ret at 1. unfold bind at 1. unfold get at 1.
    unfold bind at 1. unfold chat. rewrite chat_as_answered by apply Hanswered.
    cbn [fst].
    rewrite (for_each_persist _ next ∅) by apply lookup_insert_eq.
    eexists. split; [reflexivity|]. split.
    + intros _. cbn. rewrite !length_app. cbn. lia.
    + intros Hno. exfalso. apply Hno. now apply existsb_runtime_exception.
  - unfold bind at 1. unfold chat at 1. rewrite chat_as_answered by apply Hanswered.
    unfold ret at 1. unfold bind at 1. unfold get at 1.
    unfold bind at 1. unfold chat. rewrite chat_as_answered by apply Hanswered.
    cbn [fst].
    rewrite (for_each_persist _ next ∅) by apply lookup_insert_eq.
    eexists. split; [reflexivity|]. split.
    + intros Hyes%existsb_runtime_exception. congruence.
    + intros _. cbn. rewrite !length_app. cbn. lia.
Qed.

(** X21.  A version without a [Dockerfile] cannot be repaired:
    [do_debug_iteration] ends with [KeyError], after the folder of the
    successor was made, which stays behind empty, and after the request
    for the summary was sent and answered. *)
Theorem do_debug_iteration_no_dockerfile error next prev files w :
  gpt_failure w (length (gpt_requests w)) = None ->
  fs w !! prev = Some files ->
  files !! txt "Dockerfile" = None ->
  fs w !! next = None ->
  exists w',
    do_debug_iteration error next prev w = (Raise (KeyError (txt "Dockerfile")), w') /\
    fs w' = <[next := ∅]> (fs w) /\
    made_dirs w' = made_dirs w ++ [next] /\
    length (gpt_requests w') = length (gpt_requests w) + 1.
Proof.
  intros Hanswer Hprev Hdocker Hnext.
  assert (next <> prev) as Hne by congruence.
  unfold do_debug_iteration.
  unfold bind at 1. unfold makedirs at 1. rewrite Hnext.
  set (w0 := set_made_dirs _ _).
  unfold bind at 1. unfold get_all_microservice_files_with_content at 1.
  assert (fs w0 !! prev = Some files) as ->.
  { subst w0. cbn [fs set_made_dirs set_fs]. now rewrite lookup_insert_ne. }
  unfold bind at 1. rewrite (summarize_error_answered error w0) by exact Hanswer.
  unfold bind at 1. rewrite Hdocker. unfold raise.
  eexists. split; [reflexivity|]. cbn. rewrite length_app. cbn. repeat split; lia.
Qed.

(** A repair touches no folder but the one of the successor. *)
Lemma do_debug_iteration_elsewhere error next prev w r w' :
  do_debug_iteration error next prev w = (r, w') ->
  forall folder, folder <> next -> fs w' !! folder = fs w !! folder.
Proof.
  unfold do_debug_iteration.
  unfold bind at 1. unfold makedirs at 1.
  destruct (fs w !! next) eqn:Hnext; [intros [= <- <-]; reflexivity|].
  set (w0 := set_made_dirs _ _).
  assert (forall folder, folder <> next -> fs w0 !! folder = fs w !! folder) as Hw0.
  { intros folder Hne. subst w0. cbn [fs set_made_dirs set_fs]. now rewrite lookup_insert_ne. }
  unfold bind at 1. unfold get_all_microservice_files_with_content at 1.
  destruct (fs w0 !! prev) as [files|] eqn:Hprev; [|intros [= <- <-]; exact Hw0].
  unfold bind at 1. unfold summarize_error, bind, chat, chat_as, ret. cbn [fst snd].
  set (w1 := set_gpt_requests _ w0).
  destruct (gpt_failure w0 _); [intros [= <- <-]; exact Hw0|].
  destruct (files !! txt "Dockerfile") as [docker|]; [|intros [= <- <-]; exact Hw0].
  destruct (is_dependency_issue error docker w1) as [r2 w2] eqn:Hdep.
  apply is_dependency_issue_frame in Hdep as (Hfs & _ & _ & _ & Hfinished).
  destruct r2 as [dependency|e|]; [| |congruence].
  2:{ intros [= <- <-] folder Hne. rewrite Hfs. now apply Hw0. }
  unfold get. cbn [fst snd].
  destruct (gpt_failure w2 _).
  { intros [= <- <-] folder Hne. cbn [fs set_gpt_requests]. rewrite Hfs. now apply Hw0. }
  rewrite (for_each_persist _ next ∅).
  2:{ cbn [fs set_gpt_requests]. rewrite Hfs. subst w1 w0.
      cbn [fs set_gpt_requests set_made_dirs set_fs]. apply lookup_insert_eq. }
  intros [= <- <-] folder Hne.
  cbn [fs set_fs set_gpt_requests]. rewrite lookup_insert_ne by congruence.
  rewrite Hfs. now apply Hw0.
Qed.

(** The loop touches no folder but the ones of the successors, and asks
    the registry only when it is about to leave. *)
Lemma debug_for_elsewhere path microservice_name num_approach packages iterations :
  let v := version path microservice_name num_approach packages in
  forall i_before w r w',
    debug_for path microservice_name num_approach packages iterations i_before w = (r, w') ->
    hubble w' = hubble w /\
    (forall folder, (forall i, In i iterations -> folder <> v (i + 1)%Z) ->
       fs w' !! folder = fs w !! folder) /\
    (forall msg, r = Raise (MaxDebugTimeReachedException msg) ->
       hub_queries w' = hub_queries w).
Proof.
  intros v. induction iterations as [|i iterations IH]; intros i_before w r w'.
  - intros [= <- <-]. repeat split.
  - rewrite debug_for_cons. cbv zeta. fold v. set (w1 := set_pushed _ w).
    destruct (truthy _).
    + destruct (do_debug_iteration _ _ _ _) as [r1 w2] eqn:Hrun.
      pose proof (do_debug_iteration_elsewhere _ _ _ _ _ _ Hrun) as Hfs.
      apply do_debug_iteration_frame in Hrun as [(Hp & Hh & Hu & Hq) Hcases].
      destruct r1 as [[]|e|].
      * destruct (i =? _)%Z.
        -- intros [= <- <-]. split; [exact Hh|]. split; [|intros; exact Hq].
           intros folder Hne. apply Hfs, Hne. now left.
        -- intros Hrest. apply IH in Hrest as (Hh' & Hfs' & Hq').
           split; [rewrite Hh', Hh; reflexivity|]. split.
           ++ intros folder Hne. rewrite Hfs' by (intros; apply Hne; now right).
              apply Hfs, Hne. now left.
           ++ intros msg Hr. rewrite (Hq' msg Hr). exact Hq.
      * intros [= <- <-]. split; [exact Hh|]. split; [|intros; exact Hq].
        intros folder Hne. apply Hfs, Hne. now left.
      * intros [= <- <-]. split; [exact Hh|]. split; [|intros; exact Hq].
        intros folder Hne. apply Hfs, Hne. now left.
    + destruct (hub w _); intros [= <- <-]; repeat split; discriminate.
Qed.

(** The loop does not change how the backend will answer. *)
Lemma debug_for_backend path microservice_name num_approach packages iterations :
  forall i_before w r w',
    debug_for path microservice_name num_approach packages iterations i_before w = (r, w') ->
    gpt_failure w' = gpt_failure w.
Proof.
  induction iterations as [|i iterations IH]; intros i_before w r w'.
  - now intros [= <- <-].
  - rewrite debug_for_cons. cbv zeta. set (w1 := set_pushed _ w).
    destruct (truthy _).
    + destruct (do_debug_iteration _ _ _ _) as [r1 w2] eqn:Hrun.
      apply do_debug_iteration_backend in Hrun.
      destruct r1 as [[]|e|]; [|now intros [= <- <-]|now intros [= <- <-]].
      destruct (i =? _)%Z; [now intros [= <- <-]|].
      intros Hrest. apply IH in Hrest. now rewrite Hrest.
    + destruct (hub w _); now intros [= <- <-].
Qed.

Lemma range_In a b k : In k (range a b) <-> (a <= k < b)%Z.
Proof.
  unfold range. rewrite in_map_iff. split.
  - intros (n & <- & Hn%in_seq). lia.
  - intros Hk. exists (Z.to_nat (k - a)). split; [lia|]. apply in_seq. lia.
Qed.

(** An approach whose builds all fail, in full. *)
Lemma attempt_runs_out path microservice_name num_approach packages w :
  let v := version path microservice_name num_approach packages in
  (1 < MAX_DEBUGGING_ITERATIONS)%Z ->
  DOCKER_FILE_NAME = txt "Dockerfile" ->
  v 1%Z <> [] ->
  (forall j, (1 <= j <= MAX_DEBUGGING_ITERATIONS)%Z -> fs w !! v j = None) ->
  (forall j j', (1 <= j < j')%Z -> (j' <= MAX_DEBUGGING_ITERATIONS)%Z -> v j <> v j') ->
  builds_fail (Z.to_nat (MAX_DEBUGGING_ITERATIONS - 1)) w ->
  answered w ->
  exists w',
    attempt path microservice_name num_approach packages w =
      (Raise (MaxDebugTimeReachedException (txt "Could not debug the microservice.")), w') /\
    pushed w' = pushed w ++ map v (range 1 MAX_DEBUGGING_ITERATIONS) /\
    made_dirs w' = made_dirs w ++ map v (range 1 (MAX_DEBUGGING_ITERATIONS + 1)) /\
    hub_queries w' = hub_queries w /\
    hubble w' = hubble w /\
    gpt_failure w' = gpt_failure w /\
    (forall folder, (forall j, (1 <= j <= MAX_DEBUGGING_ITERATIONS)%Z -> folder <> v j) ->
       fs w' !! folder = fs w !! folder).
Proof.
  intros v Hmax Hdocker Hv1 Hfresh Hdistinct Hfail Hanswered.
  destruct (generate_microservice_runs path microservice_name packages num_approach w
              Hanswered Hv1 (Hfresh 1%Z ltac:(lia)))
    as (c1 & c2 & c3 & c4 & w1 & Hgen & Hfs & Hdirs & Hdraft & _).
  pose proof (answered_drafting _ _ Hdraft Hanswered) as Hanswered1.
  destruct Hdraft as ((Hp & Hh & Hu & Hq) & _ & _ & _ & Hbackend & _).
  fold v in Hfs, Hdirs.
  unfold attempt. unfold bind at 1. rewrite Hgen.
  unfold bind at 1. unfold debug_microservice, debug_from. unfold bind at 1.
  destruct (debug_for_exhausted path microservice_name num_approach packages
              (Z.to_nat (MAX_DEBUGGING_ITERATIONS - 1) - 1) 1%Z None w1)
    as (w2 & Hrun & Hp2 & Hd2).
  - lia.
  - replace (S (Z.to_nat (MAX_DEBUGGING_ITERATIONS - 1) - 1))
      with (Z.to_nat (MAX_DEBUGGING_ITERATIONS - 1)) by lia.
    intros j Hj. rewrite Hh, Hp. now apply Hfail.
  - fold v. split; [|split].
    + eexists. rewrite Hfs. split; [apply lookup_insert_eq|].
      rewrite Hdocker.
      destruct (decide (txt "config.yml" = txt "Dockerfile")) as [Heq|Hne].
      * rewrite Heq, lookup_insert_eq. eauto.
      * rewrite lookup_insert_ne, lookup_insert_eq by assumption. eauto.
    + intros j Hj. rewrite Hfs, lookup_insert_ne.
      * apply Hfresh. lia.
      * apply Hdistinct; lia.
    + intros j j' Hj Hj'. apply Hdistinct; lia.
  - exact Hanswered1.
  - rewrite Hrun. exists w2. split; [reflexivity|].
    fold v in Hp2, Hd2.
    pose proof (debug_for_backend _ _ _ _ _ _ _ _ _ Hrun) as Hbackend2.
    destruct (debug_for_elsewhere _ _ _ _ _ _ _ _ _ Hrun) as (Hh2 & Hfs2 & Hq2).
    fold v in Hfs2.
    rewrite Hp2, Hd2, Hp, Hdirs.
    rewrite (range_cons 1 (MAX_DEBUGGING_ITERATIONS + 1)) by lia.
    cbn [map]. rewrite <- app_assoc. repeat split.
    + rewrite (Hq2 _ eq_refl). exact Hq.
    + congruence.
    + congruence.
    + intros folder Hne. rewrite Hfs2.
      * rewrite Hfs. apply lookup_insert_ne. intros Heq. apply (Hne 1%Z); [lia|]. now symmetry.
      * intros i Hi%range_In. apply Hne. lia.
Qed.

(** X22.  One approach, from its generation on: when its folders are
    fresh and distinct, the backend answers and every build ends with an
    error, the first
    version is generated, the versions 1 to [MAX_DEBUGGING_ITERATIONS - 1]
    are pushed, a successor of each is made, and the approach ends with
    [MaxDebugTimeReachedException]; the registry is not asked. *)
Theorem attempt_exhausted path microservice_name num_approach packages w :
  let v := version path microservice_name num_approach packages in
  (1 < MAX_DEBUGGING_ITERATIONS)%Z ->
  DOCKER_FILE_NAME = txt "Dockerfile" ->
  v 1%Z <> [] ->
  (forall j, (1 <= j <= MAX_DEBUGGING_ITERATIONS)%Z -> fs w !! v j = None) ->
  (forall j j', (1 <= j < j')%Z -> (j' <= MAX_DEBUGGING_ITERATIONS)%Z -> v j <> v j') ->
  builds_fail (Z.to_nat (MAX_DEBUGGING_ITERATIONS - 1)) w ->
  answered w ->
  exists w',
    attempt path microservice_name num_approach packages w =
      (Raise (MaxDebugTimeReachedException (txt "Could not debug the microservice.")), w') /\
    pushed w' = pushed w ++ map v (range 1 MAX_DEBUGGING_ITERATIONS) /\
    made_dirs w' = made_dirs w ++ map v (range 1 (MAX_DEBUGGING_ITERATIONS + 1)) /\
    hub_queries w' = hub_queries w.
Proof.
  intros v Hmax Hdocker Hv1 Hfresh Hdistinct Hfail Hanswered.
  destruct (attempt_runs_out path microservice_name num_approach packages w
              Hmax Hdocker Hv1 Hfresh Hdistinct Hfail Hanswered)
    as (w' & Hrun & Hp & Hd & Hq & _).
  exists w'. auto.
Qed.

End Debugging.

(** X18 at one allowed iteration. *)
Lemma debug_microservice_no_iteration_witness :
  @debug_microservice Limits.single_iteration Example.templates Example.collaborators
    (txt "out") (txt "Adder") 0 [txt "numpy"] Example.helpful =
  (Raise (UnboundLocalError (txt "i")), Example.helpful).
Proof.
  apply (debug_microservice_no_iteration (H := Limits.single_iteration)).
  vm_compute. discriminate.
Defined.

(** X19 at a first build without an error. *)
Lemma debug_microservice_returns_witness :
  exists repairs : nat,
    Example.adder_v1 =
      get_microservice_path (txt "out") (txt "Adder") [txt "numpy"] 0 (1 + Z.of_nat repairs) /\
    hub_queries (snd (debug_microservice (txt "out") (txt "Adder") 0 [txt "numpy"]
                        Example.helpful)) = [txt "Adder"].
Proof.
  destruct (debug_microservice_returns (txt "out") (txt "Adder") 0 [txt "numpy"]
              Example.helpful Example.adder_v1
              (snd (debug_microservice (txt "out") (txt "Adder") 0 [txt "numpy"]
                      Example.helpful)))
    as (repairs & _ & Hpath & _ & _ & Hq & _).
  - vm_compute. reflexivity.
  - exists repairs. split; [exact Hpath|exact Hq].
Defined.

(** X20 at a syntax error: three requests. *)
Lemma do_debug_iteration_requests_witness :
  exists w',
    do_debug_iteration (txt "SyntaxError: invalid syntax") (txt "v2") (txt "v1")
      Example.broken = (Return tt, w') /\
    length (gpt_requests w') = 3.
Proof.
  destruct (do_debug_iteration_requests (txt "SyntaxError: invalid syntax") (txt "v2")
              (txt "v1")
              (<[ txt "microservice.py" := txt "class Adder pass" ]>
                 {[ txt "Dockerfile" := txt "FROM python" ]})
              (txt "FROM python") Example.broken)
    as (w' & Hrun & _ & Hslow).
  - intros n. reflexivity.
  - reflexivity.
  - reflexivity.
  - reflexivity.
  - exists w'. split; [exact Hrun|]. apply Hslow.
    intros Hfast%existsb_runtime_exception. vm_compute in Hfast. discriminate.
Defined.

(** X21 at an empty first version. *)
Lemma do_debug_iteration_no_dockerfile_witness :
  exists w',
    do_debug_iteration (txt "SyntaxError: invalid syntax") (txt "v2") Example.adder_v1
      Example.started = (Raise (KeyError (txt "Dockerfile")), w') /\
    fs w' !! txt "v2" = Some ∅ /\
    length (gpt_requests w') = 1.
Proof.
  destruct (do_debug_iteration_no_dockerfile (txt "SyntaxError: invalid syntax") (txt "v2")
              Example.adder_v1 ∅ Example.started)
    as (w' & Hrun & Hfs & _ & Hreq).
  - reflexivity.
  - reflexivity.
  - reflexivity.
  - reflexivity.
  - exists w'. split; [exact Hrun|]. split; [|exact Hreq].
    rewrite Hfs. apply lookup_insert_eq.
Defined.

(** X22 at a world in which every build fails. *)
Lemma attempt_exhausted_witness :
  exists w',
    attempt (txt "out") (txt "Adder") 0 [txt "numpy"] Example.barren =
      (Raise (MaxDebugTimeReachedException (txt "Could not debug the microservice.")), w') /\
    length (pushed w') = 2 /\ length (made_dirs w') = 3 /\ hub_queries w' = [].
Proof.
  destruct (attempt_exhausted (txt "out") (txt "Adder") 0 [txt "numpy"] Example.barren)
    as (w' & Hrun & Hp & Hd & Hq).
  - reflexivity.
  - reflexivity.
  - discriminate.
  - intros j _. apply lookup_empty.
  - intros j j' Hj Hj'. change (@MAX_DEBUGGING_ITERATIONS Example.constants) with 3%Z in Hj'.
    assert ((j = 1 /\ j' = 2) \/ (j = 1 /\ j' = 3) \/ (j = 2 /\ j' = 3))%Z
      as [[-> ->]|[[-> ->]|[-> ->]]] by lia; vm_compute; discriminate.
  - intros j _. reflexivity.
  - intros n. reflexivity.
  - exists w'. split; [exact Hrun|]. rewrite Hp, Hd, Hq. repeat split.
Defined.

(* ================================================================== *)
(** * Giving up *)
(* ================================================================== *)

Lemma NoDup_map_apart {A B} (f : A -> B) (l : list A) :
  NoDup (map f l) -> forall x y, In x l -> In y l -> f x = f y -> x = y.
Proof.
  induction l as [|a l IH]; [intros _ x y []|].
  cbn [map]. intros [Ha Hl]%NoDup_cons x y [<-|Hx] [<-|Hy] Hxy; auto.
  - exfalso. apply Ha. rewrite Hxy. apply list_elem_of_In. now apply in_map.
  - exfalso. apply Ha. rewrite <- Hxy. apply list_elem_of_In. now apply in_map.
Qed.

Lemma range_length a b : length (range a b) = Z.to_nat (b - a).
Proof. unfold range. now rewrite length_map, length_seq. Qed.

Section GivingUp.
Context `{Constants} `{Templates} `{Collaborators}.

(** X23.  When the backend answers and every build ends with an error,
    [generate] tries every approach to its last iteration, one after the other, and then ends
    without an exception: nothing was published and no playground was
    made. *)
Theorem generate_for_gives_up path microservice_name approaches :
  forall w,
    let folders := concat (map (versions path microservice_name (MAX_DEBUGGING_ITERATIONS + 1))
                             approaches) in
    (1 < MAX_DEBUGGING_ITERATIONS)%Z ->
    DOCKER_FILE_NAME = txt "Dockerfile" ->
    NoDup folders ->
    (forall folder, In folder folders -> folder <> [] /\ fs w !! folder = None) ->
    builds_fail (length approaches * Z.to_nat (MAX_DEBUGGING_ITERATIONS - 1)) w ->
    answered w ->
    exists w',
      generate_for path microservice_name approaches w = (Return tt, w') /\
      pushed w' =
        pushed w ++
        concat (map (versions path microservice_name MAX_DEBUGGING_ITERATIONS) approaches) /\
      made_dirs w' = made_dirs w ++ folders /\
      hub_queries w' = hub_queries w.
Proof.
  induction approaches as [|[num_approach packages] approaches IH];
    intros w folders Hmax Hdocker Hnodup Hfresh Hfail Hanswered.
  - exists w. cbn. now rewrite !app_nil_r.
  - subst folders. cbn [map concat] in *.
    set (v := get_microservice_path path microservice_name packages num_approach) in *.
    assert (forall upto, versions path microservice_name upto (num_approach, packages) =
                         map v (range 1 upto)) as Hv by reflexivity.
    rewrite Hv in Hnodup, Hfresh.
    apply NoDup_app in Hnodup as (Hown & Hapart & Hrest).
    assert (forall j, (1 <= j <= MAX_DEBUGGING_ITERATIONS)%Z ->
              In (v j) (map v (range 1 (MAX_DEBUGGING_ITERATIONS + 1)))) as Hin.
    { intros j Hj. apply in_map, range_In. lia. }
    destruct (attempt_runs_out path microservice_name num_approach packages w)
      as (w1 & Hrun & Hp & Hd & Hq & Hh & Hbackend & Hfs); try assumption.
    + apply Hfresh, in_or_app. left. apply Hin. lia.
    + intros j Hj. apply Hfresh, in_or_app. left. now apply Hin.
    + intros j j' Hj Hj' Heq.
      apply (NoDup_map_apart v _ Hown) in Heq; [lia| |]; apply range_In; lia.
    + intros j Hj. apply Hfail. cbn [length Nat.mul]. now apply Nat.lt_lt_add_r.
    + fold v in Hp, Hd, Hfs.
      assert (length (pushed w1) = length (pushed w) + Z.to_nat (MAX_DEBUGGING_ITERATIONS - 1))
        as Hlen by (rewrite Hp, length_app, length_map, range_length; lia).
      destruct (IH w1 Hmax Hdocker Hrest) as (w' & Hrun' & Hp' & Hd' & Hq').
      * intros folder Hfolder. split; [apply Hfresh, in_or_app; now right|].
        rewrite Hfs.
        -- apply Hfresh, in_or_app. now right.
        -- intros j Hj ->. apply (Hapart (v j)); apply list_elem_of_In; [now apply Hin|assumption].
      * intros j Hj. rewrite Hh, Hlen.
        replace (length (pushed w) + Z.to_nat (MAX_DEBUGGING_ITERATIONS - 1) + j)
          with (length (pushed w) + (Z.to_nat (MAX_DEBUGGING_ITERATIONS - 1) + j)) by lia.
        apply Hfail. cbn [length Nat.mul]. lia.
      * intros n. rewrite Hbackend. apply Hanswered.
      * exists w'. cbn [generate_for]. rewrite Hrun. split; [exact Hrun'|].
        rewrite Hp', Hd', Hq', Hp, Hd, Hq, !Hv.
        rewrite <- !app_assoc. repeat split.
Qed.

End GivingUp.

(** X23 at two approaches: four pushes, six folders, no query. *)
Lemma generate_for_gives_up_witness :
  exists w',
    generate_for (txt "out") (txt "Adder") [(0%Z, [txt "numpy"]); (1%Z, [txt "scipy"])]
      Example.barren = (Return tt, w') /\
    length (pushed w') = 4 /\ length (made_dirs w') = 6 /\ hub_queries w' = [].
Proof.
  destruct (generate_for_gives_up (txt "out") (txt "Adder")
              [(0%Z, [txt "numpy"]); (1%Z, [txt "scipy"])] Example.barren)
    as (w' & Hrun & Hp & Hd & Hq).
  - reflexivity.
  - reflexivity.
  - apply (bool_decide_unpack _). vm_compute. reflexivity.
  - intros folder Hfolder. split; [|apply lookup_empty].
    vm_compute in Hfolder. intuition (subst; discriminate).
  - intros j _. reflexivity.
  - intros n. reflexivity.
  - exists w'. split; [exact Hrun|]. rewrite Hp, Hd, Hq. repeat split.
Defined.

(* ================================================================== *)
(** * The proposed approaches *)
(* ================================================================== *)

Lemma split_pieces sep s : split sep s <> [].
Proof.
  destruct s as [|c s]; simpl; [discriminate|].
  destruct (Ascii.eqb c sep); [discriminate|]. now destruct (split sep s).
Qed.

Lemma firstn_In_of {A} (n : nat) (l : list A) x : In x (firstn n l) -> In x l.
Proof.
  revert l. induction n as [|n IH]; intros [|a l]; simpl; try tauto.
  intros [->|Hx]; auto.
Qed.

Lemma slice_to_In {A} (n : Z) (l : list A) x : In x (slice_to n l) -> In x l.
Proof. unfold slice_to. destruct (0 <=? n)%Z; apply firstn_In_of. Qed.

Section Packages.
Context `{Constants} `{Templates} `{Collaborators}.

(** A call of [generate_and_persist_file] without a destination, the
    backend answering. *)
Lemma generate_and_persist_file_unsaved section_title template file_name examples kwargs w :
  let first := gpt_backend w (length (gpt_requests w)) in
  let second := gpt_backend w (S (length (gpt_requests w))) in
  answered w ->
  exists w',
    generate_and_persist_file section_title template None file_name examples kwargs w =
      (Return (if truthy (extract_content_from_result first file_name true)
               then extract_content_from_result first file_name true
               else extract_content_from_result second file_name true), w') /\
    fs w' = fs w /\ made_dirs w' = made_dirs w /\ drafting_only w w' /\
    length (gpt_requests w) + 1 <= length (gpt_requests w') <= length (gpt_requests w) + 2.
Proof.
  intros first second Hanswered.
  unfold generate_and_persist_file, bind, get, chat, chat_as, ret, get_conversation.
  answers Hanswered.
  cbn [fst snd]. fold first.
  destruct (truthy (extract_content_from_result first file_name true)); cbn [negb].
  - eexists. split; [reflexivity|]. cbn. rewrite ?length_app. cbn. repeat split; lia.
  - answers Hanswered. cbn [gpt_backend gpt_requests set_gpt_requests].
    rewrite length_app. cbn [length]. rewrite Nat.add_1_r. fold second.
    eexists. split; [reflexivity|]. cbn. rewrite ?length_app. cbn. repeat split; lia.
Qed.

(** X24.  When the backend answers, [get_possible_packages] returns,
    after one or two requests and without writing a file.  Every approach
    it gives has at least one package, every package name is trimmed,
    there are at most [NUM_IMPLEMENTATION_STRATEGIES] approaches, and at
    least one when that number is positive; when neither reply of the
    model has content, it is the one approach of the one package with the
    empty name.  When the backend fails at the first request, its error
    is what the call ends with. *)
Theorem get_possible_packages_shape w :
  let first := gpt_backend w (length (gpt_requests w)) in
  let second := gpt_backend w (S (length (gpt_requests w))) in
  (answered w ->
   exists packages_list w',
     get_possible_packages w = (Return packages_list, w') /\
     fs w' = fs w /\
     length (gpt_requests w) + 1 <= length (gpt_requests w') <= length (gpt_requests w) + 2 /\
     (forall packages, In packages packages_list ->
        packages <> [] /\ forall package, In package packages -> trimmed package = true) /\
     ((0 <= NUM_IMPLEMENTATION_STRATEGIES)%Z ->
      length packages_list <= Z.to_nat NUM_IMPLEMENTATION_STRATEGIES) /\
     ((1 <= NUM_IMPLEMENTATION_STRATEGIES)%Z -> packages_list <> []) /\
     ((1 <= NUM_IMPLEMENTATION_STRATEGIES)%Z ->
      extract_content_from_result first (txt "packages.csv") true = [] ->
      extract_content_from_result second (txt "packages.csv") true = [] ->
      packages_list = [[[]]])) /\
  (forall error,
     gpt_failure w (length (gpt_requests w)) = Some error ->
     exists w',
       get_possible_packages w = (Raise (BackendError error), w') /\ fs w' = fs w).
Proof.
  intros first second. split.
  - intros Hanswered.
    unfold get_possible_packages. unfold bind at 1. unfold get at 1. unfold bind at 1.
    match goal with |- context [generate_and_persist_file ?s ?t None ?f ?e ?k w] =>
      destruct (generate_and_persist_file_unsaved s t f e k w Hanswered)
        as (w' & -> & Hfs & _ & _ & Hreq) end.
    fold first second.
    set (csv := if truthy _ then _ else _).
    eexists _, w'. split; [reflexivity|]. split; [exact Hfs|]. split; [exact Hreq|].
    split; [|split; [|split]].
    + intros packages Hin%slice_to_In. apply in_map_iff in Hin as (line & <- & _). split.
      * pose proof (split_pieces "," line). now destruct (split "," line).
      * intros package (piece & <- & _)%in_map_iff. apply trimmed_strip.
    + intros Hnum. unfold slice_to.
      replace (0 <=? NUM_IMPLEMENTATION_STRATEGIES)%Z with true by lia.
      apply firstn_le_length.
    + intros Hnum. unfold slice_to.
      replace (0 <=? NUM_IMPLEMENTATION_STRATEGIES)%Z with true by lia.
      pose proof (split_pieces NL csv).
      destruct (split NL csv) as [|line lines]; [congruence|].
      destruct (Z.to_nat NUM_IMPLEMENTATION_STRATEGIES) eqn:Hn; [lia|]. discriminate.
    + intros Hnum Hfirst Hsecond. subst csv. rewrite Hfirst, Hsecond. cbn [truthy].
      unfold slice_to.
      replace (0 <=? NUM_IMPLEMENTATION_STRATEGIES)%Z with true by lia.
      destruct (Z.to_nat NUM_IMPLEMENTATION_STRATEGIES) eqn:Hn; [lia|].
      cbn [split map firstn]. now rewrite firstn_nil.
  - intros error Hfailure.
    unfold get_possible_packages, generate_and_persist_file, bind, get, chat, chat_as.
    cbn [fst snd]. rewrite Hfailure. eexists. split; reflexivity.
Qed.


End Packages.


(** X24 at a model that never writes a block: one approach, of the
    package without a name. *)
Lemma get_possible_packages_shape_witness :
  exists w', get_possible_packages Example.barren = (Return [[[]]], w').
Proof.
  destruct (proj1 (get_possible_packages_shape Example.barren))
    as (packages_list & w' & Hrun & _ & _ & _ & _ & _ & Hempty).
  - intros n. reflexivity.
  - exists w'. rewrite <- Hempty; [exact Hrun| | |].
    + vm_compute. discriminate.
    + vm_compute. reflexivity.
    + vm_compute. reflexivity.
Defined.

(* ================================================================== *)
(** * The playground *)
(* ================================================================== *)

Section Playground.
Context `{Constants} `{Templates} `{Collaborators}.

(** X26.  [generate_playground] for a version that is there, with no
    [gateway] folder yet, the backend answering.  The playground is what
    the extractor finds for [app.py] in the reply to the second request
    or, when that is empty, in the reply to a third, corrective request.
    The [gateway] folder gets the static gateway files, the playground as
    [app.py], the gateway module with its class renamed and [config.yml];
    it is pushed, and the registry is asked for the gateway.  The call
    raises [Exception] when the registry says no, and returns
    otherwise. *)
Theorem generate_playground_publishes microservice_name microservice_path files gateway w :
  let gateway_path := path_join microservice_path (txt "gateway") in
  let gateway_name := txt "Gateway" ++ microservice_name in
  let hubble_log := hubble w (length (pushed w)) in
  let second := gpt_backend w (S (length (gpt_requests w))) in
  let third := gpt_backend w (S (S (length (gpt_requests w)))) in
  let corrected := negb (truthy (extract_content_from_result second (txt "app.py") true)) in
  let playground_content :=
    if corrected then extract_content_from_result third (txt "app.py") true
    else extract_content_from_result second (txt "app.py") true in
  answered w ->
  fs w !! microservice_path = Some files ->
  fs w !! gateway_path = None ->
  static_gateway_files !! txt "custom_gateway.py" = Some gateway ->
  exists w',
    generate_playground microservice_name microservice_path w =
      (if hub w (length (hub_queries w)) then Return tt
       else Raise (Exception (microservice_name ++ txt " not in hub. Hubble logs: " ++
                              hubble_log)),
       w') /\
    fs w' =
      <[gateway_path :=
          <[txt "config.yml" := config_yml gateway_name (txt "custom_gateway.py")]>
            (<[txt "custom_gateway.py" :=
                 replace gateway (txt "class CustomGateway(CompositeGateway):")
                   (txt "class " ++ gateway_name ++ txt "(CompositeGateway):")]>
               (<[txt "app.py" := playground_content]> static_gateway_files))]> (fs w) /\
    pushed w' = pushed w ++ [gateway_path] /\
    hub_queries w' = hub_queries w ++ [gateway_name] /\
    made_dirs w' = made_dirs w /\
    length (gpt_requests w') = length (gpt_requests w) + (if corrected then 3 else 2).
Proof.
  intros gateway_path gateway_name hubble_log second third corrected playground_content
    Hanswered Hfiles Hfresh Hgateway.
  unfold generate_playground. fold gateway_path gateway_name.
  unfold bind at 1. unfold get_all_microservice_files_with_content at 1. rewrite Hfiles.
  unfold bind at 1. unfold chat at 1. rewrite chat_as_answered by apply Hanswered.
  unfold bind at 1. unfold chat at 1. rewrite chat_as_answered by apply Hanswered.
  cbn [fst snd gpt_requests gpt_backend set_gpt_requests].
  rewrite length_app. cbn [length]. rewrite Nat.add_1_r. fold second.
  set (w2 := set_gpt_requests _ _).
  assert (fs w2 = fs w /\ pushed w2 = pushed w /\ hub_queries w2 = hub_queries w /\
          made_dirs w2 = made_dirs w /\ hubble w2 = hubble w /\ hub w2 = hub w /\
          gpt_backend w2 = gpt_backend w /\ answered w2 /\
          length (gpt_requests w2) = length (gpt_requests w) + 2)
    as (Hfs2 & Hp2 & Hq2 & Hd2 & Hh2 & Hu2 & Hb2 & Ha2 & Hr2).
  { subst w2. cbn. rewrite !length_app. cbn. repeat split; try lia. exact Hanswered. }
  clearbody w2.
  unfold bind at 1.
  assert (exists w3,
    (if negb (truthy (extract_content_from_result second (txt "app.py") true))
     then
       r <- chat _ (txt "You must add the app.py code. You most not output any other code") ;;
       let (content_raw, _) := r in
       ret (extract_content_from_result content_raw (txt "app.py") true)
     else ret (extract_content_from_result second (txt "app.py") true)) w2 =
      (Return playground_content, w3) /\
    fs w3 = fs w /\ pushed w3 = pushed w /\ hub_queries w3 = hub_queries w /\
    made_dirs w3 = made_dirs w /\ hubble w3 = hubble w /\ hub w3 = hub w /\
    length (gpt_requests w3) = length (gpt_requests w) + (if corrected then 3 else 2))
    as (w3 & -> & Hfs3 & Hp3 & Hq3 & Hd3 & Hh3 & Hu3 & Hr3).
  { subst playground_content corrected.
    destruct (truthy (extract_content_from_result second (txt "app.py") true)); cbn [negb].
    - eexists. split; [reflexivity|]. repeat split; assumption.
    - unfold bind, chat. rewrite chat_as_answered by apply Ha2. unfold ret.
      rewrite Hb2, Hr2.
      replace (length (gpt_requests w) + 2) with (S (S (length (gpt_requests w)))) by lia.
      fold third.
      eexists. split; [reflexivity|].
      cbn. rewrite length_app. cbn. repeat split; try assumption; lia. }
  unfold bind at 1. unfold copytree at 1. rewrite Hfs3, Hfresh.
  unfold bind at 1. unfold persist_file at 1.
  cbn [fs set_fs]. rewrite lookup_insert_eq, insert_insert_eq.
  unfold bind at 1. unfold read_file at 1.
  cbn [fs set_fs]. rewrite lookup_insert_eq.
  rewrite lookup_insert_ne by discriminate. rewrite Hgateway.
  unfold bind at 1. unfold persist_file at 1.
  cbn [fs set_fs]. rewrite lookup_insert_eq, insert_insert_eq.
  unfold bind at 1. unfold write_config_yml, persist_file. cbv beta zeta.
  cbn [fs set_fs]. rewrite lookup_insert_eq, insert_insert_eq.
  unfold bind at 1. unfold push_executor at 1.
  unfold bind at 1. unfold is_executor_in_hub at 1.
  cbn [hub hub_queries hubble pushed set_fs set_pushed set_hub_queries].
  rewrite Hp3, Hq3, Hh3, Hu3. fold hubble_log.
  eexists. split.
  - destruct (hub w (length (hub_queries w))); reflexivity.
  - cbn. repeat split; assumption.
Qed.

End Playground.

(** X26 at a registry that says no. *)
Lemma generate_playground_publishes_witness :
  exists w',
    generate_playground (txt "Adder") Example.adder_v1 Example.started = (Raise
      (Exception (txt "Adder not in hub. Hubble logs: ERROR: build failed")), w') /\
    fs w' !! path_join Example.adder_v1 (txt "gateway") ≫= (.!! txt "app.py") = Some [] /\
    pushed w' = [path_join Example.adder_v1 (txt "gateway")] /\
    hub_queries w' = [txt "GatewayAdder"] /\
    length (gpt_requests w') = 3.
Proof.
  destruct (generate_playground_publishes (txt "Adder") Example.adder_v1 ∅
              (txt "class CustomGateway(CompositeGateway):") Example.started)
    as (w' & Hrun & Hfs & Hp & Hq & _ & Hr).
  - intros n. reflexivity.
  - reflexivity.
  - reflexivity.
  - reflexivity.
  - exists w'. split; [exact Hrun|]. split; [|split; [exact Hp|split; [exact Hq|exact Hr]]].
    rewrite Hfs, lookup_insert_eq. cbn [mbind option_bind].
    rewrite lookup_insert_ne, lookup_insert_ne by discriminate.
    rewrite lookup_insert_eq. reflexivity.
Defined.
